(** * ptv-check: the train-to-bus recommendation of [api/departures.js]
      and [server.mjs], embedded in Rocq.

    The two JavaScript files compute, from one train departure payload and
    four bus departure payloads of the PTV timetable API, which station to
    leave the train at.  The embedding follows the code after the network
    fetch: payloads are values, [new Date()] is a clock that is read, and an
    exception reaching the [catch] block is answered with the HTTP 500
    response where the block can still send one. *)

From Stdlib Require Import ZArith List String Ascii Bool Lia.
From Stdlib Require Import Sorting.Sorted Sorting.Permutation.
From stdpp Require Import gmap.
Import ListNotations.

Local Open Scope string_scope.
Local Open Scope list_scope.
Local Open Scope Z_scope.
#[local] Set Default Proof Using "Type".

(** ** ECMAScript values and Dates *)

(** The value of a time field of a departure record: the key is absent
    ([undefined]), [null] (the feed has no estimate), or a string. *)
Inductive jsval : Type :=
| JUndefined
| JNull
| JStr (s : string).

(** ToBoolean on these values: only a non-empty string is truthy. *)
Definition truthy (v : jsval) : bool :=
  match v with
  | JStr s => negb (String.eqb s "")
  | _ => false
  end.

(** [a || b] *)
Definition js_or (a b : jsval) : jsval := if truthy a then a else b.

(** The time value of a Date object, in milliseconds since the epoch;
    [None] is NaN, the time value of an Invalid Date. *)
Definition Date : Type := option Z.

Definition maxTime : Z := 8640000000000000.

(** TimeClip of ECMA-262: a time value outside +-8.64e15 ms is NaN. *)
Definition TimeClip (t : Z) : Date :=
  if Z.abs t <=? maxTime then Some t else None.

(** [new Date(n)] for a number [n] ([None] is NaN). *)
Definition Date_of_number (n : option Z) : Date :=
  match n with
  | Some t => TimeClip t
  | None => None
  end.

(** [d.getTime() + m * 60 * 1000] as a number. *)
Definition plusMinutes (d : Date) (m : Z) : option Z :=
  match d with
  | Some t => Some (t + m * 60 * 1000)
  | None => None
  end.

(** [new Date(d.getTime() + m * 60 * 1000)] *)
Definition addMinutes (d : Date) (m : Z) : Date :=
  Date_of_number (plusMinutes d m).

(** [a >= b] on two Dates: both are converted to numbers, and a comparison
    with NaN is false. *)
Definition Date_ge (a b : Date) : bool :=
  match a, b with
  | Some x, Some y => y <=? x
  | _, _ => false
  end.

(** [a - b] on two Dates, a number. *)
Definition Date_minus (a b : Date) : option Z :=
  match a, b with
  | Some x, Some y => Some (x - y)
  | _, _ => None
  end.

(** [Math.round(x / 60000)] for the integer [x] that the difference of two
    time values is: the nearest integer, a half rounded up.  The quotient is
    taken exactly.  The code subtracts and divides doubles.  As long as
    [|x| <= 2^53] the difference is exact and the quotient is within 2^-16
    of the exact one, which is less than the 1/60000 between a quotient and
    a half that it is not, and [Math.round] gives this integer; beyond 2^53
    it need not.  Where the minutes are counted below, the instants are
    taken in that range. *)
Definition Math_round_div60000 (x : Z) : Z := (x + 30000) / 60000.

(** ** Array.prototype.sort

    The comparator returns a number; SortCompare reads NaN as +0.  The sort
    is stable (ECMAScript 2019), so for a comparator that is a consistent
    order the result is the one computed here, where each element, from the
    last to the first, is inserted before the first element it does not
    come after.  For other comparators the standard leaves the order to the
    engine. *)
Section ArraySort.
Context {A : Type} (comparefn : A -> A -> option Z).

Definition comesAfter (x y : A) : bool :=
  match comparefn x y with
  | Some v => 0 <? v
  | None => false
  end.

Fixpoint insertSorted (x : A) (l : list A) : list A :=
  match l with
  | [] => [x]
  | y :: l' => if comesAfter x y then y :: insertSorted x l' else x :: l
  end.

Fixpoint Array_sort (l : list A) : list A :=
  match l with
  | [] => []
  | x :: l' => insertSorted x (Array_sort l')
  end.
End ArraySort.

(** ** The PTV payloads *)

Record RawDeparture : Type := {
  route_id : Z;
  direction_id : option Z;
  scheduled_departure_utc : jsval;
  estimated_departure_utc : jsval;
}.

(** An entry of the [routes] object of a payload (expand=route). *)
Record Route : Type := {
  route_number : option string;
  route_short_name : option string;
}.

(** The parsed JSON body of a departures request.  [departures] is [None]
    when the body has no such key. *)
Record Payload : Type := {
  departures : option (list RawDeparture);
  routes : option (gmap Z Route);
}.

(** [routes?.[id]] *)
Definition routeOf (rs : option (gmap Z Route)) (id : Z) : option Route :=
  match rs with
  | Some m => m !! id
  | None => None
  end.

(** [x === num] for an optional string property [x]. *)
Definition strictEq (x : option string) (num : string) : bool :=
  match x with
  | Some s => String.eqb s num
  | None => false
  end.

(** [x || dflt] for an optional string property [x]. *)
Definition orDefault (x : option string) (dflt : string) : string :=
  match x with
  | Some s => if String.eqb s "" then dflt else s
  | None => dflt
  end.

(** ** Constants shared by both files *)

(** BUS_TRAVEL_TIMES; the code reads it at these four keys only. *)
Definition BUS_TRAVEL_TIMES (route : string) : Z :=
  if String.eqb route "733" then 17
  else if String.eqb route "703" then 13
  else if String.eqb route "737" then 15
  else if String.eqb route "742" then 12
  else 0.

(** TRAIN_TRAVEL_FROM_MT_WAVERLEY / TRAIN_TRAVEL *)
Inductive Station : Type := mountWaverley | syndal | glenWaverley.

Definition TRAIN_TRAVEL_FROM_MT_WAVERLEY (s : Station) : Z :=
  match s with
  | mountWaverley => 0
  | syndal => 3
  | glenWaverley => 6
  end.

(** MIN_TRANSFER_TIME / MIN_TRANSFER *)
Definition MIN_TRANSFER_TIME : Z := 3.

Definition stationName (s : Station) : string :=
  match s with
  | mountWaverley => "Mount Waverley"
  | syndal => "Syndal"
  | glenWaverley => "Glen Waverley"
  end.

(** ** The response *)

(** An element of [options]; the fields of its [bus] object are [bus_route],
    [bus_departure] and [bus_travelTime].  The ISO strings of the object are
    kept as the time values they print: [toISOString] of a valid Date is the
    millisecond-exact UTC text of its time value, and [new Date] of that
    text gives the time value back. *)
Record Itinerary : Type := {
  station : string;
  trainArrival : Z;
  bus_route : string;
  bus_departure : Z;
  bus_travelTime : Z;
  arrivalAtMonash : Z;
  totalMinutes : Z;
}.

Record NextTrain : Type := {
  atMountWaverley : Z;
  atSyndal : Z;
  atGlenWaverley : Z;
}.

Record RecommendationResult : Type := {
  timestamp : Z;
  nextTrain : NextTrain;
  recommendation : option Itinerary;
  allOptions : list Itinerary;
}.

Inductive Exn : Type :=
| TypeError    (* a property read on undefined *)
| RangeError.  (* toISOString of an Invalid Date *)

(** What becomes of a request.  The two files word the [error] of the
    first response differently.  The last case is of server.mjs alone: [e]
    was thrown after [res.writeHead(200, ...)], so that the
    [res.writeHead(500, ...)] of the catch block throws
    ERR_HTTP_HEADERS_SENT; the promise of [handleAPI] is rejected, no
    response is completed, and a rejection that nobody handles ends the
    process. *)
Inductive Response : Type :=
| NoUpcomingTrains (ts : Z)           (* 200, { error, timestamp } *)
| Recommend (r : RecommendationResult) (* 200 *)
| Failed (e : Exn)                     (* 500, from the catch block *)
| HeadersSent (e : Exn).               (* no response: the catch block throws *)

(** ** Effects: exceptions and the clock

    A computation may throw, and it may read the clock with [new Date()].
    The state is the number of reads made so far; the [n]-th read returns
    [clock n]. *)
Inductive outcome (A : Type) : Type :=
| Return (a : A)
| Throw (e : Exn).
Arguments Return {A} a.
Arguments Throw {A} e.

Definition M (A : Type) : Type := (nat -> Z) -> nat -> outcome (A * nat).

Definition ret {A} (a : A) : M A := fun _ n => Return (a, n).
Definition throw {A} (e : Exn) : M A := fun _ _ => Throw e.
Definition bind {A B} (c : M A) (k : A -> M B) : M B :=
  fun clock n =>
    match c clock n with
    | Return (a, n') => k a clock n'
    | Throw e => Throw e
    end.
Definition Date_now : M Z := fun clock n => Return (clock n, S n).

Notation "'let*' x ':=' c 'in' k" := (bind c (fun x => k))
  (at level 10, x name, c at level 100, k at level 200).

(** [d.toISOString()] throws a RangeError on an Invalid Date. *)
Definition toISOString (d : Date) : M Z :=
  match d with
  | Some t => ret t
  | None => throw RangeError
  end.

(** [obj.departures] followed by a method call: a TypeError when the
    property is undefined. *)
Definition departuresOf (p : Payload) : M (list RawDeparture) :=
  match departures p with
  | Some ds => ret ds
  | None => throw TypeError
  end.

(** [try { ... } catch (error) { 500 }], for a catch block that can still
    send its response. *)
Definition respond (c : M Response) (clock : nat -> Z) : Response :=
  match c clock 0%nat with
  | Return (r, _) => r
  | Throw e => Failed e
  end.

(** [new Date(v)] for the value of a time field.  [Date_parse] is the
    engine's parser of date strings ([None] is NaN); the constructor clips
    what it returns.  [new Date(null)] is the epoch, [new Date(undefined)]
    is an Invalid Date. *)
Definition new_Date (Date_parse : string -> option Z) (v : jsval) : Date :=
  match v with
  | JUndefined => None
  | JNull => TimeClip 0
  | JStr s => Date_of_number (Date_parse s)
  end.

(** [new Date(dep.estimated_departure_utc || dep.scheduled_departure_utc)],
    the expression by which every list of departures is given its times. *)
Definition resolvedDate (Date_parse : string -> option Z) (dep : RawDeparture) : Date :=
  new_Date Date_parse (js_or (estimated_departure_utc dep) (scheduled_departure_utc dep)).

(** [dep.direction_id === 6] *)
Definition isOutbound (dep : RawDeparture) : bool :=
  match direction_id dep with
  | Some d => d =? 6
  | None => false
  end.

(** The object literal given to [options.push]; [now] is the clock read by
    its [new Date()]. *)
Definition optionObject (st : Station) (ta : Z) (route : string)
    (bd travelTime am now : Z) : Itinerary :=
  {| station := stationName st;
     trainArrival := ta;
     bus_route := route;
     bus_departure := bd;
     bus_travelTime := travelTime;
     arrivalAtMonash := am;
     totalMinutes := Math_round_div60000 (am - now) |}.

(** The comparator of the last sort: the two ISO strings are parsed back
    and subtracted. *)
Definition byArrivalAtMonash (a b : Itinerary) : option Z :=
  Some (arrivalAtMonash a - arrivalAtMonash b).

(** ** api/departures.js *)
Module Departures.

(** [{ ...dep, routeNumber }] *)
Record BusEntry : Type := {
  dep : RawDeparture;
  routeNumber : string;
}.

(** [{ ...dep, departureTime }] *)
Record SuitableBus : Type := {
  entry : BusEntry;
  departureTime : Date;
}.

(** [{ ...dep, arrivalTime }] *)
Record OutboundTrain : Type := {
  train : RawDeparture;
  arrivalTime : Date;
}.

Section WithParser.
Variable Date_parse : string -> option Z.

(** The filter of getBusDepartures; [routeIds.map(String)] is given as
    the list of strings it builds. *)
Definition wantedRoute (data : Payload) (routeNumbers : list string)
    (d : RawDeparture) : bool :=
  match routeOf (routes data) (route_id d) with
  | Some route =>
      existsb (fun num => strictEq (route_number route) num
                          || strictEq (route_short_name route) num)
              routeNumbers
  | None => false
  end.

Definition getBusDepartures (routeNumbers : list string) (data : Payload)
    : M Payload :=
  let* ds := departuresOf data in
  ret {| departures := Some (List.filter (wantedRoute data routeNumbers) ds);
         routes := routes data |}.

Definition withDepartureTime (b : BusEntry) : SuitableBus :=
  {| entry := b; departureTime := resolvedDate Date_parse (dep b) |}.

Definition byDepartureTime (a b : SuitableBus) : option Z :=
  Date_minus (departureTime a) (departureTime b).

Definition findNextBus (busDepartures : list BusEntry) (trainArrival : Date)
    (routes : list string) (minTransferMins : Z) : option SuitableBus :=
  let minDepartureTime := addMinutes trainArrival minTransferMins in
  let suitableBuses :=
    Array_sort byDepartureTime
      (List.filter (fun b => Date_ge (departureTime b) minDepartureTime)
         (List.map withDepartureTime busDepartures)) in
  List.head suitableBuses.

(** The body of each [if (bus) { ... options.push({ ... }) }] block; the
    blocks differ in the station, the route and the travel time. *)
Definition makeOption (st : Station) (trainArr : Date) (route : string)
    (travelTime : Z) (bus : SuitableBus) : M Itinerary :=
  let busTime := departureTime bus in
  let arrival := addMinutes busTime travelTime in
  let* ta := toISOString trainArr in
  let* bd := toISOString busTime in
  let* am := toISOString arrival in
  let* now := Date_now in
  ret (optionObject st ta route bd travelTime am now).

(** [if (bus) { options.push(...) }]: the options added by one block. *)
Definition pushOption (st : Station) (trainArr : Date) (route : string)
    (travelTime : Z) (bus : option SuitableBus) : M (list Itinerary) :=
  match bus with
  | Some b =>
      let* o := makeOption st trainArr route travelTime b in
      ret [o]
  | None => ret []
  end.

(** [departures.map(dep => ({ ...dep, routeNumber: routes?.[dep.route_id]?.route_number || dflt }))] *)
Definition busList (buses : Payload) (dflt : string) : M (list BusEntry) :=
  let* ds := departuresOf buses in
  ret (List.map
         (fun d =>
            {| dep := d;
               routeNumber :=
                 orDefault
                   (match routeOf (routes buses) (route_id d) with
                    | Some r => route_number r
                    | None => None
                    end) dflt |}) ds).

Definition withArrivalTime (d : RawDeparture) : OutboundTrain :=
  {| train := d; arrivalTime := resolvedDate Date_parse d |}.

Definition byArrivalTime (a b : OutboundTrain) : option Z :=
  Date_minus (arrivalTime a) (arrivalTime b).

Definition outboundTrains (ds : list RawDeparture) : list OutboundTrain :=
  Array_sort byArrivalTime
    (List.map withArrivalTime (List.filter isOutbound ds)).

(** [trainArrivals] *)
Definition trainArrivals (nextTrain : OutboundTrain) (s : Station) : Date :=
  match s with
  | mountWaverley => arrivalTime nextTrain
  | syndal =>
      addMinutes (arrivalTime nextTrain) (TRAIN_TRAVEL_FROM_MT_WAVERLEY syndal)
  | glenWaverley =>
      addMinutes (arrivalTime nextTrain) (TRAIN_TRAVEL_FROM_MT_WAVERLEY glenWaverley)
  end.

(** The loop [for (const routeNum of ['742', '737'])]. *)
Fixpoint glenWaverleyOptions (glenWaverleyBusList : list BusEntry)
    (arr : Date) (routeNums : list string) : M (list Itinerary) :=
  match routeNums with
  | [] => ret []
  | routeNum :: rest =>
      let routeBuses :=
        List.filter (fun b => String.eqb (routeNumber b) routeNum)
                    glenWaverleyBusList in
      let bus := findNextBus routeBuses arr [routeNum] MIN_TRANSFER_TIME in
      let travelTime :=
        if String.eqb routeNum "742" then BUS_TRAVEL_TIMES "742"
        else BUS_TRAVEL_TIMES "737" in
      let* o := pushOption glenWaverley arr routeNum travelTime bus in
      let* os := glenWaverleyOptions glenWaverleyBusList arr rest in
      ret (o ++ os)
  end.

(** One of the blocks "Mount Waverley - 733", "Syndal - 703" and
    "Syndal - 737": the list of the stop with its route numbers, the next
    bus after the train, the option. *)
Definition stopOptions (st : Station) (arr : Date) (route : string)
    (buses : Payload) : M (list Itinerary) :=
  let* list := busList buses route in
  let bus := findNextBus list arr [route] MIN_TRANSFER_TIME in
  pushOption st arr route (BUS_TRAVEL_TIMES route) bus.

(** The block "Glen Waverley - 742, 737". *)
Definition glenWaverleyBlock (arr : Date) (glenWaverleyBuses : Payload)
    : M (list Itinerary) :=
  let* glenWaverleyBusList := busList glenWaverleyBuses "unknown" in
  glenWaverleyOptions glenWaverleyBusList arr ["742"; "737"].

(** The blocks that fill [options], in the order of the code. *)
Definition buildOptions (nextTrain : OutboundTrain)
    (mtWaverleyBuses syndal703Buses syndal737Buses glenWaverleyBuses : Payload)
    : M (list Itinerary) :=
  let arr := trainArrivals nextTrain in
  let* o1 := stopOptions mountWaverley (arr mountWaverley) "733" mtWaverleyBuses in
  let* o2 := stopOptions syndal (arr syndal) "703" syndal703Buses in
  let* o3 := stopOptions syndal (arr syndal) "737" syndal737Buses in
  let* o4 := glenWaverleyBlock (arr glenWaverley) glenWaverleyBuses in
  ret (o1 ++ o2 ++ o3 ++ o4).

(** Lines 155-289: the computation on the five awaited payloads. *)
Definition compute
    (mtWaverleyTrains mtWaverleyBuses syndal703Buses syndal737Buses
       glenWaverleyBuses : Payload) : M Response :=
  let* ds := departuresOf mtWaverleyTrains in
  match List.head (outboundTrains ds) with
  | None =>
      let* now := Date_now in
      ret (NoUpcomingTrains now)
  | Some nextTrain =>
      let arr := trainArrivals nextTrain in
      let* options := buildOptions nextTrain mtWaverleyBuses syndal703Buses
                        syndal737Buses glenWaverleyBuses in
      let sorted := Array_sort byArrivalAtMonash options in
      let recommendation := List.head sorted in
      let* now := Date_now in
      let* a1 := toISOString (arr mountWaverley) in
      let* a2 := toISOString (arr syndal) in
      let* a3 := toISOString (arr glenWaverley) in
      ret (Recommend
             {| timestamp := now;
                nextTrain := {| atMountWaverley := a1;
                                atSyndal := a2;
                                atGlenWaverley := a3 |};
                recommendation := recommendation;
                allOptions := sorted |})
  end.

(** The [try] block of [handler]: the four bus payloads pass through
    getBusDepartures, then the computation runs.  The arguments are the
    bodies that fetchPTV returned. *)
Definition handlerBody (trains mw733 syn703 syn737 gw : Payload) : M Response :=
  let* mtWaverleyBuses := getBusDepartures ["733"] mw733 in
  let* syndal703Buses := getBusDepartures ["703"] syn703 in
  let* syndal737Buses := getBusDepartures ["737"] syn737 in
  let* glenWaverleyBuses := getBusDepartures ["742"; "737"] gw in
  compute trains mtWaverleyBuses syndal703Buses syndal737Buses glenWaverleyBuses.

Definition handler (clock : nat -> Z) (trains mw733 syn703 syn737 gw : Payload)
    : Response :=
  respond (handlerBody trains mw733 syn703 syn737 gw) clock.
End WithParser.
End Departures.

(** ** server.mjs *)
Module Server.

(** [{ ...d, time, route }] *)
Record TimedBus : Type := {
  raw : RawDeparture;
  time : Date;
  route : option string;
}.

(** [{ ...d, arrivalTime }] *)
Record OutboundTrain : Type := {
  train : RawDeparture;
  arrivalTime : Date;
}.

Section WithParser.
Variable Date_parse : string -> option Z.

(** [routeData?.[d.route_id]?.route_number] *)
Definition routeNumberOf (routeData : option (gmap Z Route)) (d : RawDeparture)
    : option string :=
  match routeOf routeData (route_id d) with
  | Some r => route_number r
  | None => None
  end.

(** [routes.some(r => routeData?.[d.route_id]?.route_number === String(r))];
    the numbers of [routes] are given as the strings [String] makes. *)
Definition onRoute (routes : list string) (routeData : option (gmap Z Route))
    (d : RawDeparture) : bool :=
  existsb (fun r => strictEq (routeNumberOf routeData d) r) routes.

Definition withTime (routeData : option (gmap Z Route)) (d : RawDeparture)
    : TimedBus :=
  {| raw := d;
     time := resolvedDate Date_parse d;
     route := routeNumberOf routeData d |}.

Definition byTime (a b : TimedBus) : option Z := Date_minus (time a) (time b).

(** The chain of findBus on the list [deps.departures]. *)
Definition findBusIn (ds : list RawDeparture) (routes : list string)
    (trainArr : Date) (routeData : option (gmap Z Route)) : option TimedBus :=
  let minTime := addMinutes trainArr MIN_TRANSFER_TIME in
  let filtered :=
    Array_sort byTime
      (List.filter (fun d => Date_ge (time d) minTime)
         (List.map (withTime routeData)
            (List.filter (onRoute routes routeData) ds))) in
  List.head filtered.

Definition findBus (deps : Payload) (routes : list string) (trainArr : Date)
    (routeData : option (gmap Z Route)) : M (option TimedBus) :=
  let* ds := departuresOf deps in
  ret (findBusIn ds routes trainArr routeData).

(** The body of each [if (b) { ... options.push({ ... }) }] block. *)
Definition makeOption (st : Station) (trainArr : Date) (routeName : string)
    (b : TimedBus) : M Itinerary :=
  let arr := addMinutes (time b) (BUS_TRAVEL_TIMES routeName) in
  let* ta := toISOString trainArr in
  let* bd := toISOString (time b) in
  let* am := toISOString arr in
  let* now := Date_now in
  ret (optionObject st ta routeName bd (BUS_TRAVEL_TIMES routeName) am now).

(** [const b = findBus(...); if (b) { options.push(...) }] *)
Definition optionFor (st : Station) (trainArr : Date) (routeName : string)
    (deps : Payload) : M (list Itinerary) :=
  let* b := findBus deps [routeName] trainArr (routes deps) in
  match b with
  | Some b =>
      let* o := makeOption st trainArr routeName b in
      ret [o]
  | None => ret []
  end.

Definition withArrivalTime (d : RawDeparture) : OutboundTrain :=
  {| train := d; arrivalTime := resolvedDate Date_parse d |}.

Definition byArrivalTime (a b : OutboundTrain) : option Z :=
  Date_minus (arrivalTime a) (arrivalTime b).

Definition outbound (ds : list RawDeparture) : list OutboundTrain :=
  Array_sort byArrivalTime
    (List.map withArrivalTime (List.filter isOutbound ds)).

(** [trainArrivals] *)
Definition trainArrivals (nextTrain : OutboundTrain) (s : Station) : Date :=
  match s with
  | mountWaverley => arrivalTime nextTrain
  | syndal =>
      addMinutes (arrivalTime nextTrain) (TRAIN_TRAVEL_FROM_MT_WAVERLEY syndal)
  | glenWaverley =>
      addMinutes (arrivalTime nextTrain) (TRAIN_TRAVEL_FROM_MT_WAVERLEY glenWaverley)
  end.

(** The five blocks that fill [options], in the order of the code. *)
Definition buildOptions (nextTrain : OutboundTrain)
    (mt733 syn703 syn737 gw : Payload) : M (list Itinerary) :=
  let arr := trainArrivals nextTrain in
  let* o1 := optionFor mountWaverley (arr mountWaverley) "733" mt733 in
  let* o2 := optionFor syndal (arr syndal) "703" syn703 in
  let* o3 := optionFor syndal (arr syndal) "737" syn737 in
  let* o4 := optionFor glenWaverley (arr glenWaverley) "742" gw in
  let* o5 := optionFor glenWaverley (arr glenWaverley) "737" gw in
  ret (o1 ++ o2 ++ o3 ++ o4 ++ o5).

(** The [try] block of [handleAPI] on the five bodies fetched, up to its
    call of [res.writeHead(200, ...)]: there is no next train, or there is
    one and [options] has been filled and sorted. *)
Definition beforeWriteHead (trains mt733 syn703 syn737 gw : Payload)
    : M (option (OutboundTrain * list Itinerary)) :=
  let* ds := departuresOf trains in
  match List.head (outbound ds) with
  | None => ret None
  | Some nextTrain =>
      let* options := buildOptions nextTrain mt733 syn703 syn737 gw in
      ret (Some (nextTrain, Array_sort byArrivalAtMonash options))
  end.

(** What follows [res.writeHead(200, ...)]: the argument of [res.end] is
    made, with its ISO strings. *)
Definition afterWriteHead (ready : option (OutboundTrain * list Itinerary))
    : M Response :=
  match ready with
  | None =>
      let* now := Date_now in
      ret (NoUpcomingTrains now)
  | Some (nextTrain, sorted) =>
      let arr := trainArrivals nextTrain in
      let* now := Date_now in
      let* a1 := toISOString (arr mountWaverley) in
      let* a2 := toISOString (arr syndal) in
      let* a3 := toISOString (arr glenWaverley) in
      ret (Recommend
             {| timestamp := now;
                nextTrain := {| atMountWaverley := a1;
                                atSyndal := a2;
                                atGlenWaverley := a3 |};
                recommendation := List.head sorted;
                allOptions := sorted |})
  end.

(** The [try] block as a whole. *)
Definition handleAPIBody (trains mt733 syn703 syn737 gw : Payload) : M Response :=
  let* ready := beforeWriteHead trains mt733 syn703 syn737 gw in
  afterWriteHead ready.

(** [handleAPI]: the [try] block with its [catch].  What is thrown before
    [res.writeHead(200, ...)] is answered by the catch block with its 500;
    what is thrown after it is caught as well, but the headers are set by
    then and [res.writeHead(500, ...)] throws. *)
Definition handleAPI (clock : nat -> Z) (trains mt733 syn703 syn737 gw : Payload)
    : Response :=
  match beforeWriteHead trains mt733 syn703 syn737 gw clock 0%nat with
  | Throw e => Failed e
  | Return (ready, n) =>
      match afterWriteHead ready clock n with
      | Return (r, _) => r
      | Throw e => HeadersSent e
      end
  end.
End WithParser.
End Server.

(** ** A parser for the date strings of the feed

    The theorems below hold for any [Date_parse].  For evaluation on concrete
    payloads, [iso_parse] reads the UTC form of the ECMAScript date-time
    string format, [YYYY-MM-DDTHH:mm:ssZ] with an optional [.sss] and with
    the expanded years [+YYYYYY] and [-YYYYYY]; this is what the PTV API
    sends.  It answers NaN to every other string. *)
Module IsoDate.

Definition digit (c : ascii) : option Z :=
  let n := Z.of_nat (nat_of_ascii c) in
  if (48 <=? n) && (n <=? 57) then Some (n - 48) else None.

(** Reads exactly [k] decimal digits. *)
Fixpoint number (k : nat) (acc : Z) (l : list ascii) : option (Z * list ascii) :=
  match k with
  | O => Some (acc, l)
  | S k' =>
      match l with
      | c :: l' =>
          match digit c with
          | Some d => number k' (10 * acc + d) l'
          | None => None
          end
      | [] => None
      end
  end.

Definition expect (c : ascii) (l : list ascii) : option (list ascii) :=
  match l with
  | c' :: l' => if Ascii.eqb c c' then Some l' else None
  | [] => None
  end.

Definition isLeap (y : Z) : bool :=
  ((y mod 4 =? 0) && negb (y mod 100 =? 0)) || (y mod 400 =? 0).

Definition daysInMonth (y m : Z) : Z :=
  if m =? 2 then (if isLeap y then 29 else 28)
  else if (m =? 4) || (m =? 6) || (m =? 9) || (m =? 11) then 30
  else 31.

(** Days from the epoch to the civil date [y-m-d]. *)
Definition daysFromCivil (y m d : Z) : Z :=
  let y' := if m <=? 2 then y - 1 else y in
  let era := y' / 400 in
  let yoe := y' - era * 400 in
  let mp := if 2 <? m then m - 3 else m + 9 in
  let doy := (153 * mp + 2) / 5 + d - 1 in
  let doe := yoe * 365 + yoe / 4 - yoe / 100 + doy in
  era * 146097 + doe - 719468.

Definition year (l : list ascii) : option (Z * list ascii) :=
  match l with
  | "+"%char :: l' => number 6 0 l'
  | "-"%char :: l' =>
      match number 6 0 l' with
      | Some (y, r) => if y =? 0 then None else Some (- y, r)
      | None => None
      end
  | _ => number 4 0 l
  end.

Definition fraction (l : list ascii) : option (Z * list ascii) :=
  match l with
  | "."%char :: l' => number 3 0 l'
  | _ => Some (0, l)
  end.

Definition iso_parse (s : string) : option Z :=
  match year (list_ascii_of_string s) with
  | Some (y, l) =>
  match expect "-" l with Some l =>
  match number 2 0 l with Some (mo, l) =>
  match expect "-" l with Some l =>
  match number 2 0 l with Some (d, l) =>
  match expect "T" l with Some l =>
  match number 2 0 l with Some (h, l) =>
  match expect ":" l with Some l =>
  match number 2 0 l with Some (mi, l) =>
  match expect ":" l with Some l =>
  match number 2 0 l with Some (sec, l) =>
  match fraction l with Some (ms, l) =>
  match l with
  | ["Z"%char] =>
      if (1 <=? mo) && (mo <=? 12) && (1 <=? d) && (d <=? daysInMonth y mo)
         && ((h <=? 23) || ((h =? 24) && (mi =? 0) && (sec =? 0) && (ms =? 0)))
         && (mi <=? 59) && (sec <=? 59)
      then Some (daysFromCivil y mo d * 86400000
                 + h * 3600000 + mi * 60000 + sec * 1000 + ms)
      else None
  | _ => None
  end
  | None => None end | None => None end | None => None end
  | None => None end | None => None end | None => None end
  | None => None end | None => None end | None => None end
  | None => None end | None => None end
  | None => None
  end.
End IsoDate.

(** ** Vocabulary of the properties *)

(** A comparator [(a, b) => k(a) - k(b)] on numbers that are not NaN, and
    the orders it induces. *)
Definition byKey {A : Type} (k : A -> Z) (a b : A) : option Z := Some (k a - k b).
Definition keyLe {A : Type} (k : A -> Z) (a b : A) : Prop := k a <= k b.
Definition rankLt {A : Type} (rank : A -> nat) (a b : A) : Prop :=
  (rank a < rank b)%nat.
Definition keyThenRank {A : Type} (k : A -> Z) (rank : A -> nat) (a b : A) : Prop :=
  k a < k b \/ (k a = k b /\ (rank a < rank b)%nat).

(** Both matchers end in the same chain on a list of timed elements: keep
    those whose time is [>=] the threshold, sort by time, take the first. *)
Definition byDate {B : Type} (tm : B -> Date) (a b : B) : option Z :=
  Date_minus (tm a) (tm b).
Definition earliestFrom {B : Type} (tm : B -> Date) (minTime : Date) (l : list B)
    : option B :=
  List.head (Array_sort (byDate tm)
               (List.filter (fun b => Date_ge (tm b) minTime) l)).
Definition timeOr0 {B : Type} (tm : B -> Date) (b : B) : Z :=
  match tm b with
  | Some t => t
  | None => 0
  end.

Definition isValid (d : Date) : bool :=
  match d with
  | Some _ => true
  | None => false
  end.

(** The arrival printed in [nextTrain] for a station. *)
Definition arrivalAt (nt : NextTrain) (s : Station) : Z :=
  match s with
  | mountWaverley => atMountWaverley nt
  | syndal => atSyndal nt
  | glenWaverley => atGlenWaverley nt
  end.

(** The place of an option in the order in which the code visits the
    station/route pairs: Mount Waverley 733, Syndal 703, Syndal 737,
    Glen Waverley 742, Glen Waverley 737. *)
Definition enumerationIndex (o : Itinerary) : nat :=
  if String.eqb (station o) "Mount Waverley" && String.eqb (bus_route o) "733" then 0
  else if String.eqb (station o) "Syndal" && String.eqb (bus_route o) "703" then 1
  else if String.eqb (station o) "Syndal" && String.eqb (bus_route o) "737" then 2
  else if String.eqb (station o) "Glen Waverley" && String.eqb (bus_route o) "742" then 3
  else if String.eqb (station o) "Glen Waverley" && String.eqb (bus_route o) "737" then 4
  else 5.

(** A payload whose list of departures is present and empty. *)
Definition emptied (e : bool) (p : Payload) : Payload :=
  if e then {| departures := Some []; routes := routes p |} else p.

(** Whether an option comes from a payload that was not emptied; the four
    flags are those of the payloads of Mount Waverley, Syndal 703,
    Syndal 737 and Glen Waverley. *)
Definition keptOption (e1 e2 e3 e4 : bool) (o : Itinerary) : bool :=
  if String.eqb (station o) "Mount Waverley" then negb e1
  else if String.eqb (station o) "Syndal" then
    (if String.eqb (bus_route o) "703" then negb e2 else negb e3)
  else negb e4.

(** The departures of the bus payloads that serve a station. *)
Definition listOf (p : Payload) : list RawDeparture :=
  match departures p with
  | Some ds => ds
  | None => []
  end.
Definition departuresAt (mw733 syn703 syn737 gw : Payload) (s : Station)
    : list RawDeparture :=
  match s with
  | mountWaverley => listOf mw733
  | syndal => listOf syn703 ++ listOf syn737
  | glenWaverley => listOf gw
  end.

(** An option made for a station and a route from the departures [ds]:
    what it prints, and the transfer it leaves. *)
Definition madeAt (Date_parse : string -> option Z) (st : Station) (route : string)
    (arr : Date) (ds : list RawDeparture) (o : Itinerary) : Prop :=
  station o = stationName st /\
  bus_route o = route /\
  arr = Some (trainArrival o) /\
  (exists d, In d ds /\ resolvedDate Date_parse d = Some (bus_departure o)) /\
  trainArrival o + MIN_TRANSFER_TIME * 60 * 1000 <= bus_departure o /\
  arrivalAtMonash o = bus_departure o + BUS_TRAVEL_TIMES route * 60 * 1000.

(** The feasibility of an itinerary of a response: its bus is a departure
    of a payload of its station, and leaves at or after the printed arrival
    of the train there plus the transfer time. *)
Definition feasible (Date_parse : string -> option Z) (nt : NextTrain)
    (mw733 syn703 syn737 gw : Payload) (o : Itinerary) : Prop :=
  exists st d,
    station o = stationName st /\
    trainArrival o = arrivalAt nt st /\
    In d (departuresAt mw733 syn703 syn737 gw st) /\
    resolvedDate Date_parse d = Some (bus_departure o) /\
    arrivalAt nt st + MIN_TRANSFER_TIME * 60 * 1000 <= bus_departure o.


(** A computation reads the clock only through the values it returns. *)
Definition respectsClock {A : Type} (c : M A) : Prop :=
  forall clock1 clock2, (forall i, clock1 i = clock2 i) ->
  forall n, c clock1 n = c clock2 n.

(** With a clock that stands still, the number of reads made before a
    computation starts changes nothing but the count it ends with. *)
Definition shifted {A : Type} (n : nat) (o : outcome (A * nat)) : outcome (A * nat) :=
  match o with
  | Return (a, k) => Return (a, (n + k)%nat)
  | Throw e => Throw e
  end.
Definition counterFree {A : Type} (c : M A) : Prop :=
  forall (now : Z) (n : nat),
    c (fun _ => now) n = shifted n (c (fun _ => now) 0%nat).

(** The value with which a computation ends, without its count of reads. *)
Definition value {A : Type} (o : outcome (A * nat)) : outcome A :=
  match o with
  | Return (a, _) => Return a
  | Throw e => Throw e
  end.

Definition outcome_map {A B : Type} (f : A -> B) (o : outcome A) : outcome B :=
  match o with
  | Return a => Return (f a)
  | Throw e => Throw e
  end.

(** An option as it is made when its [new Date()] reads [now]. *)
Definition stampedAt (now : Z) (o : Itinerary) : Itinerary :=
  {| station := station o;
     trainArrival := trainArrival o;
     bus_route := bus_route o;
     bus_departure := bus_departure o;
     bus_travelTime := bus_travelTime o;
     arrivalAtMonash := arrivalAtMonash o;
     totalMinutes := Math_round_div60000 (arrivalAtMonash o - now) |}.

(** A response with [now] in the place of every instant that was read from
    the clock: its [timestamp] and the instant from which each
    [totalMinutes] is counted.  Nothing else changes. *)
Definition atInstant (now : Z) (r : Response) : Response :=
  match r with
  | NoUpcomingTrains _ => NoUpcomingTrains now
  | Recommend r =>
      Recommend {| timestamp := now;
                   nextTrain := nextTrain r;
                   recommendation := option_map (stampedAt now) (recommendation r);
                   allOptions := List.map (stampedAt now) (allOptions r) |}
  | Failed e => Failed e
  | HeadersSent e => HeadersSent e
  end.

(** [c1], run after any number of reads of a clock that reads [now] every
    time, ends as [c2] does with any clock after any number of reads, up to
    [f]: it throws when [c2] throws, and the same exception, and it returns
    [f a] when [c2] returns [a]. *)
Definition restampedAt {A : Type} (now : Z) (f : A -> A) (c1 c2 : M A) : Prop :=
  forall clock other n m, (forall i, clock i = now) ->
    value (c1 clock n) = outcome_map f (value (c2 other m)).

(** What server.mjs holds when it calls [res.writeHead(200, ...)], with the
    options made at [now]. *)
Definition readyAt (now : Z) (ready : option (Server.OutboundTrain * list Itinerary))
    : option (Server.OutboundTrain * list Itinerary) :=
  option_map (fun p => (fst p, List.map (stampedAt now) (snd p))) ready.

(** A response without the options of the emptied payloads. *)
Definition without (e1 e2 e3 e4 : bool) (r : RecommendationResult)
    : RecommendationResult :=
  {| timestamp := timestamp r;
     nextTrain := nextTrain r;
     recommendation := List.head (List.filter (keptOption e1 e2 e3 e4) (allOptions r));
     allOptions := List.filter (keptOption e1 e2 e3 e4) (allOptions r) |}.

(** The response [r] ranks the options [opts] that the blocks built: it
    lists them all and no other, in ascending order of [arrivalAtMonash],
    and recommends the first, which none of them precedes; with no option
    built there is no recommendation and the list is empty. *)
Definition ranks (opts : list Itinerary) (r : RecommendationResult) : Prop :=
  Permutation opts (allOptions r) /\
  StronglySorted (keyLe arrivalAtMonash) (allOptions r) /\
  recommendation r = List.head (allOptions r) /\
  (forall best o, recommendation r = Some best -> In o opts ->
     arrivalAtMonash best <= arrivalAtMonash o) /\
  (opts = [] -> recommendation r = None /\ allOptions r = []).

(** ** Payloads used in the concrete evaluations *)
Module Samples.

Definition departure (rid : Z) (dir : option Z) (sched est : jsval) : RawDeparture :=
  {| route_id := rid;
     direction_id := dir;
     scheduled_departure_utc := sched;
     estimated_departure_utc := est |}.

Definition numbered (n : string) : Route :=
  {| route_number := Some n; route_short_name := None |}.

(** Three trains; the outbound one scheduled 09:58 is estimated 10:00. *)
Definition trains : Payload :=
  {| departures :=
       Some [departure 7 (Some 1) (JStr "2024-03-01T09:50:00Z") JNull;
             departure 7 (Some 6) (JStr "2024-03-01T10:10:00Z") JNull;
             departure 7 (Some 6) (JStr "2024-03-01T09:58:00Z")
                       (JStr "2024-03-01T10:00:00Z")];
     routes := None |}.

(** Buses of route 733 at 10:01, 10:04 and 10:10. *)
Definition buses733 : Payload :=
  {| departures :=
       Some [departure 100 None (JStr "2024-03-01T10:01:00Z") JNull;
             departure 100 None (JStr "2024-03-01T10:04:00Z") JNull;
             departure 100 None (JStr "2024-03-01T10:10:00Z") JNull];
     routes := Some {[ 100 := numbered "733" ]} |}.

(** A 737 at 10:09 and a 742 at 10:12: both reach Monash at 10:24. *)
Definition busesGlenWaverley : Payload :=
  {| departures :=
       Some [departure 5 None (JStr "2024-03-01T10:09:00Z") JNull;
             departure 6 None (JStr "2024-03-01T10:12:00Z") JNull];
     routes := Some (<[ 5 := numbered "737" ]> {[ 6 := numbered "742" ]}) |}.

Definition noBuses : Payload := {| departures := Some []; routes := None |}.

(** A body without a [departures] key. *)
Definition noDepartures : Payload := {| departures := None; routes := None |}.


(** 09:56:40, and a clock that stands still there. *)
Definition now : Z := 1709287000000.
Definition clock (n : nat) : Z := now.

Definition t1000 : Z := 1709287200000.

End Samples.


(** ** Vocabulary of the further properties *)

(** Two computations that run alike, from every clock and count of reads. *)
Definition sameRun {A : Type} (c1 c2 : M A) : Prop :=
  forall clock n, c1 clock n = c2 clock n.

(** What both files do with the Date of the bus they matched: the three
    ISO strings, the clock, the object. *)
Definition assemble (st : Station) (arr : Date) (route : string) (busTime : Date)
    : M Itinerary :=
  let* ta := toISOString arr in
  let* bd := toISOString busTime in
  let* am := toISOString (addMinutes busTime (BUS_TRAVEL_TIMES route)) in
  let* now := Date_now in
  ret (optionObject st ta route bd (BUS_TRAVEL_TIMES route) am now).

(** A block of either file, on the departures that are its candidates. *)
Definition optionBlock (Date_parse : string -> option Z) (st : Station) (arr : Date)
    (route : string) (cands : list RawDeparture) : M (list Itinerary) :=
  match earliestFrom (resolvedDate Date_parse)
          (addMinutes arr MIN_TRANSFER_TIME) cands with
  | Some d =>
      let* o := assemble st arr route (resolvedDate Date_parse d) in
      ret [o]
  | None => ret []
  end.

(** The candidates of a block of api/departures.js in the body fetched for
    its stop: the departures that getBusDepartures keeps and, at Glen
    Waverley, whose [routeNumber] is the route of the block. *)
Definition candidatesD (st : Station) (route : string) (p : Payload)
    : list RawDeparture :=
  match st with
  | glenWaverley =>
      List.filter
        (fun d => String.eqb (orDefault (Server.routeNumberOf (routes p) d) "unknown")
                             route)
        (List.filter (Departures.wantedRoute p ["742"; "737"]) (listOf p))
  | _ => List.filter (Departures.wantedRoute p [route]) (listOf p)
  end.

(** The candidates of a block of server.mjs. *)
Definition candidatesS (route : string) (p : Payload) : list RawDeparture :=
  List.filter (Server.onRoute [route] (routes p)) (listOf p).

(** The five blocks on their arrivals and candidates. *)
Definition optionsFrom (Date_parse : string -> option Z) (a1 a2 a3 : Date)
    (c1 c2 c3 c4 c5 : list RawDeparture) : M (list Itinerary) :=
  let* o1 := optionBlock Date_parse mountWaverley a1 "733" c1 in
  let* o2 := optionBlock Date_parse syndal a2 "703" c2 in
  let* o3 := optionBlock Date_parse syndal a2 "737" c3 in
  let* o4 := optionBlock Date_parse glenWaverley a3 "742" c4 in
  let* o5 := optionBlock Date_parse glenWaverley a3 "737" c5 in
  ret (o1 ++ o2 ++ o3 ++ o4 ++ o5).

(** The outbound departure that either file takes as the next train. *)
Definition nextOutbound (Date_parse : string -> option Z) (ds : list RawDeparture)
    : option RawDeparture :=
  List.head (Array_sort (byDate (resolvedDate Date_parse))
               (List.filter isOutbound ds)).

(** The run of either file on the departures of the trains and the
    candidates of its five blocks. *)
Definition respondWith (Date_parse : string -> option Z) (ds : list RawDeparture)
    (c1 c2 c3 c4 c5 : list RawDeparture) : M Response :=
  match nextOutbound Date_parse ds with
  | None =>
      let* now := Date_now in
      ret (NoUpcomingTrains now)
  | Some d =>
      let t := resolvedDate Date_parse d in
      let a2 := addMinutes t (TRAIN_TRAVEL_FROM_MT_WAVERLEY syndal) in
      let a3 := addMinutes t (TRAIN_TRAVEL_FROM_MT_WAVERLEY glenWaverley) in
      let* options := optionsFrom Date_parse t a2 a3 c1 c2 c3 c4 c5 in
      let sorted := Array_sort byArrivalAtMonash options in
      let* now := Date_now in
      let* x1 := toISOString t in
      let* x2 := toISOString a2 in
      let* x3 := toISOString a3 in
      ret (Recommend
             {| timestamp := now;
                nextTrain := {| atMountWaverley := x1;
                                atSyndal := x2;
                                atGlenWaverley := x3 |};
                recommendation := List.head sorted;
                allOptions := sorted |})
  end.

(** What getBusDepartures returns on a body with a list of departures. *)
Definition kept (wanted : list string) (p : Payload) : Payload :=
  {| departures := Some (List.filter (Departures.wantedRoute p wanted) (listOf p));
     routes := routes p |}.

(** What a block leaves in [options] when it reads [now] from the clock:
    nothing when no candidate leaves at or after the arrival plus the
    transfer time, else the object of the earliest such candidate. *)
Definition blockOutcome (Date_parse : string -> option Z) (st : Station) (arr : Date)
    (route : string) (cands : list RawDeparture) (now : Z) (os : list Itinerary)
    : Prop :=
  match earliestFrom (resolvedDate Date_parse)
          (addMinutes arr MIN_TRANSFER_TIME) cands with
  | Some d =>
      exists ta bd,
        arr = Some ta /\ resolvedDate Date_parse d = Some bd /\
        os = [optionObject st ta route bd (BUS_TRAVEL_TIMES route)
                (bd + BUS_TRAVEL_TIMES route * 60 * 1000) now]
  | None => os = []
  end.

(** The five blocks of a file with the payloads they read. *)
Definition blocksOf (mw733 syn703 syn737 gw : Payload)
    : list (Station * string * Payload) :=
  [(mountWaverley, "733", mw733); (syndal, "703", syn703); (syndal, "737", syn737);
   (glenWaverley, "742", gw); (glenWaverley, "737", gw)].

(** The two files, to state what holds of both. *)
Inductive File : Type := ApiDepartures | ServerMjs.

Definition run (f : File) (Date_parse : string -> option Z) (clock : nat -> Z)
    (trains mw733 syn703 syn737 gw : Payload) : Response :=
  match f with
  | ApiDepartures => Departures.handler Date_parse clock trains mw733 syn703 syn737 gw
  | ServerMjs => Server.handleAPI Date_parse clock trains mw733 syn703 syn737 gw
  end.

Definition candidates (f : File) (st : Station) (route : string) (p : Payload)
    : list RawDeparture :=
  match f with
  | ApiDepartures => candidatesD st route p
  | ServerMjs => candidatesS route p
  end.

(** Whether the common run comes as far as the [res.writeHead(200, ...)] of
    server.mjs: there is no next train, or the five blocks have returned. *)
Definition sentWith (Date_parse : string -> option Z) (ds : list RawDeparture)
    (c1 c2 c3 c4 c5 : list RawDeparture) (clock : nat -> Z) : bool :=
  match nextOutbound Date_parse ds with
  | None => true
  | Some d =>
      let t := resolvedDate Date_parse d in
      let a2 := addMinutes t (TRAIN_TRAVEL_FROM_MT_WAVERLEY syndal) in
      let a3 := addMinutes t (TRAIN_TRAVEL_FROM_MT_WAVERLEY glenWaverley) in
      match optionsFrom Date_parse t a2 a3 c1 c2 c3 c4 c5 clock 0%nat with
      | Return _ => true
      | Throw _ => false
      end
  end.

(** The catch block of server.mjs: once the headers of the 200 are sent,
    its [res.writeHead(500, ...)] throws and no response is completed. *)
Definition catchAfter (sent : bool) (r : Response) : Response :=
  match r with
  | Failed e => if sent then HeadersSent e else Failed e
  | _ => r
  end.

(** What a file makes of the response of the common run. *)
Definition answer (f : File) (sent : bool) (r : Response) : Response :=
  match f with
  | ApiDepartures => r
  | ServerMjs => catchAfter sent r
  end.

(** A departure of a feed runs on [route] for the block of [st]: the routes
    table of the feed has its route, with that number; api/departures.js
    takes the short name of the route as well, except in its Glen Waverley
    block, which compares the number alone. *)
Definition served (f : File) (st : Station) (route : string) (p : Payload)
    (d : RawDeparture) : Prop :=
  exists rt,
    routeOf (routes p) (route_id d) = Some rt /\
    (route_number rt = Some route \/
     (f = ApiDepartures /\ st <> glenWaverley /\ route_short_name rt = Some route)).

(** Feeds for the further evaluations. *)
Module Timetable.

Definition shortNamed (n : string) : Route :=
  {| route_number := None; route_short_name := Some n |}.

(** Buses of route 703 at 10:20 and 10:07, the later one first. *)
Definition buses703 : Payload :=
  {| departures :=
       Some [Samples.departure 200 None (JStr "2024-03-01T10:20:00Z") JNull;
             Samples.departure 200 None (JStr "2024-03-01T10:07:00Z") JNull];
     routes := Some {[ 200 := Samples.numbered "703" ]} |}.

(** A bus at 10:08 whose route has the short name 737 and no number. *)
Definition buses737 : Payload :=
  {| departures :=
       Some [Samples.departure 300 None (JStr "2024-03-01T10:08:00Z") JNull];
     routes := Some {[ 300 := shortNamed "737" ]} |}.

(** The buses of [Samples.buses733], without the table of their routes. *)
Definition unrouted733 : Payload :=
  {| departures := departures Samples.buses733; routes := None |}.

(** One train towards Glen Waverley, at 10:05. *)
Definition laterTrain : Payload :=
  {| departures :=
       Some [Samples.departure 7 (Some 6) (JStr "2024-03-01T10:05:00Z") JUndefined];
     routes := None |}.

(** A feed with its departures in the opposite order. *)
Definition reversed (p : Payload) : Payload :=
  {| departures := option_map (@List.rev RawDeparture) (departures p);
     routes := routes p |}.

(** A clock that advances by a second at each read. *)
Definition ticking (n : nat) : Z := Samples.now + 1000 * Z.of_nat n.

End Timetable.

(** No departure of the feed is on [route] by the short name of its route
    alone. *)
Definition numberedOnly (route : string) (p : Payload) : bool :=
  forallb
    (fun d =>
       match routeOf (routes p) (route_id d) with
       | Some rt =>
           implb (strictEq (route_short_name rt) route) (strictEq (route_number rt) route)
       | None => true
       end)
    (listOf p).

(** The feed has a list of departures. *)
Definition hasDepartures (p : Payload) : bool :=
  match departures p with
  | Some _ => true
  | None => false
  end.

(** [p'] is the feed [p] with its departures in another order. *)
Definition reordered (p p' : Payload) : Prop :=
  routes p' = routes p /\
  hasDepartures p = true /\ hasDepartures p' = true /\
  Permutation (listOf p) (listOf p').

(** Every departure of the feed in the direction of Glen Waverley has a
    valid time. *)
Definition timedOutbound (Date_parse : string -> option Z) (p : Payload) : bool :=
  forallb (fun d => implb (isOutbound d) (isValid (resolvedDate Date_parse d)))
    (listOf p).

(** The Date is valid and still is [minutes] later. *)
Definition inTime (minutes : Z) (d : Date) : bool :=
  match d with
  | Some t => t + minutes * 60 * 1000 <=? maxTime
  | None => false
  end.

(** The trains towards Glen Waverley have valid times, six minutes short
    of the last instant of a Date at least. *)
Definition timedTrains (Date_parse : string -> option Z) (p : Payload) : bool :=
  forallb
    (fun d =>
       implb (isOutbound d)
         (inTime (TRAIN_TRAVEL_FROM_MT_WAVERLEY glenWaverley) (resolvedDate Date_parse d)))
    (listOf p).

(** The valid times of the buses are seventeen minutes short of it. *)
Definition timedBuses (Date_parse : string -> option Z) (p : Payload) : bool :=
  forallb
    (fun d =>
       implb (isValid (resolvedDate Date_parse d))
         (inTime (BUS_TRAVEL_TIMES "733") (resolvedDate Date_parse d)))
    (listOf p).

(** * server.mjs: the environment file

    At start-up server.mjs reads [.env.local], when there is one, and turns
    each of its lines into at most one assignment [process.env[key] = value].
    A string is the sequence of its UTF-16 code units. *)
Module EnvFile.

Definition LF : N := 10.      (* the code unit of "\n" *)
Definition EQUALS : N := 61.  (* the code unit of "=" *)

(** WhiteSpace and LineTerminator of ECMA-262, the code units that [trim]
    removes. *)
Definition isWhiteSpace (c : N) : bool :=
  ((c =? 9) || (c =? 10) || (c =? 11) || (c =? 12) || (c =? 13) || (c =? 32)
   || (c =? 160) || (c =? 5760) || ((8192 <=? c) && (c <=? 8202))
   || (c =? 8232) || (c =? 8233) || (c =? 8239) || (c =? 8287)
   || (c =? 12288) || (c =? 65279))%N.

(** [s.split(sep)] for a separator of one code unit: the pieces between the
    separators, one more than there are separators. *)
Fixpoint split (sep : N) (s : list N) : list (list N) :=
  match s with
  | [] => [[]]
  | c :: s' =>
      if (c =? sep)%N then [] :: split sep s'
      else match split sep s' with
           | piece :: pieces => (c :: piece) :: pieces
           | [] => [[c]]
           end
  end.

Fixpoint trimStart (s : list N) : list N :=
  match s with
  | c :: s' => if isWhiteSpace c then trimStart s' else s
  | [] => []
  end.

(** [s.trim()] *)
Definition trim (s : list N) : list N :=
  List.rev (trimStart (List.rev (trimStart s))).

(** The body of the [forEach]:
    [const [key, value] = line.split('=');
     if (key && value) process.env[key.trim()] = value.trim();]
    [value] is undefined when the line has no ["="], and an empty string is
    falsy. *)
Definition assignment (line : list N) : option (list N * list N) :=
  match split EQUALS line with
  | (_ :: _) as key :: ((_ :: _) as value) :: _ => Some (trim key, trim value)
  | _ => None
  end.

(** The assignments that [envContent.split('\n').forEach(...)] makes, in
    their order. *)
Definition assignments (envContent : list N) : list (list N * list N) :=
  List.flat_map
    (fun line => match assignment line with Some a => [a] | None => [] end)
    (split LF envContent).

(** [if (fs.existsSync(envPath)) { ... }]: [None] is the file that is not
    there. *)
Definition loadEnv (file : option (list N)) : list (list N * list N) :=
  match file with
  | Some envContent => assignments envContent
  | None => []
  end.

(** *** Files to state the properties with *)

(** The code units of a text of ASCII characters. *)
Definition codeUnits (s : string) : list N :=
  List.map N_of_ascii (list_ascii_of_string s).

(** [lines.join("\n")] *)
Fixpoint join (lines : list (list N)) : list N :=
  match lines with
  | [] => []
  | [line] => line
  | line :: rest => line ++ LF :: join rest
  end.

(** White space that does not end the line, as around a name or a value;
    a carriage return before the line feed is of this kind. *)
Definition blank (s : list N) : bool :=
  forallb (fun c => isWhiteSpace c && negb (c =? LF)%N) s.

(** A name or a value as one means it: not empty, on one line, without
    ["="], and with no white space at either end. *)
Definition tidy (s : list N) : bool :=
  match s with
  | [] => false
  | c :: _ =>
      negb (isWhiteSpace c) && negb (isWhiteSpace (List.last s c)) &&
      forallb (fun c => negb (c =? EQUALS)%N && negb (c =? LF)%N) s
  end.

(** A line of a file: an entry [name=value], with blanks around the name
    and the value and possibly more text after a second ["="]; or a line
    without ["="], such as an empty line or a remark. *)
Inductive Line : Type :=
| Entry (lead name gap gap' value trail : list N) (more : option (list N))
| Plain (text : list N).

Definition text (l : Line) : list N :=
  match l with
  | Entry lead name gap gap' value trail more =>
      lead ++ name ++ gap ++ EQUALS :: gap' ++ value ++ trail ++
      match more with
      | Some rest => EQUALS :: rest
      | None => []
      end
  | Plain t => t
  end.

Definition wellFormed (l : Line) : bool :=
  match l with
  | Entry lead name gap gap' value trail more =>
      blank lead && tidy name && blank gap && blank gap' && tidy value &&
      blank trail &&
      match more with
      | Some rest => forallb (fun c => negb (c =? LF)%N) rest
      | None => true
      end
  | Plain t => forallb (fun c => negb (c =? EQUALS)%N && negb (c =? LF)%N) t
  end.

Definition meaning (l : Line) : option (list N * list N) :=
  match l with
  | Entry _ name _ _ value _ _ => Some (name, value)
  | Plain _ => None
  end.

Definition meanings (ls : list Line) : list (list N * list N) :=
  List.flat_map (fun l => match meaning l with Some a => [a] | None => [] end) ls.

(** A file of a developer identifier and a key, with the line ends of
    Windows, a remark, and a key that has a ["="] in it. *)
Definition sample : list Line :=
  [ Plain (codeUnits "# credentials of the PTV API" ++ [13%N]);
    Entry [] (codeUnits "PTV_DEVID") [] [] (codeUnits "3001234") [13%N] None;
    Entry [] (codeUnits "PTV_KEY") [32%N] [32%N]
      (codeUnits "9c1a2f6e-1b7d-4a52-8f3e-5d2c7b9e0a41") []
      (Some (codeUnits "=" ++ [13%N]));
    Plain [] ].

End EnvFile.

(** * Properties *)

(** ** The parser of the concrete evaluations *)

Example iso_epoch : IsoDate.iso_parse "1970-01-01T00:00:00Z" = Some 0.
Proof. reflexivity. Qed.

Example iso_ten_o_clock : IsoDate.iso_parse "2024-03-01T10:00:00Z" = Some Samples.t1000.
Proof. reflexivity. Qed.

Example iso_last_instant :
  IsoDate.iso_parse "+275760-09-13T00:00:00.000Z" = Some maxTime.
Proof. reflexivity. Qed.

Example iso_not_a_date : IsoDate.iso_parse "soon" = None.
Proof. reflexivity. Qed.



(** ** Array.prototype.sort *)
Section SortFacts.
Context {A : Type}.
Implicit Types (cmp : A -> A -> option Z) (l s : list A).

Lemma insertSorted_perm cmp x s : Permutation (x :: s) (insertSorted cmp x s).
  Proof.
    induction s as [|y s IH]; simpl; [reflexivity|].
    destruct (comesAfter cmp x y); [|reflexivity].
    rewrite perm_swap. now apply perm_skip.
  Qed.

Lemma Array_sort_perm cmp l : Permutation l (Array_sort cmp l).
  Proof.
    induction l as [|x l IH]; simpl; [constructor|].
    rewrite <- insertSorted_perm. now apply perm_skip.
  Qed.

Lemma Array_sort_In cmp l y : In y (Array_sort cmp l) <-> In y l.
  Proof.
    split; apply Permutation_in;
      [symmetry|]; apply Array_sort_perm.
  Qed.

Lemma Array_sort_nil cmp l : Array_sort cmp l = [] <-> l = [].
  Proof.
    split; intros H.
    - apply Permutation_nil. rewrite <- H. symmetry. apply Array_sort_perm.
    - now subst.
  Qed.

Lemma insertSorted_ext cmp cmp' x s :
    (forall y, In y s -> cmp x y = cmp' x y) ->
    insertSorted cmp x s = insertSorted cmp' x s.
  Proof.
    induction s as [|y s IH]; simpl; intros H; [reflexivity|].
    unfold comesAfter. rewrite (H y) by now left.
    rewrite IH by (intros; apply H; now right). reflexivity.
  Qed.

  (** The result depends on the comparator only through the pairs of
      elements of the array. *)
Lemma Array_sort_ext cmp cmp' l :
    (forall x y, In x l -> In y l -> cmp x y = cmp' x y) ->
    Array_sort cmp l = Array_sort cmp' l.
  Proof.
    induction l as [|x l IH]; simpl; intros H; [reflexivity|].
    rewrite IH by (intros; apply H; now right).
    apply insertSorted_ext. intros y Hy.
    apply H; [now left|right]. now apply Array_sort_In in Hy.
  Qed.
End SortFacts.

(** A comparator [(a, b) => key(a) - key(b)] on numbers that are not NaN. *)
Section KeySort.
Context {A : Type} (k : A -> Z).
Local Abbreviation byKey := (byKey k).
Local Abbreviation keyLe := (keyLe k).

Lemma comesAfter_byKey x y : comesAfter byKey x y = (k y <? k x).
  Proof.
    unfold comesAfter, byKey.
    destruct (Z.ltb_spec 0 (k x - k y)), (Z.ltb_spec (k y) (k x)); lia || reflexivity.
  Qed.

Lemma insertSorted_sorted x s :
    StronglySorted keyLe s -> StronglySorted keyLe (insertSorted byKey x s).
  Proof.
    induction 1 as [|y s Hs IH Hy]; simpl.
    - repeat constructor.
    - rewrite comesAfter_byKey. destruct (Z.ltb_spec (k y) (k x)) as [Hlt|Hle].
      + constructor; [exact IH|].
        rewrite List.Forall_forall. intros z Hz.
        apply (Permutation_in _ (Permutation_sym (insertSorted_perm byKey x s))) in Hz.
        destruct Hz as [<-|Hz]; [unfold keyLe; lia|].
        rewrite List.Forall_forall in Hy. now apply Hy.
      + constructor; [now constructor|].
        constructor; [exact Hle|].
        eapply List.Forall_impl; [|exact Hy]. unfold keyLe. intros; lia.
  Qed.

Lemma Array_sort_sorted l : StronglySorted keyLe (Array_sort byKey l).
  Proof.
    induction l as [|x l IH]; simpl; [constructor|].
    now apply insertSorted_sorted.
  Qed.

  (** The head of the sorted array is a least element of the array. *)
Lemma head_Array_sort_least l x :
    List.head (Array_sort byKey l) = Some x ->
    In x l /\ forall y, In y l -> k x <= k y.
  Proof.
    intros H. pose proof (Array_sort_sorted l) as Hs.
    destruct (Array_sort byKey l) as [|x' s] eqn:E; [discriminate|].
    simpl in H. injection H as ->.
    split.
    - apply (Array_sort_In byKey). rewrite E. now left.
    - intros y Hy. apply (Array_sort_In byKey) in Hy. rewrite E in Hy.
      inversion Hs as [|? ? _ Hall]; subst.
      destruct Hy as [<-|Hy]; [lia|].
      rewrite List.Forall_forall in Hall. now apply Hall.
  Qed.

Lemma head_Array_sort_none cmp (l : list A) :
    List.head (Array_sort cmp l) = None <-> l = [].
  Proof.
    rewrite <- (Array_sort_nil cmp).
    destruct (Array_sort cmp l); simpl; split; congruence.
  Qed.

  (** Stability: an array that is in the strict order of [rank] comes out
      in the order of the key, then of [rank]. *)
Context (rank : A -> nat).
Local Abbreviation rankLt := (rankLt rank).
Local Abbreviation keyThenRank := (keyThenRank k rank).

Lemma insertSorted_stable x s :
    Forall (rankLt x) s ->
    StronglySorted keyThenRank s ->
    StronglySorted keyThenRank (insertSorted byKey x s).
  Proof.
    intros Hx Hs. induction Hs as [|y s Hs IH Hy]; simpl.
    - repeat constructor.
    - rewrite comesAfter_byKey.
      inversion Hx as [|? ? Hxy Hxs]; subst.
      destruct (Z.ltb_spec (k y) (k x)) as [Hlt|Hle].
      + constructor; [now apply IH|].
        rewrite List.Forall_forall. intros z Hz.
        apply (Permutation_in _ (Permutation_sym (insertSorted_perm byKey x s))) in Hz.
        destruct Hz as [<-|Hz]; [left; lia|].
        rewrite List.Forall_forall in Hy. now apply Hy.
      + assert (Hfirst : keyThenRank x y).
        { unfold keyThenRank, rankLt in *. lia. }
        constructor; [now constructor|].
        constructor; [exact Hfirst|].
        rewrite List.Forall_forall in Hy, Hxs |- *. intros z Hz.
        specialize (Hy z Hz). specialize (Hxs z Hz).
        unfold keyThenRank, rankLt in *. lia.
  Qed.

Lemma Array_sort_stable l :
    StronglySorted rankLt l -> StronglySorted keyThenRank (Array_sort byKey l).
  Proof.
    induction 1 as [|x l Hl IH Hx]; simpl; [constructor|].
    apply insertSorted_stable; [|exact IH].
    rewrite List.Forall_forall in Hx |- *. intros z Hz.
    apply Hx. exact (proj1 (Array_sort_In byKey l z) Hz).
  Qed.
End KeySort.

(** ** Dates *)

Lemma TimeClip_Some t t' : TimeClip t = Some t' -> t' = t /\ Z.abs t <= maxTime.
Proof.
  unfold TimeClip. destruct (Z.leb_spec (Z.abs t) maxTime); [|discriminate].
  intros [= <-]. now split.
Qed.

Lemma TimeClip_in_range t : Z.abs t <= maxTime -> TimeClip t = Some t.
Proof.
  unfold TimeClip. intros H. destruct (Z.leb_spec (Z.abs t) maxTime); [reflexivity|lia].
Qed.

(** A Date made by the constructor holds a clipped time value. *)
Lemma new_Date_range Date_parse v t :
  new_Date Date_parse v = Some t -> Z.abs t <= maxTime.
Proof.
  destruct v as [| |s]; simpl; [discriminate| |].
  - intros H. apply TimeClip_Some in H as [-> H]. exact H.
  - destruct (Date_parse s) as [u|]; simpl; [|discriminate].
    intros H. apply TimeClip_Some in H as [-> H]. exact H.
Qed.

Lemma resolvedDate_range Date_parse d t :
  resolvedDate Date_parse d = Some t -> Z.abs t <= maxTime.
Proof. apply new_Date_range. Qed.

Lemma addMinutes_Some d m t :
  addMinutes d m = Some t ->
  exists a, d = Some a /\ t = a + m * 60 * 1000 /\ Z.abs t <= maxTime.
Proof.
  destruct d as [a|]; simpl; [|discriminate].
  intros H. apply TimeClip_Some in H as [-> H]. eauto.
Qed.

Lemma addMinutes_in_range a m :
  Z.abs (a + m * 60 * 1000) <= maxTime ->
  addMinutes (Some a) m = Some (a + m * 60 * 1000).
Proof. intros H. simpl. now apply TimeClip_in_range. Qed.

Lemma Date_ge_true a b :
  Date_ge a b = true <-> exists x y, a = Some x /\ b = Some y /\ y <= x.
Proof.
  destruct a as [x|], b as [y|]; simpl; split;
    try discriminate; try (intros (? & ? & ? & ? & ?); discriminate).
  - intros H. apply Z.leb_le in H. eauto.
  - intros (x' & y' & [= <-] & [= <-] & H). now apply Z.leb_le.
Qed.

(** ** The earliest element at or after a threshold *)
Section Earliest.
Context {B : Type} (tm : B -> Date).
Local Abbreviation byDate := (byDate tm).
Local Abbreviation earliestFrom := (earliestFrom tm).
Local Abbreviation timeOr0 := (timeOr0 tm).

Lemma sort_candidates minTime l :
    Array_sort byDate (List.filter (fun b => Date_ge (tm b) minTime) l)
    = Array_sort (byKey timeOr0) (List.filter (fun b => Date_ge (tm b) minTime) l).
  Proof.
    apply Array_sort_ext. intros x y Hx Hy.
    apply filter_In in Hx as [_ Hx]. apply filter_In in Hy as [_ Hy].
    apply Date_ge_true in Hx as (tx & ? & Ex & _ & _).
    apply Date_ge_true in Hy as (ty & ? & Ey & _ & _).
    unfold byDate, byKey, timeOr0. now rewrite Ex, Ey.
  Qed.

Lemma earliestFrom_Some minTime l b :
    earliestFrom minTime l = Some b ->
    In b l /\
    exists t thr, tm b = Some t /\ minTime = Some thr /\ thr <= t /\
      forall y t', In y l -> tm y = Some t' -> thr <= t' -> t <= t'.
  Proof.
    unfold earliestFrom. rewrite sort_candidates. intros H.
    apply head_Array_sort_least in H as [Hin Hleast].
    apply filter_In in Hin as [Hin Hge].
    apply Date_ge_true in Hge as (t & thr & Et & Ethr & Hle).
    split; [exact Hin|]. exists t, thr. repeat split; try assumption.
    intros y t' Hy Ey Hthr.
    assert (Hy' : In y (List.filter (fun b => Date_ge (tm b) minTime) l)).
    { apply filter_In. split; [exact Hy|]. apply Date_ge_true. eauto. }
    specialize (Hleast y Hy'). unfold timeOr0 in Hleast.
    now rewrite Et, Ey in Hleast.
  Qed.

Lemma earliestFrom_None minTime l :
    earliestFrom minTime l = None ->
    forall y, In y l -> Date_ge (tm y) minTime = false.
  Proof.
    unfold earliestFrom. intros H y Hy.
    apply head_Array_sort_none in H.
    destruct (Date_ge (tm y) minTime) eqn:E; [|reflexivity].
    assert (Hin : In y (List.filter (fun b => Date_ge (tm b) minTime) l))
      by (apply filter_In; now split).
    rewrite H in Hin. destruct Hin.
  Qed.

End Earliest.

(** ** The effects *)

Lemma bind_Return {A B : Type} (c : M A) (k : A -> M B) clock n b m :
  bind c k clock n = Return (b, m) ->
  exists a n', c clock n = Return (a, n') /\ k a clock n' = Return (b, m).
Proof.
  unfold bind. destruct (c clock n) as [[a n']|e]; [|discriminate]. eauto.
Qed.

Lemma bind_eq {A B : Type} (c : M A) (k : A -> M B) clock n a n' :
  c clock n = Return (a, n') -> bind c k clock n = k a clock n'.
Proof. unfold bind. now intros ->. Qed.

Lemma toISOString_Return d clock n t m :
  toISOString d clock n = Return (t, m) -> d = Some t /\ m = n.
Proof. destruct d; cbv; intros [= -> ->] || discriminate. now split. Qed.

Lemma departuresOf_Return p clock n ds m :
  departuresOf p clock n = Return (ds, m) -> departures p = Some ds /\ m = n.
Proof.
  unfold departuresOf. destruct (departures p); cbv; [|discriminate].
  intros [= -> ->]. now split.
Qed.

Lemma departuresOf_eq p ds clock n :
  departures p = Some ds -> departuresOf p clock n = Return (ds, n).
Proof. unfold departuresOf. now intros ->. Qed.

(** Takes a successful run apart, one bind at a time. *)
Ltac run_inv H :=
  lazymatch type of H with
  | bind _ _ _ _ = Return _ =>
      let a := fresh "a" in
      let n := fresh "n" in
      let H1 := fresh "H" in
      apply bind_Return in H as (a & n & H1 & H);
      run_inv H1; run_inv H
  | toISOString _ _ _ = Return _ =>
      let E := fresh "E" in
      apply toISOString_Return in H as [E ->]
  | departuresOf _ _ _ = Return _ =>
      let E := fresh "E" in
      apply departuresOf_Return in H as [E ->]
  | Date_now _ _ = Return _ => injection H as <- <-
  | ret _ _ _ = Return _ => first [injection H as <- <- | idtac]
  | _ => idtac
  end.

(** ** C6: the resolved time of a record *)

Lemma js_or_truthy a b : truthy a = true -> js_or a b = a.
Proof. unfold js_or. now intros ->. Qed.

Lemma js_or_falsy a b : truthy a = false -> js_or a b = b.
Proof. unfold js_or. now intros ->. Qed.

Lemma truthy_JStr s : s <> "" -> truthy (JStr s) = true.
Proof.
  intros H. simpl. destruct (String.eqb_spec s ""); [contradiction|reflexivity].
Qed.

(** C6. A record whose estimated time is present (a non-empty string) is
    given the Date of that estimate as its resolved time, by each of the four
    normalising maps of the two files; a record whose estimate is absent or
    null and whose scheduled time is a string is given the Date of the
    scheduled time. *)
Theorem resolved_time_rule (Date_parse : string -> option Z)
    (d : RawDeparture) (routeNumber : string) (routeData : option (gmap Z Route)) :
  let times :=
    [Departures.departureTime
       (Departures.withDepartureTime Date_parse
          {| Departures.dep := d; Departures.routeNumber := routeNumber |});
     Departures.arrivalTime (Departures.withArrivalTime Date_parse d);
     Server.time (Server.withTime Date_parse routeData d);
     Server.arrivalTime (Server.withArrivalTime Date_parse d)] in
  (forall est sched,
     estimated_departure_utc d = JStr est -> est <> "" ->
     scheduled_departure_utc d = JStr sched ->
     Forall (fun t => t = new_Date Date_parse (JStr est)) times) /\
  (forall sched,
     estimated_departure_utc d = JUndefined \/ estimated_departure_utc d = JNull ->
     scheduled_departure_utc d = JStr sched ->
     Forall (fun t => t = new_Date Date_parse (JStr sched)) times).
Proof.
  simpl. unfold resolvedDate. split.
  - intros est sched Hest Hne _. rewrite Hest, (js_or_truthy _ _ (truthy_JStr est Hne)).
    repeat constructor.
  - intros sched Hest Hsched.
    rewrite js_or_falsy by (destruct Hest as [-> | ->]; reflexivity).
    rewrite Hsched. repeat constructor.
Qed.

Lemma resolved_time_rule_witness :
  Departures.arrivalTime
    (Departures.withArrivalTime IsoDate.iso_parse
       (Samples.departure 7 (Some 6) (JStr "2024-03-01T09:58:00Z")
                          (JStr "2024-03-01T10:00:00Z")))
  = new_Date IsoDate.iso_parse (JStr "2024-03-01T10:00:00Z")
  /\ Server.time
       (Server.withTime IsoDate.iso_parse None
          (Samples.departure 100 None (JStr "2024-03-01T10:04:00Z") JNull))
     = new_Date IsoDate.iso_parse (JStr "2024-03-01T10:04:00Z").
Proof.
  split.
  - pose proof (proj1 (resolved_time_rule IsoDate.iso_parse
        (Samples.departure 7 (Some 6) (JStr "2024-03-01T09:58:00Z")
                           (JStr "2024-03-01T10:00:00Z")) "733" None)
        "2024-03-01T10:00:00Z" "2024-03-01T09:58:00Z"
        eq_refl ltac:(discriminate) eq_refl) as H.
    inversion H as [|? ? _ H']. inversion H' as [|? ? E _]. exact E.
  - pose proof (proj2 (resolved_time_rule IsoDate.iso_parse
        (Samples.departure 100 None (JStr "2024-03-01T10:04:00Z") JNull) "733" None)
        "2024-03-01T10:04:00Z" (or_intror eq_refl) eq_refl) as H.
    inversion H as [|? ? _ H']. inversion H' as [|? ? _ H'']. inversion H'' as [|? ? E _]. exact E.
Defined.

(** ** C1: the transfer matcher *)

Lemma findNextBus_earliest Date_parse busDepartures trainArrival routes m :
  Departures.findNextBus Date_parse busDepartures trainArrival routes m
  = earliestFrom Departures.departureTime (addMinutes trainArrival m)
      (List.map (Departures.withDepartureTime Date_parse) busDepartures).
Proof. reflexivity. Qed.

Lemma findBusIn_earliest Date_parse ds routes trainArr routeData :
  Server.findBusIn Date_parse ds routes trainArr routeData
  = earliestFrom Server.time (addMinutes trainArr MIN_TRANSFER_TIME)
      (List.map (Server.withTime Date_parse routeData)
         (List.filter (Server.onRoute routes routeData) ds)).
Proof. reflexivity. Qed.

(** With a valid arrival and a buffer that is not negative, the threshold
    is either a Date or lies beyond every Date. *)
Lemma threshold_cases a m :
  Z.abs a <= maxTime -> 0 <= m ->
  addMinutes (Some a) m = Some (a + m * 60 * 1000)
  \/ (addMinutes (Some a) m = None /\ maxTime < a + m * 60 * 1000).
Proof.
  intros Ha Hm. unfold addMinutes, plusMinutes, Date_of_number, TimeClip.
  destruct (Z.leb_spec (Z.abs (a + m * 60 * 1000)) maxTime); [now left|right].
  split; [reflexivity|lia].
Qed.

Lemma earliest_after_arrival {B : Type} (tm : B -> Date) (a m : Z) (l : list B) :
  (forall b t, In b l -> tm b = Some t -> Z.abs t <= maxTime) ->
  Z.abs a <= maxTime -> 0 <= m ->
  match earliestFrom tm (addMinutes (Some a) m) l with
  | Some b =>
      In b l /\
      exists t, tm b = Some t /\ a + m * 60 * 1000 <= t /\
        forall y t', In y l -> tm y = Some t' -> a + m * 60 * 1000 <= t' -> t <= t'
  | None =>
      forall y t', In y l -> tm y = Some t' -> t' < a + m * 60 * 1000
  end.
Proof.
  intros Hrange Ha Hm.
  destruct (earliestFrom tm (addMinutes (Some a) m) l) as [b|] eqn:E.
  - apply earliestFrom_Some in E as (Hin & t & thr & Et & Ethr & Hle & Hmin).
    apply addMinutes_Some in Ethr as (a' & [= <-] & -> & _).
    split; [exact Hin|]. exists t. auto.
  - intros y t' Hy Ey.
    pose proof (earliestFrom_None tm _ _ E y Hy) as Hno.
    destruct (threshold_cases a m Ha Hm) as [Hthr|[Hthr Hbig]].
    + rewrite Hthr, Ey in Hno. simpl in Hno. apply Z.leb_gt in Hno. exact Hno.
    + apply (Hrange _ _ Hy) in Ey. lia.
Qed.

(** C1. For a valid arrival instant [a] and a buffer of [m >= 0] minutes,
    findNextBus returns an event of the given sequence whose resolved
    departure is at or after [a + m] minutes and is the least such; it returns
    null exactly when every resolved departure is before [a + m] minutes (or
    is no instant).  findBus of server.mjs does the same with the buffer
    MIN_TRANSFER on the departures of the wanted route. *)
Theorem transfer_matcher_earliest (Date_parse : string -> option Z) (a m : Z) :
  Z.abs a <= maxTime -> 0 <= m ->
  (forall busDepartures routes,
     match Departures.findNextBus Date_parse busDepartures (Some a) routes m with
     | Some b =>
         In (Departures.entry b) busDepartures /\
         Departures.departureTime b
           = resolvedDate Date_parse (Departures.dep (Departures.entry b)) /\
         exists t, Departures.departureTime b = Some t /\
           a + m * 60 * 1000 <= t /\
           forall e t', In e busDepartures ->
             resolvedDate Date_parse (Departures.dep e) = Some t' ->
             a + m * 60 * 1000 <= t' -> t <= t'
     | None =>
         forall e t', In e busDepartures ->
           resolvedDate Date_parse (Departures.dep e) = Some t' ->
           t' < a + m * 60 * 1000
     end) /\
  (forall ds rs routes routeData clock n,
     exists found,
       Server.findBus Date_parse {| departures := Some ds; routes := rs |}
         routes (Some a) routeData clock n = Return (found, n) /\
       match found with
       | Some b =>
           In (Server.raw b) ds /\
           Server.onRoute routes routeData (Server.raw b) = true /\
           Server.time b = resolvedDate Date_parse (Server.raw b) /\
           exists t, Server.time b = Some t /\
             a + MIN_TRANSFER_TIME * 60 * 1000 <= t /\
             forall d t', In d ds -> Server.onRoute routes routeData d = true ->
               resolvedDate Date_parse d = Some t' ->
               a + MIN_TRANSFER_TIME * 60 * 1000 <= t' -> t <= t'
       | None =>
           forall d t', In d ds -> Server.onRoute routes routeData d = true ->
             resolvedDate Date_parse d = Some t' ->
             t' < a + MIN_TRANSFER_TIME * 60 * 1000
       end).
Proof.
  intros Ha Hm. split.
  - intros busDepartures routes. rewrite findNextBus_earliest.
    pose proof (earliest_after_arrival Departures.departureTime a m
      (List.map (Departures.withDepartureTime Date_parse) busDepartures)) as H.
    assert (Hrange : forall b t,
      In b (List.map (Departures.withDepartureTime Date_parse) busDepartures) ->
      Departures.departureTime b = Some t -> Z.abs t <= maxTime).
    { intros b t Hb Et. apply in_map_iff in Hb as (e & <- & _).
      now apply resolvedDate_range in Et. }
    specialize (H Hrange Ha Hm).
    destruct (earliestFrom _ _ _) as [b|].
    + destruct H as (Hin & t & Et & Hle & Hmin).
      apply in_map_iff in Hin as (e & <- & He). simpl in *.
      repeat split; try assumption. exists t. repeat split; try assumption.
      intros e' t' He' Et'. apply (Hmin (Departures.withDepartureTime Date_parse e')).
      * apply in_map. exact He'.
      * exact Et'.
    + intros e t' He Et. apply (H (Departures.withDepartureTime Date_parse e)).
      * apply in_map. exact He.
      * exact Et.
  - intros ds rs routes routeData clock n.
    exists (Server.findBusIn Date_parse ds routes (Some a) routeData).
    split; [reflexivity|]. rewrite findBusIn_earliest.
    set (l := List.map (Server.withTime Date_parse routeData)
                (List.filter (Server.onRoute routes routeData) ds)).
    pose proof (earliest_after_arrival Server.time a MIN_TRANSFER_TIME l) as H.
    assert (Hrange : forall b t, In b l -> Server.time b = Some t -> Z.abs t <= maxTime).
    { intros b t Hb Et. apply in_map_iff in Hb as (e & <- & _).
      now apply resolvedDate_range in Et. }
    specialize (H Hrange Ha ltac:(unfold MIN_TRANSFER_TIME; lia)).
    assert (Hl : forall d, In d ds -> Server.onRoute routes routeData d = true ->
                 In (Server.withTime Date_parse routeData d) l).
    { intros d Hd Hr. apply in_map. apply filter_In. now split. }
    destruct (earliestFrom _ _ l) as [b|].
    + destruct H as (Hin & t & Et & Hle & Hmin).
      apply in_map_iff in Hin as (e & <- & He). apply filter_In in He as [He Hr].
      simpl in *. repeat split; try assumption. exists t.
      repeat split; try assumption.
      intros d t' Hd Hr' Et'. apply (Hmin _ t' (Hl d Hd Hr') Et').
    + intros d t' Hd Hr Et. apply (H _ t' (Hl d Hd Hr) Et).
Qed.

Lemma transfer_matcher_earliest_witness :
  exists b,
    Departures.findNextBus IsoDate.iso_parse
      (List.map (fun d => {| Departures.dep := d; Departures.routeNumber := "733" |})
         (listOf Samples.buses733))
      (Some Samples.t1000) ["733"] 3 = Some b
    /\ Departures.departureTime b = Some (Samples.t1000 + 4 * 60 * 1000).
Proof.
  pose proof (proj1 (transfer_matcher_earliest IsoDate.iso_parse Samples.t1000 3
                       ltac:(vm_compute; discriminate) ltac:(lia))
                (List.map (fun d => {| Departures.dep := d;
                                       Departures.routeNumber := "733" |})
                   (listOf Samples.buses733)) ["733"]) as H.
  destruct (Departures.findNextBus _ _ _ _ _) as [b|] eqn:E.
  - exists b. split; [reflexivity|].
    vm_compute in E. injection E as <-. reflexivity.
  - exfalso. specialize (H _ (Samples.t1000 + 4 * 60 * 1000)
      ltac:(right; left; reflexivity) ltac:(reflexivity)). lia.
Defined.

(** ** The option blocks of api/departures.js *)

Lemma earliestFrom_after_train {B : Type} (tm : B -> Date) arr m l b :
  earliestFrom tm (addMinutes arr m) l = Some b ->
  In b l /\ exists a t, arr = Some a /\ tm b = Some t /\ a + m * 60 * 1000 <= t.
Proof.
  intros H. apply earliestFrom_Some in H as (Hin & t & thr & Et & Ethr & Hle & _).
  apply addMinutes_Some in Ethr as (a & -> & -> & _).
  split; [exact Hin|]. eauto.
Qed.

Section DeparturesBlocks.
Variable Date_parse : string -> option Z.

Lemma getBusDepartures_Return routeNumbers data clock n data' n' :
  Departures.getBusDepartures routeNumbers data clock n = Return (data', n') ->
  n' = n /\ routes data' = routes data /\
  exists ds, departures data = Some ds /\
    departures data' = Some (List.filter (Departures.wantedRoute data routeNumbers) ds).
Proof.
  unfold Departures.getBusDepartures. intros H. run_inv H.
  repeat split. eauto.
Qed.

Lemma getBusDepartures_subset routeNumbers data clock n data' n' d :
  Departures.getBusDepartures routeNumbers data clock n = Return (data', n') ->
  In d (listOf data') -> In d (listOf data).
Proof.
  intros H. apply getBusDepartures_Return in H as (_ & _ & ds & E & E').
  unfold listOf. rewrite E, E'. intros Hd. now apply filter_In in Hd.
Qed.

Lemma busList_Return buses dflt clock n l n' :
  Departures.busList buses dflt clock n = Return (l, n') ->
  n' = n /\ List.map Departures.dep l = listOf buses.
Proof.
  unfold Departures.busList. intros H. run_inv H.
  split; [reflexivity|]. unfold listOf. rewrite E.
  rewrite map_map. simpl. apply map_id.
Qed.

Lemma makeOption_Return st arr route travelTime bus clock n o n' :
  Departures.makeOption st arr route travelTime bus clock n = Return (o, n') ->
  n' = S n /\
  exists ta bd am,
    arr = Some ta /\ Departures.departureTime bus = Some bd /\
    addMinutes (Some bd) travelTime = Some am /\
    o = optionObject st ta route bd travelTime am (clock n).
Proof.
  unfold Departures.makeOption. intros H. run_inv H.
  split; [reflexivity|]. exists a, a0, a1. rewrite E0 in E1. auto.
Qed.

(** What one [findNextBus ... if (bus) push] leaves in [options]. *)
Lemma pushOption_made st arr route travelTime (l : list Departures.BusEntry)
    routes clock n os n' :
  travelTime = BUS_TRAVEL_TIMES route ->
  Departures.pushOption st arr route travelTime
    (Departures.findNextBus Date_parse l arr routes MIN_TRANSFER_TIME) clock n
  = Return (os, n') ->
  (length os <= 1)%nat /\
  Forall (madeAt Date_parse st route arr (List.map Departures.dep l)) os.
Proof.
  intros -> H. unfold Departures.pushOption in H.
  destruct (Departures.findNextBus _ _ _ _ _) as [b|] eqn:Eb.
  - run_inv H. apply makeOption_Return in H0 as (_ & ta & bd & am & Ea & Eb' & Eam & ->).
    split; [simpl; lia|]. constructor; [|constructor].
    rewrite findNextBus_earliest in Eb.
    apply earliestFrom_after_train in Eb as (Hin & a' & t & Ea' & Et & Hle).
    apply in_map_iff in Hin as (e & <- & He). simpl in *.
    rewrite Ea in Ea'. injection Ea' as <-. rewrite Eb' in Et. injection Et as <-.
    apply TimeClip_Some in Eam as [-> _].
    unfold madeAt; simpl. repeat split; try assumption.
    exists (Departures.dep e). split; [now apply in_map|exact Eb'].
  - run_inv H. split; [simpl; lia|constructor].
Qed.

Lemma stopOptions_made st arr route buses clock n os n' :
  Departures.stopOptions Date_parse st arr route buses clock n = Return (os, n') ->
  (length os <= 1)%nat /\
  Forall (madeAt Date_parse st route arr (listOf buses)) os.
Proof.
  unfold Departures.stopOptions. intros H.
  apply bind_Return in H as (l & n1 & Hl & H).
  apply busList_Return in Hl as [-> <-].
  now apply pushOption_made in H.
Qed.

Lemma madeAt_incl st route arr ds ds' o :
  (forall d, In d ds -> In d ds') ->
  madeAt Date_parse st route arr ds o -> madeAt Date_parse st route arr ds' o.
Proof.
  intros Hsub (H1 & H2 & H3 & (d & Hd & Ed) & H5 & H6).
  unfold madeAt. repeat split; try assumption. exists d. auto.
Qed.

Lemma glenWaverleyBlock_made arr gw clock n os n' :
  Departures.glenWaverleyBlock Date_parse arr gw clock n = Return (os, n') ->
  exists o742 o737,
    os = o742 ++ o737 /\
    (length o742 <= 1)%nat /\ (length o737 <= 1)%nat /\
    Forall (madeAt Date_parse glenWaverley "742" arr (listOf gw)) o742 /\
    Forall (madeAt Date_parse glenWaverley "737" arr (listOf gw)) o737.
Proof.
  unfold Departures.glenWaverleyBlock. intros H.
  apply bind_Return in H as (l & n1 & Hl & H).
  apply busList_Return in Hl as [-> Hl].
  simpl in H.
  apply bind_Return in H as (o1 & n2 & H1 & H).
  apply bind_Return in H as (o23 & n3 & H2 & H).
  apply bind_Return in H2 as (o2 & n4 & H2 & H3).
  run_inv H3. run_inv H.
  apply pushOption_made in H1 as [L1 F1]; [|reflexivity].
  apply pushOption_made in H2 as [L2 F2]; [|reflexivity].
  exists o1, o2. rewrite app_nil_r.
  repeat split; try assumption.
  - eapply List.Forall_impl; [|exact F1]. intros o. apply madeAt_incl.
    intros d Hd. apply in_map_iff in Hd as (e & <- & He).
    apply filter_In in He as [He _]. rewrite <- Hl. now apply in_map.
  - eapply List.Forall_impl; [|exact F2]. intros o. apply madeAt_incl.
    intros d Hd. apply in_map_iff in Hd as (e & <- & He).
    apply filter_In in He as [He _]. rewrite <- Hl. now apply in_map.
Qed.

Lemma buildOptions_made nextTrain b1 b2 b3 b4 clock n opts n' :
  Departures.buildOptions Date_parse nextTrain b1 b2 b3 b4 clock n = Return (opts, n') ->
  let arr := Departures.trainArrivals nextTrain in
  exists o1 o2 o3 o4 o5,
    opts = o1 ++ o2 ++ o3 ++ o4 ++ o5 /\
    ((length o1 <= 1)%nat /\ Forall (madeAt Date_parse mountWaverley "733" (arr mountWaverley) (listOf b1)) o1) /\
    ((length o2 <= 1)%nat /\ Forall (madeAt Date_parse syndal "703" (arr syndal) (listOf b2)) o2) /\
    ((length o3 <= 1)%nat /\ Forall (madeAt Date_parse syndal "737" (arr syndal) (listOf b3)) o3) /\
    ((length o4 <= 1)%nat /\ Forall (madeAt Date_parse glenWaverley "742" (arr glenWaverley) (listOf b4)) o4) /\
    ((length o5 <= 1)%nat /\ Forall (madeAt Date_parse glenWaverley "737" (arr glenWaverley) (listOf b4)) o5).
Proof.
  intros H. cbv zeta. unfold Departures.buildOptions in H.
  apply bind_Return in H as (o1 & n1 & H1 & H).
  apply bind_Return in H as (o2 & n2 & H2 & H).
  apply bind_Return in H as (o3 & n3 & H3 & H).
  apply bind_Return in H as (o4 & n4 & H4 & H).
  run_inv H.
  apply stopOptions_made in H1, H2, H3.
  apply glenWaverleyBlock_made in H4 as (o742 & o737 & -> & L4 & L5 & F4 & F5).
  exists o1, o2, o3, o742, o737. repeat split; tauto.
Qed.

Lemma compute_Recommend trains b1 b2 b3 b4 clock n r n' :
  Departures.compute Date_parse trains b1 b2 b3 b4 clock n = Return (Recommend r, n') ->
  exists ds nt opts n1,
    departures trains = Some ds /\
    List.head (Departures.outboundTrains Date_parse ds) = Some nt /\
    Departures.buildOptions Date_parse nt b1 b2 b3 b4 clock n = Return (opts, n1) /\
    (forall s, Departures.trainArrivals nt s = Some (arrivalAt (nextTrain r) s)) /\
    allOptions r = Array_sort byArrivalAtMonash opts /\
    recommendation r = List.head (allOptions r) /\
    timestamp r = clock n1 /\ n' = S n1.
Proof.
  unfold Departures.compute. intros H.
  apply bind_Return in H as (ds & n0 & Hds & H). run_inv Hds.
  destruct (List.head (Departures.outboundTrains Date_parse ds)) as [nt|] eqn:Ent.
  - apply bind_Return in H as (opts & n1 & Hopts & H). run_inv H.
    exists ds, nt, opts, n1. simpl.
    repeat split; try assumption; try reflexivity.
    intros []; assumption.
  - apply bind_Return in H as (? & ? & _ & H). discriminate H.
Qed.
End DeparturesBlocks.

(** ** The option blocks of server.mjs *)
Section ServerBlocks.
Variable Date_parse : string -> option Z.

Lemma findBus_Return deps routes trainArr routeData clock n found n' :
  Server.findBus Date_parse deps routes trainArr routeData clock n = Return (found, n') ->
  n' = n /\
  exists ds, departures deps = Some ds /\
    found = Server.findBusIn Date_parse ds routes trainArr routeData.
Proof.
  unfold Server.findBus. intros H. run_inv H. split; [reflexivity|]. eauto.
Qed.

Lemma server_makeOption_Return st arr routeName b clock n o n' :
  Server.makeOption st arr routeName b clock n = Return (o, n') ->
  n' = S n /\
  exists ta bd am,
    arr = Some ta /\ Server.time b = Some bd /\
    addMinutes (Some bd) (BUS_TRAVEL_TIMES routeName) = Some am /\
    o = optionObject st ta routeName bd (BUS_TRAVEL_TIMES routeName) am (clock n).
Proof.
  unfold Server.makeOption. intros H. run_inv H.
  split; [reflexivity|]. exists a, a0, a1. rewrite E0 in E1. auto.
Qed.

Lemma optionFor_made st arr routeName deps clock n os n' :
  Server.optionFor Date_parse st arr routeName deps clock n = Return (os, n') ->
  (length os <= 1)%nat /\
  Forall (madeAt Date_parse st routeName arr (listOf deps)) os.
Proof.
  unfold Server.optionFor. intros H.
  apply bind_Return in H as (found & n1 & Hf & H).
  apply findBus_Return in Hf as (-> & ds & Eds & ->).
  destruct (Server.findBusIn _ _ _ _ _) as [b|] eqn:Eb.
  - run_inv H.
    apply server_makeOption_Return in H0 as (_ & ta & bd & am & Ea & Eb' & Eam & ->).
    split; [simpl; lia|]. constructor; [|constructor].
    rewrite findBusIn_earliest in Eb.
    apply earliestFrom_after_train in Eb as (Hin & a' & t & Ea' & Et & Hle).
    apply in_map_iff in Hin as (d & <- & Hd). apply filter_In in Hd as [Hd _].
    simpl in *.
    rewrite Ea in Ea'. injection Ea' as <-. rewrite Eb' in Et. injection Et as <-.
    apply TimeClip_Some in Eam as [-> _].
    unfold madeAt, listOf; simpl. rewrite Eds. repeat split; try assumption.
    exists d. split; assumption.
  - run_inv H. split; [simpl; lia|constructor].
Qed.

Lemma server_buildOptions_made nextTrain b1 b2 b3 b4 clock n opts n' :
  Server.buildOptions Date_parse nextTrain b1 b2 b3 b4 clock n = Return (opts, n') ->
  let arr := Server.trainArrivals nextTrain in
  exists o1 o2 o3 o4 o5,
    opts = o1 ++ o2 ++ o3 ++ o4 ++ o5 /\
    ((length o1 <= 1)%nat /\ Forall (madeAt Date_parse mountWaverley "733" (arr mountWaverley) (listOf b1)) o1) /\
    ((length o2 <= 1)%nat /\ Forall (madeAt Date_parse syndal "703" (arr syndal) (listOf b2)) o2) /\
    ((length o3 <= 1)%nat /\ Forall (madeAt Date_parse syndal "737" (arr syndal) (listOf b3)) o3) /\
    ((length o4 <= 1)%nat /\ Forall (madeAt Date_parse glenWaverley "742" (arr glenWaverley) (listOf b4)) o4) /\
    ((length o5 <= 1)%nat /\ Forall (madeAt Date_parse glenWaverley "737" (arr glenWaverley) (listOf b4)) o5).
Proof.
  intros H. cbv zeta. unfold Server.buildOptions in H.
  apply bind_Return in H as (o1 & n1 & H1 & H).
  apply bind_Return in H as (o2 & n2 & H2 & H).
  apply bind_Return in H as (o3 & n3 & H3 & H).
  apply bind_Return in H as (o4 & n4 & H4 & H).
  apply bind_Return in H as (o5 & n5 & H5 & H).
  run_inv H.
  apply optionFor_made in H1, H2, H3, H4, H5.
  exists o1, o2, o3, o4, o5. repeat split; tauto.
Qed.

(** The [try] block of server.mjs read in one piece. *)
Lemma handleAPIBody_eq trains b1 b2 b3 b4 clock n :
  Server.handleAPIBody Date_parse trains b1 b2 b3 b4 clock n
  = (let* ds := departuresOf trains in
     match List.head (Server.outbound Date_parse ds) with
     | None =>
         let* now := Date_now in
         ret (NoUpcomingTrains now)
     | Some nextTrain =>
         let* options := Server.buildOptions Date_parse nextTrain b1 b2 b3 b4 in
         let* now := Date_now in
         let* a1 := toISOString (Server.trainArrivals nextTrain mountWaverley) in
         let* a2 := toISOString (Server.trainArrivals nextTrain syndal) in
         let* a3 := toISOString (Server.trainArrivals nextTrain glenWaverley) in
         ret (Recommend
                {| timestamp := now;
                   nextTrain := {| atMountWaverley := a1;
                                   atSyndal := a2;
                                   atGlenWaverley := a3 |};
                   recommendation :=
                     List.head (Array_sort byArrivalAtMonash options);
                   allOptions := Array_sort byArrivalAtMonash options |})
     end) clock n.
Proof.
  unfold Server.handleAPIBody, Server.beforeWriteHead, Server.afterWriteHead, bind.
  destruct (departuresOf trains clock n) as [[ds n0]|]; [|reflexivity].
  destruct (List.head (Server.outbound Date_parse ds)) as [nt|]; [|reflexivity].
  destruct (Server.buildOptions _ _ _ _ _ _ _ _) as [[opts n1]|]; reflexivity.
Qed.

Lemma handleAPIBody_Recommend trains b1 b2 b3 b4 clock n r n' :
  Server.handleAPIBody Date_parse trains b1 b2 b3 b4 clock n = Return (Recommend r, n') ->
  exists ds nt opts n1,
    departures trains = Some ds /\
    List.head (Server.outbound Date_parse ds) = Some nt /\
    Server.buildOptions Date_parse nt b1 b2 b3 b4 clock n = Return (opts, n1) /\
    (forall s, Server.trainArrivals nt s = Some (arrivalAt (nextTrain r) s)) /\
    allOptions r = Array_sort byArrivalAtMonash opts /\
    recommendation r = List.head (allOptions r) /\
    timestamp r = clock n1 /\ n' = S n1.
Proof.
  rewrite handleAPIBody_eq. intros H.
  apply bind_Return in H as (ds & n0 & Hds & H). run_inv Hds.
  destruct (List.head (Server.outbound Date_parse ds)) as [nt|] eqn:Ent.
  - apply bind_Return in H as (opts & n1 & Hopts & H). run_inv H.
    exists ds, nt, opts, n1. simpl.
    repeat split; try assumption; try reflexivity.
    intros []; assumption.
  - apply bind_Return in H as (? & ? & _ & H). discriminate H.
Qed.
End ServerBlocks.

(** What [respond] returns is what the body returned. *)
Lemma respond_Recommend c clock r :
  respond c clock = Recommend r -> exists n, c clock 0%nat = Return (Recommend r, n).
Proof.
  unfold respond. destruct (c clock 0%nat) as [[x n]|e]; [|discriminate].
  intros ->. eauto.
Qed.

Lemma respond_NoUpcomingTrains c clock ts :
  respond c clock = NoUpcomingTrains ts ->
  exists n, c clock 0%nat = Return (NoUpcomingTrains ts, n).
Proof.
  unfold respond. destruct (c clock 0%nat) as [[x n]|e]; [|discriminate].
  intros ->. eauto.
Qed.

(** What server.mjs answers when nothing is thrown is what its [try] block
    returned. *)
Lemma handleAPI_Return Date_parse clock trains b1 b2 b3 b4 r n :
  Server.handleAPIBody Date_parse trains b1 b2 b3 b4 clock 0%nat = Return (r, n) ->
  Server.handleAPI Date_parse clock trains b1 b2 b3 b4 = r.
Proof.
  unfold Server.handleAPIBody, Server.handleAPI, bind.
  destruct (Server.beforeWriteHead _ _ _ _ _ _ _ _) as [[ready n0]|]; [|discriminate].
  now intros ->.
Qed.

Lemma handleAPI_Recommend Date_parse clock trains b1 b2 b3 b4 r :
  Server.handleAPI Date_parse clock trains b1 b2 b3 b4 = Recommend r ->
  exists n,
    Server.handleAPIBody Date_parse trains b1 b2 b3 b4 clock 0%nat
    = Return (Recommend r, n).
Proof.
  unfold Server.handleAPIBody, Server.handleAPI, bind.
  destruct (Server.beforeWriteHead _ _ _ _ _ _ _ _) as [[ready n0]|]; [|discriminate].
  destruct (Server.afterWriteHead ready clock n0) as [[x n]|]; [|discriminate].
  intros ->. eauto.
Qed.

Lemma handleAPI_NoUpcomingTrains Date_parse clock trains b1 b2 b3 b4 ts :
  Server.handleAPI Date_parse clock trains b1 b2 b3 b4 = NoUpcomingTrains ts ->
  exists n,
    Server.handleAPIBody Date_parse trains b1 b2 b3 b4 clock 0%nat
    = Return (NoUpcomingTrains ts, n).
Proof.
  unfold Server.handleAPIBody, Server.handleAPI, bind.
  destruct (Server.beforeWriteHead _ _ _ _ _ _ _ _) as [[ready n0]|]; [|discriminate].
  destruct (Server.afterWriteHead ready clock n0) as [[x n]|]; [|discriminate].
  intros ->. eauto.
Qed.

Lemma handler_Recommend Date_parse clock trains mw733 syn703 syn737 gw r :
  Departures.handler Date_parse clock trains mw733 syn703 syn737 gw = Recommend r ->
  exists b1 b2 b3 b4 n,
    Departures.compute Date_parse trains b1 b2 b3 b4 clock 0%nat = Return (Recommend r, n) /\
    (forall d, In d (listOf b1) -> In d (listOf mw733)) /\
    (forall d, In d (listOf b2) -> In d (listOf syn703)) /\
    (forall d, In d (listOf b3) -> In d (listOf syn737)) /\
    (forall d, In d (listOf b4) -> In d (listOf gw)).
Proof.
  intros H. apply respond_Recommend in H as [n H].
  unfold Departures.handlerBody in H.
  apply bind_Return in H as (b1 & n1 & H1 & H).
  apply bind_Return in H as (b2 & n2 & H2 & H).
  apply bind_Return in H as (b3 & n3 & H3 & H).
  apply bind_Return in H as (b4 & n4 & H4 & H).
  pose proof (getBusDepartures_Return _ _ _ _ _ _ H1) as [-> _].
  pose proof (getBusDepartures_Return _ _ _ _ _ _ H2) as [-> _].
  pose proof (getBusDepartures_Return _ _ _ _ _ _ H3) as [-> _].
  pose proof (getBusDepartures_Return _ _ _ _ _ _ H4) as [-> _].
  exists b1, b2, b3, b4, n. split; [exact H|].
  repeat split; intros d; eapply getBusDepartures_subset; eassumption.
Qed.

(** ** The list [options] before the sort *)

Lemma madeAt_enumerationIndex Date_parse st route arr ds o :
  madeAt Date_parse st route arr ds o ->
  enumerationIndex o
  = enumerationIndex (optionObject st 0 route 0 0 0 0).
Proof.
  intros (Hs & Hr & _). unfold enumerationIndex. simpl. now rewrite Hs, Hr.
Qed.

Lemma madeAt_feasible Date_parse nt mw733 syn703 syn737 gw st route arr ds o :
  arr = Some (arrivalAt nt st) ->
  (forall d, In d ds -> In d (departuresAt mw733 syn703 syn737 gw st)) ->
  madeAt Date_parse st route arr ds o ->
  feasible Date_parse nt mw733 syn703 syn737 gw o.
Proof.
  intros Harr Hsub (Hs & _ & Ha & (d & Hd & Ed) & Hle & _).
  rewrite Harr in Ha. injection Ha as Ha.
  exists st, d. rewrite Ha. repeat split; auto.
Qed.

Lemma at_most_one {A : Type} (l : list A) :
  (length l <= 1)%nat -> l = [] \/ exists x, l = [x].
Proof.
  destruct l as [|x [|y l]]; simpl; intros H; [now left|right; eauto|lia].
Qed.

(** The five blocks leave their options in the order of the enumeration. *)
Lemma five_blocks_in_order (P1 P2 P3 P4 P5 : Itinerary -> Prop) o1 o2 o3 o4 o5 :
  (forall o, P1 o -> enumerationIndex o = 0%nat) ->
  (forall o, P2 o -> enumerationIndex o = 1%nat) ->
  (forall o, P3 o -> enumerationIndex o = 2%nat) ->
  (forall o, P4 o -> enumerationIndex o = 3%nat) ->
  (forall o, P5 o -> enumerationIndex o = 4%nat) ->
  (length o1 <= 1)%nat /\ Forall P1 o1 ->
  (length o2 <= 1)%nat /\ Forall P2 o2 ->
  (length o3 <= 1)%nat /\ Forall P3 o3 ->
  (length o4 <= 1)%nat /\ Forall P4 o4 ->
  (length o5 <= 1)%nat /\ Forall P5 o5 ->
  StronglySorted (rankLt enumerationIndex) (o1 ++ o2 ++ o3 ++ o4 ++ o5).
Proof.
  intros I1 I2 I3 I4 I5 [L1 F1] [L2 F2] [L3 F3] [L4 F4] [L5 F5].
  destruct (at_most_one o1 L1) as [->|[x1 ->]];
  destruct (at_most_one o2 L2) as [->|[x2 ->]];
  destruct (at_most_one o3 L3) as [->|[x3 ->]];
  destruct (at_most_one o4 L4) as [->|[x4 ->]];
  destruct (at_most_one o5 L5) as [->|[x5 ->]];
  simpl;
  repeat match goal with
         | H : Forall _ [_] |- _ => apply Forall_inv in H
         end;
  repeat match goal with
         | H : P1 _ |- _ => apply I1 in H
         | H : P2 _ |- _ => apply I2 in H
         | H : P3 _ |- _ => apply I3 in H
         | H : P4 _ |- _ => apply I4 in H
         | H : P5 _ |- _ => apply I5 in H
         end;
  repeat (constructor; try (unfold rankLt; lia)).
Qed.

Lemma StronglySorted_nth {A : Type} (R : A -> A -> Prop) (l : list A) :
  StronglySorted R l ->
  forall i j a b, (i < j)%nat ->
    nth_error l i = Some a -> nth_error l j = Some b -> R a b.
Proof.
  induction 1 as [|x l Hl IH Hx]; intros i j a b Hij Ha Hb.
  - destruct i; discriminate.
  - destruct j as [|j]; [lia|]. simpl in Hb.
    destruct i as [|i]; simpl in Ha.
    + injection Ha as <-. rewrite List.Forall_forall in Hx.
      apply Hx. eapply nth_error_In. exact Hb.
    + apply (IH i j); [lia|assumption|assumption].
Qed.

(** The facts on a response that every theorem on it starts from, for
    either file. *)
Lemma response_anatomy Date_parse clock trains mw733 syn703 syn737 gw r :
  Departures.handler Date_parse clock trains mw733 syn703 syn737 gw = Recommend r \/
  Server.handleAPI Date_parse clock trains mw733 syn703 syn737 gw = Recommend r ->
  exists opts,
    allOptions r = Array_sort (byKey arrivalAtMonash) opts /\
    recommendation r = List.head (allOptions r) /\
    StronglySorted (rankLt enumerationIndex) opts /\
    Forall (feasible Date_parse (nextTrain r) mw733 syn703 syn737 gw) opts /\
    atSyndal (nextTrain r)
      = atMountWaverley (nextTrain r) + TRAIN_TRAVEL_FROM_MT_WAVERLEY syndal * 60 * 1000 /\
    atGlenWaverley (nextTrain r)
      = atMountWaverley (nextTrain r)
        + TRAIN_TRAVEL_FROM_MT_WAVERLEY glenWaverley * 60 * 1000 /\
    exists d, In d (listOf trains) /\ isOutbound d = true /\
      resolvedDate Date_parse d = Some (atMountWaverley (nextTrain r)).
Proof.
  assert (Hanatomy : forall (arr : Station -> Date) b1 b2 b3 b4 o1 o2 o3 o4 o5,
    (forall s, arr s = Some (arrivalAt (nextTrain r) s)) ->
    (forall d, In d (listOf b1) -> In d (listOf mw733)) ->
    (forall d, In d (listOf b2) -> In d (listOf syn703)) ->
    (forall d, In d (listOf b3) -> In d (listOf syn737)) ->
    (forall d, In d (listOf b4) -> In d (listOf gw)) ->
    ((length o1 <= 1)%nat /\ Forall (madeAt Date_parse mountWaverley "733" (arr mountWaverley) (listOf b1)) o1) ->
    ((length o2 <= 1)%nat /\ Forall (madeAt Date_parse syndal "703" (arr syndal) (listOf b2)) o2) ->
    ((length o3 <= 1)%nat /\ Forall (madeAt Date_parse syndal "737" (arr syndal) (listOf b3)) o3) ->
    ((length o4 <= 1)%nat /\ Forall (madeAt Date_parse glenWaverley "742" (arr glenWaverley) (listOf b4)) o4) ->
    ((length o5 <= 1)%nat /\ Forall (madeAt Date_parse glenWaverley "737" (arr glenWaverley) (listOf b4)) o5) ->
    StronglySorted (rankLt enumerationIndex) (o1 ++ o2 ++ o3 ++ o4 ++ o5) /\
    Forall (feasible Date_parse (nextTrain r) mw733 syn703 syn737 gw)
           (o1 ++ o2 ++ o3 ++ o4 ++ o5)).
  { intros arr b1 b2 b3 b4 o1 o2 o3 o4 o5 Harr S1 S2 S3 S4 M1 M2 M3 M4 M5. split.
    - eapply five_blocks_in_order; try eassumption;
        intros o Ho; apply madeAt_enumerationIndex in Ho; exact Ho.
    - destruct M1 as [_ M1], M2 as [_ M2], M3 as [_ M3], M4 as [_ M4], M5 as [_ M5].
      repeat (apply Forall_app; split);
        (eapply List.Forall_impl; [|eassumption]); intros o;
        apply madeAt_feasible; try apply Harr; simpl; intros d Hd;
        rewrite ?in_app_iff; auto. }
  assert (Htrain : forall (arr : Station -> Date) (t : Date),
    arr mountWaverley = t ->
    arr syndal = addMinutes t (TRAIN_TRAVEL_FROM_MT_WAVERLEY syndal) ->
    arr glenWaverley = addMinutes t (TRAIN_TRAVEL_FROM_MT_WAVERLEY glenWaverley) ->
    (forall s, arr s = Some (arrivalAt (nextTrain r) s)) ->
    t = Some (atMountWaverley (nextTrain r)) /\
    atSyndal (nextTrain r)
      = atMountWaverley (nextTrain r) + TRAIN_TRAVEL_FROM_MT_WAVERLEY syndal * 60 * 1000 /\
    atGlenWaverley (nextTrain r)
      = atMountWaverley (nextTrain r)
        + TRAIN_TRAVEL_FROM_MT_WAVERLEY glenWaverley * 60 * 1000).
  { intros arr t E1 E2 E3 Harr.
    pose proof (Harr mountWaverley) as A1. pose proof (Harr syndal) as A2.
    pose proof (Harr glenWaverley) as A3. simpl in A1, A2, A3.
    rewrite E2 in A2. rewrite E3 in A3. rewrite E1 in A1. rewrite A1 in A2, A3.
    apply addMinutes_Some in A2 as (a2 & Ea2 & E2' & _).
    apply addMinutes_Some in A3 as (a3 & Ea3 & E3' & _).
    injection Ea2 as <-. injection Ea3 as <-. auto. }
  intros [H|H].
  - apply handler_Recommend in H as (b1 & b2 & b3 & b4 & n & H & S1 & S2 & S3 & S4).
    apply compute_Recommend in H as (ds & nt & opts & n1 & Eds & Ent & Hb & Harr & Eall & Erec & _).
    pose proof (buildOptions_made _ _ _ _ _ _ _ _ _ _ Hb) as
      (o1 & o2 & o3 & o4 & o5 & -> & M1 & M2 & M3 & M4 & M5).
    destruct (Hanatomy _ _ _ _ _ _ _ _ _ _ Harr S1 S2 S3 S4 M1 M2 M3 M4 M5) as [Hs Hf].
    destruct (Htrain (Departures.trainArrivals nt) _ eq_refl eq_refl eq_refl Harr)
      as (Et & E3 & E6).
    exists (o1 ++ o2 ++ o3 ++ o4 ++ o5). repeat split; try assumption.
    assert (Hin : In nt (Departures.outboundTrains Date_parse ds)).
    { destruct (Departures.outboundTrains Date_parse ds); [discriminate|].
      injection Ent as ->. now left. }
    apply Array_sort_In, in_map_iff in Hin as (d & <- & Hd).
    apply filter_In in Hd as [Hd Ho].
    exists d. unfold listOf. rewrite Eds. auto.
  - apply handleAPI_Recommend in H as [n H].
    apply handleAPIBody_Recommend in H as (ds & nt & opts & n1 & Eds & Ent & Hb & Harr & Eall & Erec & _).
    pose proof (server_buildOptions_made _ _ _ _ _ _ _ _ _ _ Hb) as
      (o1 & o2 & o3 & o4 & o5 & -> & M1 & M2 & M3 & M4 & M5).
    destruct (Hanatomy _ _ _ _ _ _ _ _ _ _ Harr (fun _ h => h) (fun _ h => h)
                (fun _ h => h) (fun _ h => h) M1 M2 M3 M4 M5) as [Hs Hf].
    destruct (Htrain (Server.trainArrivals nt) _ eq_refl eq_refl eq_refl Harr)
      as (Et & E3 & E6).
    exists (o1 ++ o2 ++ o3 ++ o4 ++ o5). repeat split; try assumption.
    assert (Hin : In nt (Server.outbound Date_parse ds)).
    { destruct (Server.outbound Date_parse ds); [discriminate|].
      injection Ent as ->. now left. }
    apply Array_sort_In, in_map_iff in Hin as (d & <- & Hd).
    apply filter_In in Hd as [Hd Ho].
    exists d. unfold listOf. rewrite Eds. auto.
Qed.

(** ** C4: feasibility of the itineraries *)

Lemma head_In {A : Type} (l : list A) x : List.head l = Some x -> In x l.
Proof. destruct l; [discriminate|]. intros [= ->]. now left. Qed.

(** C4. Every itinerary of a response, the recommendation included, was
    built from a departure of a bus payload of its station whose resolved
    time is at or after the arrival of the train at that station, as the
    response prints it, plus MIN_TRANSFER_TIME = 3 minutes. *)
Theorem itineraries_are_feasible (Date_parse : string -> option Z) (clock : nat -> Z)
    (trains mw733 syn703 syn737 gw : Payload) (r : RecommendationResult) :
  Departures.handler Date_parse clock trains mw733 syn703 syn737 gw = Recommend r \/
  Server.handleAPI Date_parse clock trains mw733 syn703 syn737 gw = Recommend r ->
  MIN_TRANSFER_TIME = 3 /\
  forall o, In o (allOptions r) \/ recommendation r = Some o ->
    feasible Date_parse (nextTrain r) mw733 syn703 syn737 gw o.
Proof.
  intros H. split; [reflexivity|].
  apply response_anatomy in H as (opts & Eall & Erec & _ & Hf & _).
  assert (Hall : forall o, In o (allOptions r) ->
            feasible Date_parse (nextTrain r) mw733 syn703 syn737 gw o).
  { intros o Ho. rewrite Eall in Ho. apply Array_sort_In in Ho.
    rewrite List.Forall_forall in Hf. now apply Hf. }
  intros o [Ho|Ho]; [now apply Hall|].
  apply Hall. rewrite Erec in Ho. now apply head_In.
Qed.

Lemma itineraries_are_feasible_witness :
  exists r,
    Departures.handler IsoDate.iso_parse Samples.clock Samples.trains
      Samples.buses733 Samples.noBuses Samples.noBuses Samples.busesGlenWaverley
    = Recommend r /\
    length (allOptions r) = 3%nat /\
    forall o, In o (allOptions r) \/ recommendation r = Some o ->
      feasible IsoDate.iso_parse (nextTrain r) Samples.buses733 Samples.noBuses
        Samples.noBuses Samples.busesGlenWaverley o.
Proof.
  eexists. split; [vm_compute; reflexivity|]. split; [reflexivity|].
  apply (itineraries_are_feasible IsoDate.iso_parse Samples.clock Samples.trains
           Samples.buses733 Samples.noBuses Samples.noBuses Samples.busesGlenWaverley).
  left. vm_compute. reflexivity.
Defined.

(** ** C9: ties keep the order of construction *)

(** C9. Two itineraries of a response with the same arrival at Monash
    stand in the order in which the code builds them: Mount Waverley 733,
    Syndal 703, Syndal 737, Glen Waverley 742, Glen Waverley 737. *)
Theorem ties_keep_enumeration_order (Date_parse : string -> option Z)
    (clock : nat -> Z) (trains mw733 syn703 syn737 gw : Payload)
    (r : RecommendationResult) :
  Departures.handler Date_parse clock trains mw733 syn703 syn737 gw = Recommend r \/
  Server.handleAPI Date_parse clock trains mw733 syn703 syn737 gw = Recommend r ->
  forall i j a b, (i < j)%nat ->
    nth_error (allOptions r) i = Some a ->
    nth_error (allOptions r) j = Some b ->
    arrivalAtMonash a = arrivalAtMonash b ->
    (enumerationIndex a < enumerationIndex b)%nat.
Proof.
  intros H i j a b Hij Ha Hb Htie.
  apply response_anatomy in H as (opts & Eall & _ & Hs & _).
  pose proof (Array_sort_stable arrivalAtMonash enumerationIndex opts Hs) as Hsorted.
  rewrite <- Eall in Hsorted.
  destruct (StronglySorted_nth _ _ Hsorted i j a b Hij Ha Hb) as [Hlt|[_ Hlt]];
    [lia|exact Hlt].
Qed.

Lemma ties_keep_enumeration_order_witness :
  exists r a b,
    Server.handleAPI IsoDate.iso_parse Samples.clock Samples.trains
      Samples.buses733 Samples.noBuses Samples.noBuses Samples.busesGlenWaverley
    = Recommend r /\
    nth_error (allOptions r) 1 = Some a /\ nth_error (allOptions r) 2 = Some b /\
    arrivalAtMonash a = arrivalAtMonash b /\
    bus_route a = "742" /\ bus_route b = "737" /\
    (enumerationIndex a < enumerationIndex b)%nat.
Proof.
  eexists. eexists. eexists.
  split; [vm_compute; reflexivity|].
  split; [reflexivity|]. split; [reflexivity|].
  split; [reflexivity|]. split; [reflexivity|]. split; [reflexivity|].
  eapply (ties_keep_enumeration_order IsoDate.iso_parse Samples.clock Samples.trains
            Samples.buses733 Samples.noBuses Samples.noBuses Samples.busesGlenWaverley
            _ (or_intror eq_refl) 1%nat 2%nat);
    [lia|reflexivity|reflexivity|reflexivity].
Defined.

(** Sorting commutes with a map, the comparator being read through it. *)
Lemma Array_sort_map {A B : Type} (f : A -> B) (cmp : B -> B -> option Z) (l : list A) :
  Array_sort cmp (List.map f l)
  = List.map f (Array_sort (fun a b => cmp (f a) (f b)) l).
Proof.
  induction l as [|x l IH]; simpl; [reflexivity|]. rewrite IH.
  generalize (Array_sort (fun a b => cmp (f a) (f b)) l). intros s.
  induction s as [|y s IHs]; simpl; [reflexivity|].
  unfold comesAfter. destruct (cmp (f x) (f y)) as [v|]; [|reflexivity].
  destruct (0 <? v); simpl; [now rewrite IHs|reflexivity].
Qed.

Lemma head_map {A B : Type} (f : A -> B) (l : list A) :
  List.head (List.map f l) = option_map f (List.head l).
Proof. now destruct l. Qed.

(** ** C2: the ranking *)

Lemma sorted_ranks opts r :
  allOptions r = Array_sort byArrivalAtMonash opts ->
  recommendation r = List.head (allOptions r) ->
  ranks opts r.
Proof.
  intros Eall Erec.
  pose proof (Array_sort_sorted arrivalAtMonash opts) as Hsorted.
  pose proof (Array_sort_perm byArrivalAtMonash opts) as Hperm.
  change (Array_sort (byKey arrivalAtMonash) opts)
    with (Array_sort byArrivalAtMonash opts) in Hsorted.
  rewrite <- Eall in Hsorted, Hperm.
  split; [exact Hperm|]. split; [exact Hsorted|]. split; [exact Erec|]. split.
  - intros best o Hbest Ho. rewrite Erec in Hbest.
    apply (Permutation_in _ Hperm) in Ho.
    destruct (allOptions r) as [|x l]; [discriminate|].
    injection Hbest as ->. inversion Hsorted as [|? ? _ Hall]; subst.
    destruct Ho as [<-|Ho]; [lia|].
    rewrite List.Forall_forall in Hall. now apply Hall.
  - intros ->. apply Permutation_nil in Hperm. now rewrite Erec, Hperm.
Qed.

(** Whatever options the blocks build for a next train with valid
    arrivals, the run of api/departures.js ends with the response that ranks
    them. *)
Lemma compute_ranks Date_parse trains b1 b2 b3 b4 clock n ds nt opts n1 :
  departures trains = Some ds ->
  List.head (Departures.outboundTrains Date_parse ds) = Some nt ->
  (forall s, isValid (Departures.trainArrivals nt s) = true) ->
  Departures.buildOptions Date_parse nt b1 b2 b3 b4 clock n = Return (opts, n1) ->
  exists r,
    Departures.compute Date_parse trains b1 b2 b3 b4 clock n
    = Return (Recommend r, S n1) /\
    ranks opts r /\ timestamp r = clock n1.
Proof.
  intros Eds Ent Hvalid Hb. unfold Departures.compute.
  rewrite (bind_eq _ _ _ _ _ _ (departuresOf_eq _ _ clock n Eds)). rewrite Ent.
  rewrite (bind_eq _ _ _ _ _ _ Hb).
  pose proof (Hvalid mountWaverley) as V1. pose proof (Hvalid syndal) as V2.
  pose proof (Hvalid glenWaverley) as V3.
  destruct (Departures.trainArrivals nt mountWaverley) as [t1|] eqn:E1; [|discriminate].
  destruct (Departures.trainArrivals nt syndal) as [t2|] eqn:E2; [|discriminate].
  destruct (Departures.trainArrivals nt glenWaverley) as [t3|] eqn:E3; [|discriminate].
  eexists. split; [unfold bind, Date_now, toISOString, ret; simpl; reflexivity|].
  split; [now apply sorted_ranks|reflexivity].
Qed.

(** And so does that of server.mjs. *)
Lemma handleAPIBody_ranks Date_parse trains b1 b2 b3 b4 clock n ds nt opts n1 :
  departures trains = Some ds ->
  List.head (Server.outbound Date_parse ds) = Some nt ->
  (forall s, isValid (Server.trainArrivals nt s) = true) ->
  Server.buildOptions Date_parse nt b1 b2 b3 b4 clock n = Return (opts, n1) ->
  exists r,
    Server.handleAPIBody Date_parse trains b1 b2 b3 b4 clock n
    = Return (Recommend r, S n1) /\
    ranks opts r /\ timestamp r = clock n1.
Proof.
  intros Eds Ent Hvalid Hb. rewrite handleAPIBody_eq.
  rewrite (bind_eq _ _ _ _ _ _ (departuresOf_eq _ _ clock n Eds)). rewrite Ent.
  rewrite (bind_eq _ _ _ _ _ _ Hb).
  pose proof (Hvalid mountWaverley) as V1. pose proof (Hvalid syndal) as V2.
  pose proof (Hvalid glenWaverley) as V3.
  destruct (Server.trainArrivals nt mountWaverley) as [t1|] eqn:E1; [|discriminate].
  destruct (Server.trainArrivals nt syndal) as [t2|] eqn:E2; [|discriminate].
  destruct (Server.trainArrivals nt glenWaverley) as [t3|] eqn:E3; [|discriminate].
  eexists. split; [unfold bind, Date_now, toISOString, ret; simpl; reflexivity|].
  split; [now apply sorted_ranks|reflexivity].
Qed.

(** The four bodies that getBusDepartures hands to the computation of
    api/departures.js when the handler recommends. *)
Lemma handler_compute Date_parse clock trains mw733 syn703 syn737 gw r :
  Departures.handler Date_parse clock trains mw733 syn703 syn737 gw = Recommend r ->
  exists b1 b2 b3 b4 n,
    Departures.getBusDepartures ["733"] mw733 clock 0%nat = Return (b1, 0%nat) /\
    Departures.getBusDepartures ["703"] syn703 clock 0%nat = Return (b2, 0%nat) /\
    Departures.getBusDepartures ["737"] syn737 clock 0%nat = Return (b3, 0%nat) /\
    Departures.getBusDepartures ["742"; "737"] gw clock 0%nat = Return (b4, 0%nat) /\
    Departures.compute Date_parse trains b1 b2 b3 b4 clock 0%nat
    = Return (Recommend r, n).
Proof.
  intros H. apply respond_Recommend in H as [n H].
  unfold Departures.handlerBody in H.
  apply bind_Return in H as (b1 & n1 & H1 & H).
  pose proof (getBusDepartures_Return _ _ _ _ _ _ H1) as [-> _].
  apply bind_Return in H as (b2 & n2 & H2 & H).
  pose proof (getBusDepartures_Return _ _ _ _ _ _ H2) as [-> _].
  apply bind_Return in H as (b3 & n3 & H3 & H).
  pose proof (getBusDepartures_Return _ _ _ _ _ _ H3) as [-> _].
  apply bind_Return in H as (b4 & n4 & H4 & H).
  pose proof (getBusDepartures_Return _ _ _ _ _ _ H4) as [-> _].
  exists b1, b2, b3, b4, n. auto.
Qed.

(** C2. The response of either file ranks the itineraries that its blocks
    have built for the five station/route pairs: [allOptions] holds exactly
    these itineraries, in ascending order of [arrivalAtMonash]; the
    recommendation is its first element, and none of the itineraries built
    arrives before it.  Conversely, whatever itineraries the blocks build
    for a next train whose three projected arrivals are valid Dates, the
    run ends with the 200 response that ranks them; when they build none,
    that response has the empty list and the null recommendation, and is no
    failure. *)
Theorem ranking_is_sorted_with_best_first (Date_parse : string -> option Z)
    (clock : nat -> Z) (trains mw733 syn703 syn737 gw : Payload) :
  (forall r,
     Departures.handler Date_parse clock trains mw733 syn703 syn737 gw = Recommend r ->
     exists b1 b2 b3 b4 nt opts n,
       Departures.getBusDepartures ["733"] mw733 clock 0%nat = Return (b1, 0%nat) /\
       Departures.getBusDepartures ["703"] syn703 clock 0%nat = Return (b2, 0%nat) /\
       Departures.getBusDepartures ["737"] syn737 clock 0%nat = Return (b3, 0%nat) /\
       Departures.getBusDepartures ["742"; "737"] gw clock 0%nat = Return (b4, 0%nat) /\
       List.head (Departures.outboundTrains Date_parse (listOf trains)) = Some nt /\
       Departures.buildOptions Date_parse nt b1 b2 b3 b4 clock 0%nat
       = Return (opts, n) /\
       ranks opts r) /\
  (forall r,
     Server.handleAPI Date_parse clock trains mw733 syn703 syn737 gw = Recommend r ->
     exists nt opts n,
       List.head (Server.outbound Date_parse (listOf trains)) = Some nt /\
       Server.buildOptions Date_parse nt mw733 syn703 syn737 gw clock 0%nat
       = Return (opts, n) /\
       ranks opts r) /\
  (forall b1 b2 b3 b4 nt opts n,
     Departures.getBusDepartures ["733"] mw733 clock 0%nat = Return (b1, 0%nat) ->
     Departures.getBusDepartures ["703"] syn703 clock 0%nat = Return (b2, 0%nat) ->
     Departures.getBusDepartures ["737"] syn737 clock 0%nat = Return (b3, 0%nat) ->
     Departures.getBusDepartures ["742"; "737"] gw clock 0%nat = Return (b4, 0%nat) ->
     hasDepartures trains = true ->
     List.head (Departures.outboundTrains Date_parse (listOf trains)) = Some nt ->
     (forall s, isValid (Departures.trainArrivals nt s) = true) ->
     Departures.buildOptions Date_parse nt b1 b2 b3 b4 clock 0%nat = Return (opts, n) ->
     exists r,
       Departures.handler Date_parse clock trains mw733 syn703 syn737 gw = Recommend r /\
       ranks opts r) /\
  (forall nt opts n,
     hasDepartures trains = true ->
     List.head (Server.outbound Date_parse (listOf trains)) = Some nt ->
     (forall s, isValid (Server.trainArrivals nt s) = true) ->
     Server.buildOptions Date_parse nt mw733 syn703 syn737 gw clock 0%nat
     = Return (opts, n) ->
     exists r,
       Server.handleAPI Date_parse clock trains mw733 syn703 syn737 gw = Recommend r /\
       ranks opts r).
Proof.
  split; [|split; [|split]].
  - intros r H.
    apply handler_compute in H as (b1 & b2 & b3 & b4 & n & H1 & H2 & H3 & H4 & H).
    apply compute_Recommend in H
      as (ds & nt & opts & n1 & Eds & Ent & Hb & _ & Eall & Erec & _).
    exists b1, b2, b3, b4, nt, opts, n1. unfold listOf. rewrite Eds.
    repeat (split; [assumption|]). now apply sorted_ranks.
  - intros r H. apply handleAPI_Recommend in H as [n H].
    apply handleAPIBody_Recommend in H
      as (ds & nt & opts & n1 & Eds & Ent & Hb & _ & Eall & Erec & _).
    exists nt, opts, n1. unfold listOf. rewrite Eds.
    repeat (split; [assumption|]). now apply sorted_ranks.
  - intros b1 b2 b3 b4 nt opts n H1 H2 H3 H4 Ht Ent Hvalid Hb.
    unfold hasDepartures in Ht. unfold listOf in Ent.
    destruct (departures trains) as [ds|] eqn:Eds; [|discriminate Ht].
    destruct (compute_ranks _ _ _ _ _ _ _ _ _ _ _ _ Eds Ent Hvalid Hb)
      as (r & Hc & Hr & _).
    exists r. split; [|exact Hr].
    unfold Departures.handler, respond, Departures.handlerBody.
    now rewrite (bind_eq _ _ _ _ _ _ H1), (bind_eq _ _ _ _ _ _ H2),
                (bind_eq _ _ _ _ _ _ H3), (bind_eq _ _ _ _ _ _ H4), Hc.
  - intros nt opts n Ht Ent Hvalid Hb.
    unfold hasDepartures in Ht. unfold listOf in Ent.
    destruct (departures trains) as [ds|] eqn:Eds; [|discriminate Ht].
    destruct (handleAPIBody_ranks _ _ _ _ _ _ _ _ _ _ _ _ Eds Ent Hvalid Hb)
      as (r & Hc & Hr & _).
    exists r. split; [|exact Hr]. exact (handleAPI_Return _ _ _ _ _ _ _ _ _ Hc).
Qed.

Lemma ranking_is_sorted_with_best_first_witness :
  (exists r,
     Departures.handler IsoDate.iso_parse Samples.clock Samples.trains
       Samples.buses733 Samples.noBuses Samples.noBuses Samples.busesGlenWaverley
     = Recommend r /\
     List.map bus_route (allOptions r) = ["733"; "742"; "737"] /\
     exists b1 b2 b3 b4 nt opts n,
       Departures.getBusDepartures ["733"] Samples.buses733 Samples.clock 0%nat
       = Return (b1, 0%nat) /\
       Departures.getBusDepartures ["703"] Samples.noBuses Samples.clock 0%nat
       = Return (b2, 0%nat) /\
       Departures.getBusDepartures ["737"] Samples.noBuses Samples.clock 0%nat
       = Return (b3, 0%nat) /\
       Departures.getBusDepartures ["742"; "737"] Samples.busesGlenWaverley
         Samples.clock 0%nat
       = Return (b4, 0%nat) /\
       List.head (Departures.outboundTrains IsoDate.iso_parse (listOf Samples.trains))
       = Some nt /\
       Departures.buildOptions IsoDate.iso_parse nt b1 b2 b3 b4 Samples.clock 0%nat
       = Return (opts, n) /\
       ranks opts r) /\
  (exists r,
     Server.handleAPI IsoDate.iso_parse Samples.clock Samples.trains
       Samples.buses733 Samples.noBuses Samples.noBuses Samples.busesGlenWaverley
     = Recommend r /\
     List.map bus_route (allOptions r) = ["733"; "742"; "737"] /\
     exists nt opts n,
       List.head (Server.outbound IsoDate.iso_parse (listOf Samples.trains)) = Some nt /\
       Server.buildOptions IsoDate.iso_parse nt Samples.buses733 Samples.noBuses
         Samples.noBuses Samples.busesGlenWaverley Samples.clock 0%nat
       = Return (opts, n) /\
       ranks opts r) /\
  (exists r,
     Departures.handler IsoDate.iso_parse Samples.clock Samples.trains
       Samples.noBuses Samples.noBuses Samples.noBuses Samples.noBuses
     = Recommend r /\
     ranks [] r) /\
  (exists opts,
     List.map bus_route opts = ["733"; "742"; "737"] /\
     exists r,
       Server.handleAPI IsoDate.iso_parse Samples.clock Samples.trains
         Samples.buses733 Samples.noBuses Samples.noBuses Samples.busesGlenWaverley
       = Recommend r /\
       ranks opts r).
Proof.
  split; [|split; [|split]].
  - eexists. split; [vm_compute; reflexivity|]. split; [reflexivity|].
    apply (proj1 (ranking_is_sorted_with_best_first IsoDate.iso_parse Samples.clock
             Samples.trains Samples.buses733 Samples.noBuses Samples.noBuses
             Samples.busesGlenWaverley)).
    vm_compute. reflexivity.
  - eexists. split; [vm_compute; reflexivity|]. split; [reflexivity|].
    apply (proj1 (proj2 (ranking_is_sorted_with_best_first IsoDate.iso_parse
             Samples.clock Samples.trains Samples.buses733 Samples.noBuses
             Samples.noBuses Samples.busesGlenWaverley))).
    vm_compute. reflexivity.
  - eapply (proj1 (proj2 (proj2 (ranking_is_sorted_with_best_first IsoDate.iso_parse
              Samples.clock Samples.trains Samples.noBuses Samples.noBuses
              Samples.noBuses Samples.noBuses))));
      try (vm_compute; reflexivity).
    intros []; vm_compute; reflexivity.
  - eexists. split; cycle 1.
    + eapply (proj2 (proj2 (proj2 (ranking_is_sorted_with_best_first
                IsoDate.iso_parse Samples.clock Samples.trains Samples.buses733
                Samples.noBuses Samples.noBuses Samples.busesGlenWaverley))));
        try (vm_compute; reflexivity).
      intros []; vm_compute; reflexivity.
    + reflexivity.
Defined.
(** ** C7: the projected arrivals *)

(** C7. For a next train whose resolved departure is the instant [t], with
    [t] plus six minutes still a time value of a Date, the projected arrival
    at each station is [t] plus the offset of the station, 0 minutes for
    Mount Waverley, 3 for Syndal and 6 for Glen Waverley, and the arrivals do
    not decrease in that order.  The arrivals a response prints stand in the
    same relation to the resolved departure of an outbound train of the
    payload. *)
Theorem station_arrival_projection (Date_parse : string -> option Z) :
  (forall (d : RawDeparture) (t : Z),
     resolvedDate Date_parse d = Some t ->
     t + TRAIN_TRAVEL_FROM_MT_WAVERLEY glenWaverley * 60 * 1000 <= maxTime ->
     (forall s,
        Departures.trainArrivals (Departures.withArrivalTime Date_parse d) s
        = Some (t + TRAIN_TRAVEL_FROM_MT_WAVERLEY s * 60 * 1000) /\
        Server.trainArrivals (Server.withArrivalTime Date_parse d) s
        = Some (t + TRAIN_TRAVEL_FROM_MT_WAVERLEY s * 60 * 1000)) /\
     List.map TRAIN_TRAVEL_FROM_MT_WAVERLEY [mountWaverley; syndal; glenWaverley]
     = [0; 3; 6] /\
     t + TRAIN_TRAVEL_FROM_MT_WAVERLEY mountWaverley * 60 * 1000
     <= t + TRAIN_TRAVEL_FROM_MT_WAVERLEY syndal * 60 * 1000
     <= t + TRAIN_TRAVEL_FROM_MT_WAVERLEY glenWaverley * 60 * 1000) /\
  (forall clock trains mw733 syn703 syn737 gw r,
     Departures.handler Date_parse clock trains mw733 syn703 syn737 gw = Recommend r \/
     Server.handleAPI Date_parse clock trains mw733 syn703 syn737 gw = Recommend r ->
     exists d t,
       In d (listOf trains) /\ isOutbound d = true /\
       resolvedDate Date_parse d = Some t /\
       forall s, arrivalAt (nextTrain r) s
                 = t + TRAIN_TRAVEL_FROM_MT_WAVERLEY s * 60 * 1000).
Proof.
  split.
  - intros d t Et Hmax. pose proof (resolvedDate_range _ _ _ Et) as Hrange.
    split; [|split; [reflexivity|simpl; lia]].
    intros s. unfold Departures.trainArrivals, Server.trainArrivals.
    cbn [Departures.arrivalTime Departures.withArrivalTime
         Server.arrivalTime Server.withArrivalTime].
    rewrite Et. unfold TRAIN_TRAVEL_FROM_MT_WAVERLEY in *.
    destruct s; rewrite ?addMinutes_in_range by lia;
      split; f_equal; lia.
  - intros clock trains mw733 syn703 syn737 gw r H.
    apply response_anatomy in H as (_ & _ & _ & _ & _ & E3 & E6 & d & Hd & Ho & Et).
    exists d, (atMountWaverley (nextTrain r)). repeat split; try assumption.
    intros []; simpl in *; lia.
Qed.

Lemma station_arrival_projection_witness :
  (Departures.trainArrivals
     (Departures.withArrivalTime IsoDate.iso_parse
        (Samples.departure 7 (Some 6) (JStr "2024-03-01T09:58:00Z")
                           (JStr "2024-03-01T10:00:00Z"))) syndal
   = Some (Samples.t1000 + 3 * 60 * 1000)
   /\ Server.trainArrivals
        (Server.withArrivalTime IsoDate.iso_parse
           (Samples.departure 7 (Some 6) (JStr "2024-03-01T09:58:00Z")
                              (JStr "2024-03-01T10:00:00Z"))) glenWaverley
      = Some (Samples.t1000 + 6 * 60 * 1000)) /\
  (exists r,
     Server.handleAPI IsoDate.iso_parse Samples.clock Samples.trains
       Samples.buses733 Samples.noBuses Samples.noBuses Samples.busesGlenWaverley
     = Recommend r /\
     atMountWaverley (nextTrain r) = Samples.t1000 /\
     exists d t,
       In d (listOf Samples.trains) /\ isOutbound d = true /\
       resolvedDate IsoDate.iso_parse d = Some t /\
       forall s, arrivalAt (nextTrain r) s
                 = t + TRAIN_TRAVEL_FROM_MT_WAVERLEY s * 60 * 1000).
Proof.
  split.
  - pose proof (proj1 (station_arrival_projection IsoDate.iso_parse)
                  (Samples.departure 7 (Some 6) (JStr "2024-03-01T09:58:00Z")
                                     (JStr "2024-03-01T10:00:00Z"))
                  Samples.t1000 ltac:(reflexivity) ltac:(vm_compute; discriminate))
      as [H _].
    split; [exact (proj1 (H syndal))|exact (proj2 (H glenWaverley))].
  - eexists. split; [vm_compute; reflexivity|]. split; [reflexivity|].
    apply (proj2 (station_arrival_projection IsoDate.iso_parse) Samples.clock
             Samples.trains Samples.buses733 Samples.noBuses Samples.noBuses
             Samples.busesGlenWaverley).
    right. vm_compute. reflexivity.
Defined.

(** ** C10: the next train *)

Lemma head_sort_byDate_least {B : Type} (tm : B -> Date) (l : list B) (x : B) :
  (forall b, In b l -> isValid (tm b) = true) ->
  List.head (Array_sort (byDate tm) l) = Some x ->
  In x l /\
  exists t, tm x = Some t /\ forall y t', In y l -> tm y = Some t' -> t <= t'.
Proof.
  intros Hvalid H.
  assert (E : Array_sort (byDate tm) l = Array_sort (byKey (timeOr0 tm)) l).
  { apply Array_sort_ext. intros a b Ha Hb.
    pose proof (Hvalid a Ha) as Va. pose proof (Hvalid b Hb) as Vb.
    unfold byDate, byKey, timeOr0.
    destruct (tm a); [|discriminate]. destruct (tm b); [|discriminate]. reflexivity. }
  rewrite E in H. apply head_Array_sort_least in H as [Hin Hleast].
  split; [exact Hin|].
  pose proof (Hvalid x Hin) as Vx. unfold timeOr0 in Hleast.
  destruct (tm x) as [t|]; [|discriminate].
  exists t. split; [reflexivity|]. intros y t' Hy Ey.
  specialize (Hleast y Hy). now rewrite Ey in Hleast.
Qed.


Lemma handleAPIBody_no_train Date_parse ds rs b1 b2 b3 b4 clock n :
  (forall d, In d ds -> isOutbound d = false) ->
  Server.handleAPIBody Date_parse {| departures := Some ds; routes := rs |}
    b1 b2 b3 b4 clock n
  = Return (NoUpcomingTrains (clock n), S n).
Proof.
  intros Hno. rewrite handleAPIBody_eq. unfold Server.outbound.
  assert (E : List.filter isOutbound ds = []).
  { induction ds as [|d ds IH]; [reflexivity|]. simpl.
    rewrite (Hno d) by now left. apply IH. intros; apply Hno; now right. }
  unfold bind, departuresOf. simpl. rewrite E. reflexivity.
Qed.


Lemma handleAPIBody_NoUpcomingTrains Date_parse trains b1 b2 b3 b4 clock n ts n' :
  Server.handleAPIBody Date_parse trains b1 b2 b3 b4 clock n
  = Return (NoUpcomingTrains ts, n') ->
  exists ds,
    departures trains = Some ds /\ List.filter isOutbound ds = [] /\ ts = clock n.
Proof.
  rewrite handleAPIBody_eq. intros H.
  apply bind_Return in H as (ds & n0 & Hds & H). run_inv Hds.
  destruct (List.head (Server.outbound Date_parse ds)) as [nt|] eqn:Ent.
  - apply bind_Return in H as (opts & n1 & _ & H). run_inv H.
    discriminate H.
  - run_inv H. exists ds. repeat split; try assumption.
    unfold Server.outbound in Ent.
    apply head_Array_sort_none, map_eq_nil in Ent. exact Ent.
Qed.






(** ** C8: the clock is the only thing read *)

Section ClockFacts.
Context {A B : Type}.

Lemma respects_ret (a : A) : respectsClock (ret a).
Proof. intros c1 c2 _ n. reflexivity. Qed.

Lemma respects_throw (e : Exn) : respectsClock (@throw A e).
Proof. intros c1 c2 _ n. reflexivity. Qed.

Lemma respects_bind (c : M A) (k : A -> M B) :
  respectsClock c -> (forall a, respectsClock (k a)) -> respectsClock (bind c k).
Proof.
  intros Hc Hk c1 c2 H n. unfold bind. rewrite (Hc c1 c2 H n).
  destruct (c c2 n) as [[a n']|e]; [|reflexivity]. now apply Hk.
Qed.

Lemma counterFree_ret (a : A) : counterFree (ret a).
Proof. intros now n. unfold ret; simpl. now rewrite Nat.add_0_r. Qed.

Lemma counterFree_throw (e : Exn) : counterFree (@throw A e).
Proof. intros now n. reflexivity. Qed.

Lemma counterFree_bind (c : M A) (k : A -> M B) :
  counterFree c -> (forall a, counterFree (k a)) -> counterFree (bind c k).
Proof.
  intros Hc Hk now n. unfold bind. rewrite (Hc now n).
  destruct (c (fun _ => now) 0%nat) as [[a k0]|e]; simpl; [|reflexivity].
  rewrite (Hk a now (n + k0)%nat), (Hk a now k0).
  destruct (k a (fun _ => now) 0%nat) as [[b k1]|e]; simpl; [|reflexivity].
  now rewrite Nat.add_assoc.
Qed.
End ClockFacts.

Lemma respects_now : respectsClock Date_now.
Proof. intros c1 c2 H n. unfold Date_now. now rewrite H. Qed.

Lemma counterFree_now : counterFree Date_now.
Proof. intros now n. unfold Date_now; simpl. now rewrite Nat.add_1_r. Qed.

(** Both facts follow the shape of a computation. *)
Ltac clock_facts :=
  repeat match goal with
         | |- respectsClock (bind _ _) => apply respects_bind; [|intros ?]
         | |- counterFree (bind _ _) => apply counterFree_bind; [|intros ?]
         | |- respectsClock (ret _) => apply respects_ret
         | |- counterFree (ret _) => apply counterFree_ret
         | |- respectsClock (throw _) => apply respects_throw
         | |- counterFree (throw _) => apply counterFree_throw
         | |- respectsClock Date_now => apply respects_now
         | |- counterFree Date_now => apply counterFree_now
         | |- respectsClock (match ?x with _ => _ end) => destruct x
         | |- counterFree (match ?x with _ => _ end) => destruct x
         end.

Lemma respects_toISOString d : respectsClock (toISOString d).
Proof. unfold toISOString. clock_facts. Qed.

Lemma counterFree_toISOString d : counterFree (toISOString d).
Proof. unfold toISOString. clock_facts. Qed.

Lemma respects_departuresOf p : respectsClock (departuresOf p).
Proof. unfold departuresOf. clock_facts. Qed.

Lemma counterFree_departuresOf p : counterFree (departuresOf p).
Proof. unfold departuresOf. clock_facts. Qed.

Ltac clock_steps :=
  clock_facts;
  try first [ apply respects_toISOString | apply counterFree_toISOString
            | apply respects_departuresOf | apply counterFree_departuresOf ].

Section DeparturesClock.
Variable Date_parse : string -> option Z.

Lemma pushOption_clock st arr route travelTime bus :
  respectsClock (Departures.pushOption st arr route travelTime bus) /\
  counterFree (Departures.pushOption st arr route travelTime bus).
Proof.
  unfold Departures.pushOption, Departures.makeOption. split; clock_steps.
Qed.

Lemma stopOptions_clock st arr route buses :
  respectsClock (Departures.stopOptions Date_parse st arr route buses) /\
  counterFree (Departures.stopOptions Date_parse st arr route buses).
Proof.
  unfold Departures.stopOptions, Departures.busList.
  split; clock_steps; apply pushOption_clock.
Qed.

Lemma glenWaverleyOptions_clock l arr routeNums :
  respectsClock (Departures.glenWaverleyOptions Date_parse l arr routeNums) /\
  counterFree (Departures.glenWaverleyOptions Date_parse l arr routeNums).
Proof.
  induction routeNums as [|routeNum rest [IH1 IH2]]; simpl.
  - split; clock_steps.
  - split; clock_steps; first [assumption | apply pushOption_clock].
Qed.

Lemma glenWaverleyBlock_clock arr gw :
  respectsClock (Departures.glenWaverleyBlock Date_parse arr gw) /\
  counterFree (Departures.glenWaverleyBlock Date_parse arr gw).
Proof.
  unfold Departures.glenWaverleyBlock, Departures.busList.
  split; clock_steps; apply glenWaverleyOptions_clock.
Qed.

Lemma buildOptions_clock nt b1 b2 b3 b4 :
  respectsClock (Departures.buildOptions Date_parse nt b1 b2 b3 b4) /\
  counterFree (Departures.buildOptions Date_parse nt b1 b2 b3 b4).
Proof.
  unfold Departures.buildOptions.
  split; clock_steps;
    first [apply stopOptions_clock | apply glenWaverleyBlock_clock].
Qed.

End DeparturesClock.

Section ServerClock.
Variable Date_parse : string -> option Z.

Lemma optionFor_clock st arr routeName deps :
  respectsClock (Server.optionFor Date_parse st arr routeName deps) /\
  counterFree (Server.optionFor Date_parse st arr routeName deps).
Proof.
  unfold Server.optionFor, Server.findBus, Server.makeOption. split; clock_steps.
Qed.

Lemma server_buildOptions_clock nt b1 b2 b3 b4 :
  respectsClock (Server.buildOptions Date_parse nt b1 b2 b3 b4) /\
  counterFree (Server.buildOptions Date_parse nt b1 b2 b3 b4).
Proof.
  unfold Server.buildOptions. split; clock_steps; apply optionFor_clock.
Qed.

End ServerClock.

(** *** The clock reaches the response as its stamps alone *)

Section Restamping.
Context {A B : Type}.
Variable now : Z.

Lemma restamped_ret (f : A -> A) (x y : A) :
  x = f y -> restampedAt now f (ret x) (ret y).
Proof. intros -> clock other n m _. reflexivity. Qed.

Lemma restamped_throw (f : A -> A) (e : Exn) :
  restampedAt now f (throw e) (throw e).
Proof. intros clock other n m _. reflexivity. Qed.

Lemma restamped_bind (f : A -> A) (g : B -> B) (c1 c2 : M A) (k1 k2 : A -> M B) :
  restampedAt now f c1 c2 ->
  (forall a, restampedAt now g (k1 (f a)) (k2 a)) ->
  restampedAt now g (bind c1 k1) (bind c2 k2).
Proof.
  intros Hc Hk clock other n m Hnow. unfold bind.
  specialize (Hc clock other n m Hnow).
  destruct (c2 other m) as [[a m']|e], (c1 clock n) as [[a' n']|e'];
    simpl in Hc; try discriminate Hc.
  - injection Hc as ->. now apply Hk.
  - now injection Hc as ->.
Qed.

(** A step that does not read the clock. *)
Lemma restamped_step (g : B -> B) (c : M A) (k1 k2 : A -> M B) :
  restampedAt now (fun a => a) c c ->
  (forall a, restampedAt now g (k1 a) (k2 a)) ->
  restampedAt now g (bind c k1) (bind c k2).
Proof. intros Hc Hk. now apply (restamped_bind (fun a => a)). Qed.
End Restamping.

Lemma restamped_now now : restampedAt now (fun _ => now) Date_now Date_now.
Proof. intros clock other n m Hnow. unfold Date_now; simpl. now rewrite Hnow. Qed.

Lemma restamped_toISOString now d :
  restampedAt now (fun a => a) (toISOString d) (toISOString d).
Proof. intros clock other n m _. now destruct d. Qed.

Lemma restamped_departuresOf now p :
  restampedAt now (fun a => a) (departuresOf p) (departuresOf p).
Proof. intros clock other n m _. unfold departuresOf. now destruct (departures p). Qed.

(** The computations of both files are made of these steps. *)
Ltac restamp :=
  repeat match goal with
         | |- restampedAt _ _ (bind (toISOString ?d) _) (bind (toISOString ?d) _) =>
             apply restamped_step; [apply restamped_toISOString|intros ?]
         | |- restampedAt _ _ (bind (departuresOf ?p) _) (bind (departuresOf ?p) _) =>
             apply restamped_step; [apply restamped_departuresOf|intros ?]
         | |- restampedAt ?now _ (bind Date_now _) (bind Date_now _) =>
             apply (restamped_bind now (fun _ => now)); [apply restamped_now|intros ?]
         | |- restampedAt _ _ (ret _) (ret _) =>
             apply restamped_ret; reflexivity
         | |- restampedAt _ _ (throw _) (throw _) => apply restamped_throw
         | |- restampedAt _ _ (match ?x with _ => _ end) (match ?x with _ => _ end) =>
             destruct x
         end.

Lemma head_stamped now (l : list Itinerary) :
  List.head (List.map (stampedAt now) l) = option_map (stampedAt now) (List.head l).
Proof. apply head_map. Qed.

Lemma sort_stamped now (l : list Itinerary) :
  Array_sort byArrivalAtMonash (List.map (stampedAt now) l)
  = List.map (stampedAt now) (Array_sort byArrivalAtMonash l).
Proof. now rewrite Array_sort_map. Qed.

Section DeparturesRestamped.
Variable Date_parse : string -> option Z.
Variable now : Z.

Lemma makeOption_restamped st arr route travelTime bus :
  restampedAt now (stampedAt now)
    (Departures.makeOption st arr route travelTime bus)
    (Departures.makeOption st arr route travelTime bus).
Proof. unfold Departures.makeOption. restamp. Qed.

Lemma pushOption_restamped st arr route travelTime bus :
  restampedAt now (List.map (stampedAt now))
    (Departures.pushOption st arr route travelTime bus)
    (Departures.pushOption st arr route travelTime bus).
Proof.
  unfold Departures.pushOption. destruct bus as [b|]; [|restamp].
  apply (restamped_bind now (stampedAt now)); [apply makeOption_restamped|].
  intros o. restamp.
Qed.

Lemma busList_restamped buses dflt :
  restampedAt now (fun a => a)
    (Departures.busList buses dflt) (Departures.busList buses dflt).
Proof. unfold Departures.busList. restamp. Qed.

Lemma stopOptions_restamped st arr route buses :
  restampedAt now (List.map (stampedAt now))
    (Departures.stopOptions Date_parse st arr route buses)
    (Departures.stopOptions Date_parse st arr route buses).
Proof.
  unfold Departures.stopOptions.
  apply restamped_step; [apply busList_restamped|]. intros l.
  apply pushOption_restamped.
Qed.

Lemma glenWaverleyOptions_restamped l arr routeNums :
  restampedAt now (List.map (stampedAt now))
    (Departures.glenWaverleyOptions Date_parse l arr routeNums)
    (Departures.glenWaverleyOptions Date_parse l arr routeNums).
Proof.
  induction routeNums as [|routeNum rest IH]; simpl; [restamp|].
  apply (restamped_bind now (List.map (stampedAt now)));
    [apply pushOption_restamped|]. intros o.
  apply (restamped_bind now (List.map (stampedAt now))); [exact IH|]. intros os.
  apply restamped_ret. now rewrite List.map_app.
Qed.

Lemma glenWaverleyBlock_restamped arr gw :
  restampedAt now (List.map (stampedAt now))
    (Departures.glenWaverleyBlock Date_parse arr gw)
    (Departures.glenWaverleyBlock Date_parse arr gw).
Proof.
  unfold Departures.glenWaverleyBlock.
  apply restamped_step; [apply busList_restamped|]. intros l.
  apply glenWaverleyOptions_restamped.
Qed.

Lemma buildOptions_restamped nt b1 b2 b3 b4 :
  restampedAt now (List.map (stampedAt now))
    (Departures.buildOptions Date_parse nt b1 b2 b3 b4)
    (Departures.buildOptions Date_parse nt b1 b2 b3 b4).
Proof.
  unfold Departures.buildOptions. cbv zeta.
  apply (restamped_bind now (List.map (stampedAt now)));
    [apply stopOptions_restamped|]. intros o1.
  apply (restamped_bind now (List.map (stampedAt now)));
    [apply stopOptions_restamped|]. intros o2.
  apply (restamped_bind now (List.map (stampedAt now)));
    [apply stopOptions_restamped|]. intros o3.
  apply (restamped_bind now (List.map (stampedAt now)));
    [apply glenWaverleyBlock_restamped|]. intros o4.
  apply restamped_ret. now rewrite !List.map_app.
Qed.

Lemma compute_restamped trains b1 b2 b3 b4 :
  restampedAt now (atInstant now)
    (Departures.compute Date_parse trains b1 b2 b3 b4)
    (Departures.compute Date_parse trains b1 b2 b3 b4).
Proof.
  unfold Departures.compute.
  apply restamped_step; [apply restamped_departuresOf|]. intros ds.
  destruct (List.head (Departures.outboundTrains Date_parse ds)) as [nt|];
    [|restamp].
  cbv zeta.
  apply (restamped_bind now (List.map (stampedAt now)));
    [apply buildOptions_restamped|]. intros opts.
  apply (restamped_bind now (fun _ => now)); [apply restamped_now|]. intros t.
  restamp. apply restamped_ret. simpl.
  now rewrite sort_stamped, head_stamped.
Qed.

Lemma getBusDepartures_restamped routeNumbers data :
  restampedAt now (fun a => a)
    (Departures.getBusDepartures routeNumbers data)
    (Departures.getBusDepartures routeNumbers data).
Proof. unfold Departures.getBusDepartures. restamp. Qed.

Lemma handlerBody_restamped trains mw733 syn703 syn737 gw :
  restampedAt now (atInstant now)
    (Departures.handlerBody Date_parse trains mw733 syn703 syn737 gw)
    (Departures.handlerBody Date_parse trains mw733 syn703 syn737 gw).
Proof.
  unfold Departures.handlerBody.
  do 4 (apply restamped_step; [apply getBusDepartures_restamped|intros ?]).
  apply compute_restamped.
Qed.
End DeparturesRestamped.

Section ServerRestamped.
Variable Date_parse : string -> option Z.
Variable now : Z.

Lemma optionFor_restamped st arr routeName deps :
  restampedAt now (List.map (stampedAt now))
    (Server.optionFor Date_parse st arr routeName deps)
    (Server.optionFor Date_parse st arr routeName deps).
Proof.
  unfold Server.optionFor, Server.findBus.
  apply restamped_step.
  { apply restamped_step; [apply restamped_departuresOf|]. intros ds. restamp. }
  intros [b|]; [|restamp].
  apply (restamped_bind now (stampedAt now)).
  - unfold Server.makeOption. restamp.
  - intros o. restamp.
Qed.

Lemma server_buildOptions_restamped nt b1 b2 b3 b4 :
  restampedAt now (List.map (stampedAt now))
    (Server.buildOptions Date_parse nt b1 b2 b3 b4)
    (Server.buildOptions Date_parse nt b1 b2 b3 b4).
Proof.
  unfold Server.buildOptions. cbv zeta.
  do 5 (apply (restamped_bind now (List.map (stampedAt now)));
        [apply optionFor_restamped|intros ?]).
  apply restamped_ret. now rewrite !List.map_app.
Qed.

Lemma beforeWriteHead_restamped trains b1 b2 b3 b4 :
  restampedAt now (readyAt now)
    (Server.beforeWriteHead Date_parse trains b1 b2 b3 b4)
    (Server.beforeWriteHead Date_parse trains b1 b2 b3 b4).
Proof.
  unfold Server.beforeWriteHead.
  apply restamped_step; [apply restamped_departuresOf|]. intros ds.
  destruct (List.head (Server.outbound Date_parse ds)) as [nt|]; [|restamp].
  apply (restamped_bind now (List.map (stampedAt now)));
    [apply server_buildOptions_restamped|]. intros opts.
  apply restamped_ret. simpl. now rewrite sort_stamped.
Qed.

Lemma afterWriteHead_restamped ready :
  restampedAt now (atInstant now)
    (Server.afterWriteHead (readyAt now ready)) (Server.afterWriteHead ready).
Proof.
  destruct ready as [[nt sorted]|]; simpl; [|restamp]. cbv zeta.
  apply (restamped_bind now (fun _ => now)); [apply restamped_now|]. intros t.
  restamp. apply restamped_ret. simpl. now rewrite head_stamped.
Qed.

Lemma handleAPIBody_restamped trains b1 b2 b3 b4 :
  restampedAt now (atInstant now)
    (Server.handleAPIBody Date_parse trains b1 b2 b3 b4)
    (Server.handleAPIBody Date_parse trains b1 b2 b3 b4).
Proof.
  unfold Server.handleAPIBody.
  apply (restamped_bind now (readyAt now)); [apply beforeWriteHead_restamped|].
  apply afterWriteHead_restamped.
Qed.

Lemma handleAPI_restamped clock other trains b1 b2 b3 b4 :
  (forall i, clock i = now) ->
  Server.handleAPI Date_parse clock trains b1 b2 b3 b4
  = atInstant now (Server.handleAPI Date_parse other trains b1 b2 b3 b4).
Proof.
  intros Hnow. unfold Server.handleAPI.
  pose proof (beforeWriteHead_restamped trains b1 b2 b3 b4 clock other 0%nat 0%nat Hnow)
    as H.
  destruct (Server.beforeWriteHead Date_parse trains b1 b2 b3 b4 other 0%nat)
    as [[ready m]|e],
    (Server.beforeWriteHead Date_parse trains b1 b2 b3 b4 clock 0%nat)
    as [[ready' n]|e']; simpl in H; try discriminate H.
  - injection H as ->.
    pose proof (afterWriteHead_restamped ready clock other n m Hnow) as H.
    destruct (Server.afterWriteHead ready other m) as [[r m']|e],
      (Server.afterWriteHead (readyAt now ready) clock n) as [[r' n']|e'];
      simpl in H; try discriminate H.
    + now injection H as ->.
    + now injection H as ->.
  - now injection H as ->.
Qed.
End ServerRestamped.

Lemma respond_restamped now (c : M Response) clock other :
  restampedAt now (atInstant now) c c -> (forall i, clock i = now) ->
  respond c clock = atInstant now (respond c other).
Proof.
  intros Hc Hnow. unfold respond.
  specialize (Hc clock other 0%nat 0%nat Hnow).
  destruct (c other 0%nat) as [[r m]|e], (c clock 0%nat) as [[r' n]|e'];
    simpl in Hc; try discriminate Hc.
  - now injection Hc as ->.
  - now injection Hc as ->.
Qed.

(** C8. Let every [new Date()] of a run read the same instant [now].  Then
    the response of the run is the response of any other run on the same
    payloads, whatever the clock of that run reads, with [now] in the place
    of the instants read: only [timestamp] and the [totalMinutes] of the
    options depend on the clock, while the arrivals of the train, the
    options, their order, the recommendation and a failure depend on the
    payloads alone.  So two runs that read the same [now] send the same
    response; and what the [try] block computes does not depend on the
    number of reads of the clock made before it starts, the only state
    there is.  This holds for either file. *)
Theorem same_now_same_response (Date_parse : string -> option Z) (now : Z)
    (clock : nat -> Z) (trains mw733 syn703 syn737 gw : Payload) :
  (forall i, clock i = now) ->
  (forall other,
     Departures.handler Date_parse clock trains mw733 syn703 syn737 gw
     = atInstant now
         (Departures.handler Date_parse other trains mw733 syn703 syn737 gw) /\
     Server.handleAPI Date_parse clock trains mw733 syn703 syn737 gw
     = atInstant now
         (Server.handleAPI Date_parse other trains mw733 syn703 syn737 gw)) /\
  (forall clock2, (forall i, clock2 i = now) ->
     Departures.handler Date_parse clock trains mw733 syn703 syn737 gw
     = Departures.handler Date_parse clock2 trains mw733 syn703 syn737 gw /\
     Server.handleAPI Date_parse clock trains mw733 syn703 syn737 gw
     = Server.handleAPI Date_parse clock2 trains mw733 syn703 syn737 gw) /\
  (forall clock2 n m, (forall i, clock2 i = now) ->
     value (Departures.handlerBody Date_parse trains mw733 syn703 syn737 gw clock n)
     = value (Departures.handlerBody Date_parse trains mw733 syn703 syn737 gw clock2 m) /\
     value (Server.handleAPIBody Date_parse trains mw733 syn703 syn737 gw clock n)
     = value (Server.handleAPIBody Date_parse trains mw733 syn703 syn737 gw clock2 m)).
Proof.
  intros Hnow.
  assert (Hd : forall c other, (forall i, c i = now) ->
            Departures.handler Date_parse c trains mw733 syn703 syn737 gw
            = atInstant now
                (Departures.handler Date_parse other trains mw733 syn703 syn737 gw)).
  { intros c other Hc. apply respond_restamped; [|exact Hc].
    apply handlerBody_restamped. }
  split; [|split].
  - intros other. split; [now apply Hd|now apply handleAPI_restamped].
  - intros clock2 H2. split.
    + rewrite (Hd clock clock Hnow). symmetry. now apply Hd.
    + rewrite (handleAPI_restamped Date_parse now clock clock _ _ _ _ _ Hnow).
      symmetry. now apply handleAPI_restamped.
  - intros clock2 n m H2. split.
    + rewrite (handlerBody_restamped Date_parse now _ _ _ _ _ clock clock n n Hnow).
      symmetry. now apply handlerBody_restamped.
    + rewrite (handleAPIBody_restamped Date_parse now _ _ _ _ _ clock clock n n Hnow).
      symmetry. now apply handleAPIBody_restamped.
Qed.

Lemma same_now_same_response_witness :
  Departures.handler IsoDate.iso_parse Samples.clock Samples.trains
    Samples.buses733 Samples.noBuses Samples.noBuses Samples.busesGlenWaverley
  = atInstant Samples.now
      (Departures.handler IsoDate.iso_parse Timetable.ticking Samples.trains
         Samples.buses733 Samples.noBuses Samples.noBuses Samples.busesGlenWaverley) /\
  Server.handleAPI IsoDate.iso_parse Samples.clock Samples.trains
    Samples.buses733 Samples.noBuses Samples.noBuses Samples.busesGlenWaverley
  = atInstant Samples.now
      (Server.handleAPI IsoDate.iso_parse Timetable.ticking Samples.trains
         Samples.buses733 Samples.noBuses Samples.noBuses Samples.busesGlenWaverley).
Proof.
  apply (proj1 (same_now_same_response IsoDate.iso_parse Samples.now Samples.clock
                  Samples.trains Samples.buses733 Samples.noBuses Samples.noBuses
                  Samples.busesGlenWaverley (fun i => eq_refl))).
Defined.
(** ** C3: empty and absent payloads *)

(** Sorting and filtering commute, the sort being stable. *)
Section SortFilter.
Context {A : Type} (k : A -> Z) (p : A -> bool).

Lemma insertSorted_first x l :
  Forall (fun y => k x <= k y) l -> insertSorted (byKey k) x l = x :: l.
Proof.
  destruct 1 as [|y l Hy _]; [reflexivity|]. simpl.
  rewrite comesAfter_byKey. destruct (Z.ltb_spec (k y) (k x)); [lia|reflexivity].
Qed.

Lemma filter_insertSorted x s :
  StronglySorted (keyLe k) s ->
  List.filter p (insertSorted (byKey k) x s)
  = if p x then insertSorted (byKey k) x (List.filter p s) else List.filter p s.
Proof.
  induction 1 as [|y s Hs IH Hy]; simpl.
  - destruct (p x); reflexivity.
  - rewrite comesAfter_byKey. destruct (Z.ltb_spec (k y) (k x)) as [Hlt|Hle]; simpl.
    + rewrite IH. destruct (p y), (p x); simpl; try reflexivity.
      rewrite comesAfter_byKey. destruct (Z.ltb_spec (k y) (k x)); [reflexivity|lia].
    + destruct (p x) eqn:Ex; [|reflexivity].
      symmetry. apply (insertSorted_first x (List.filter p (y :: s))).
      apply List.Forall_forall. intros z Hz. apply filter_In in Hz as [Hz _].
      destruct Hz as [<-|Hz]; [exact Hle|].
      rewrite List.Forall_forall in Hy. specialize (Hy z Hz). unfold keyLe in Hy. lia.
Qed.

Lemma Array_sort_filter l :
  Array_sort (byKey k) (List.filter p l) = List.filter p (Array_sort (byKey k) l).
Proof.
  induction l as [|x l IH]; simpl; [reflexivity|].
  rewrite filter_insertSorted by apply Array_sort_sorted.
  destruct (p x); simpl; now rewrite IH.
Qed.
End SortFilter.

Lemma filter_all {A : Type} (p : A -> bool) (b : bool) (l : list A) :
  Forall (fun x => p x = b) l -> List.filter p l = if b then l else [].
Proof.
  induction 1 as [|x l Hx _ IH]; simpl; [now destruct b|].
  rewrite Hx, IH. now destruct b.
Qed.

Lemma counterFree_at {A : Type} (c : M A) now n a n' :
  counterFree c -> c (fun _ => now) n = Return (a, n') ->
  forall n0, exists n0', c (fun _ => now) n0 = Return (a, n0').
Proof.
  intros Hc H n0. rewrite (Hc now n) in H. rewrite (Hc now n0).
  destruct (c (fun _ => now) 0%nat) as [[a' k]|e]; [|discriminate].
  simpl in *. injection H as -> _. eauto.
Qed.

Lemma madeAt_kept Date_parse st route arr ds e1 e2 e3 e4 o :
  madeAt Date_parse st route arr ds o ->
  keptOption e1 e2 e3 e4 o
  = keptOption e1 e2 e3 e4 (optionObject st 0 route 0 0 0 0).
Proof.
  intros (Hs & Hr & _). unfold keptOption. simpl. now rewrite Hs, Hr.
Qed.

(** What emptying does to one block, and then to the whole list. *)
Lemma block_emptied {P : Itinerary -> Prop} (c c' : M (list Itinerary))
    (e : bool) (keep : Itinerary -> bool) now n os n1 :
  counterFree c ->
  (forall n0, e = true -> c' (fun _ => now) n0 = Return ([], n0)) ->
  (e = false -> c' = c) ->
  (forall o, P o -> keep o = negb e) ->
  c (fun _ => now) n = Return (os, n1) -> Forall P os ->
  forall n0, exists n0', c' (fun _ => now) n0 = Return (List.filter keep os, n0').
Proof.
  intros Hfree Hempty Hsame Hkeep H HP n0.
  rewrite (filter_all keep (negb e) os)
    by (eapply List.Forall_impl; [|exact HP]; exact Hkeep).
  destruct e; simpl.
  - exists n0. now apply Hempty.
  - rewrite (Hsame eq_refl). eapply counterFree_at; eassumption.
Qed.

Section DeparturesEmptied.
Variable Date_parse : string -> option Z.
Variables e1 e2 e3 e4 : bool.
Local Abbreviation keep := (keptOption e1 e2 e3 e4).

Lemma getBusDepartures_emptied routeNumbers e data clock n data' n' :
  Departures.getBusDepartures routeNumbers data clock n = Return (data', n') ->
  Departures.getBusDepartures routeNumbers (emptied e data) clock n
  = Return (emptied e data', n').
Proof.
  intros H. destruct e; [|exact H].
  apply getBusDepartures_Return in H as (-> & Er & _).
  unfold Departures.getBusDepartures, emptied, bind, departuresOf, ret. simpl.
  now rewrite Er.
Qed.

Lemma buildOptions_emptied nt b1 b2 b3 b4 now n opts n1 :
  Departures.buildOptions Date_parse nt b1 b2 b3 b4 (fun _ => now) n
  = Return (opts, n1) ->
  forall n0, exists n0',
    Departures.buildOptions Date_parse nt (emptied e1 b1) (emptied e2 b2)
      (emptied e3 b3) (emptied e4 b4) (fun _ => now) n0
    = Return (List.filter keep opts, n0').
Proof.
  intros H n0. unfold Departures.buildOptions in *.
  apply bind_Return in H as (o1 & m1 & H1 & H).
  apply bind_Return in H as (o2 & m2 & H2 & H).
  apply bind_Return in H as (o3 & m3 & H3 & H).
  apply bind_Return in H as (o4 & m4 & H4 & H).
  run_inv H.
  pose proof (stopOptions_made _ _ _ _ _ _ _ _ _ H1) as [_ F1].
  pose proof (stopOptions_made _ _ _ _ _ _ _ _ _ H2) as [_ F2].
  pose proof (stopOptions_made _ _ _ _ _ _ _ _ _ H3) as [_ F3].
  pose proof (glenWaverleyBlock_made _ _ _ _ _ _ _ H4) as (o742 & o737 & E4 & _ & _ & F4 & F5).
  assert (F45 : Forall (fun o => station o = stationName glenWaverley) o4).
  { rewrite E4. apply Forall_app. split;
      (eapply List.Forall_impl; [|eassumption]); intros o Ho; apply Ho. }
  assert (K1 : exists k1,
    Departures.stopOptions Date_parse mountWaverley
      (Departures.trainArrivals nt mountWaverley) "733" (emptied e1 b1)
      (fun _ => now) n0 = Return (List.filter keep o1, k1)).
  { eapply (block_emptied
              (Departures.stopOptions Date_parse mountWaverley
                 (Departures.trainArrivals nt mountWaverley) "733" b1) _ e1);
      [apply stopOptions_clock | intros ? ->; reflexivity | intros ->; reflexivity
      | | exact H1 | exact F1].
    intros o Ho. now rewrite (madeAt_kept _ _ _ _ _ _ _ _ _ _ Ho). }
  destruct K1 as [k1 K1].
  assert (K2 : exists k2,
    Departures.stopOptions Date_parse syndal
      (Departures.trainArrivals nt syndal) "703" (emptied e2 b2)
      (fun _ => now) k1 = Return (List.filter keep o2, k2)).
  { eapply (block_emptied
              (Departures.stopOptions Date_parse syndal
                 (Departures.trainArrivals nt syndal) "703" b2) _ e2);
      [apply stopOptions_clock | intros ? ->; reflexivity | intros ->; reflexivity
      | | exact H2 | exact F2].
    intros o Ho. now rewrite (madeAt_kept _ _ _ _ _ _ _ _ _ _ Ho). }
  destruct K2 as [k2 K2].
  assert (K3 : exists k3,
    Departures.stopOptions Date_parse syndal
      (Departures.trainArrivals nt syndal) "737" (emptied e3 b3)
      (fun _ => now) k2 = Return (List.filter keep o3, k3)).
  { eapply (block_emptied
              (Departures.stopOptions Date_parse syndal
                 (Departures.trainArrivals nt syndal) "737" b3) _ e3);
      [apply stopOptions_clock | intros ? ->; reflexivity | intros ->; reflexivity
      | | exact H3 | exact F3].
    intros o Ho. now rewrite (madeAt_kept _ _ _ _ _ _ _ _ _ _ Ho). }
  destruct K3 as [k3 K3].
  assert (K4 : exists k4,
    Departures.glenWaverleyBlock Date_parse
      (Departures.trainArrivals nt glenWaverley) (emptied e4 b4)
      (fun _ => now) k3 = Return (List.filter keep o4, k4)).
  { eapply (block_emptied
              (Departures.glenWaverleyBlock Date_parse
                 (Departures.trainArrivals nt glenWaverley) b4) _ e4);
      [apply glenWaverleyBlock_clock | intros ? ->; reflexivity
      | intros ->; reflexivity | | exact H4 | exact F45].
    intros o Ho. simpl in Ho. unfold keptOption. now rewrite Ho. }
  destruct K4 as [k4 K4].
  exists k4.
  rewrite (bind_eq _ _ _ _ _ _ K1), (bind_eq _ _ _ _ _ _ K2),
          (bind_eq _ _ _ _ _ _ K3), (bind_eq _ _ _ _ _ _ K4).
  unfold ret. now rewrite !List.filter_app.
Qed.

Lemma compute_emptied trains b1 b2 b3 b4 now n r n' :
  Departures.compute Date_parse trains b1 b2 b3 b4 (fun _ => now) n
  = Return (Recommend r, n') ->
  exists n'',
    Departures.compute Date_parse trains (emptied e1 b1) (emptied e2 b2)
      (emptied e3 b3) (emptied e4 b4) (fun _ => now) n
    = Return (Recommend (without e1 e2 e3 e4 r), n'').
Proof.
  intros H.
  apply compute_Recommend in H
    as (ds & nt & opts & n1 & Eds & Ent & Hb & Harr & Eall & Erec & Ets & _).
  destruct (buildOptions_emptied _ _ _ _ _ _ _ _ _ Hb n) as [k Hb'].
  unfold Departures.compute.
  rewrite (bind_eq _ _ _ _ _ _ (departuresOf_eq _ _ _ n Eds)), Ent.
  rewrite (bind_eq _ _ _ _ _ _ Hb').
  unfold bind, Date_now. rewrite !Harr. simpl. eexists. unfold ret.
  do 2 f_equal. unfold without. destruct r as [ts nxt rec all]; simpl in *.
  change byArrivalAtMonash with (byKey arrivalAtMonash).
  rewrite !Array_sort_filter, Ets, Eall. destruct nxt; reflexivity.
Qed.

Lemma compute_no_train_any trains b1 b2 b3 b4 b1' b2' b3' b4' clock n ts n' :
  Departures.compute Date_parse trains b1 b2 b3 b4 clock n
  = Return (NoUpcomingTrains ts, n') ->
  Departures.compute Date_parse trains b1' b2' b3' b4' clock n
  = Return (NoUpcomingTrains ts, n').
Proof.
  unfold Departures.compute, bind.
  destruct (departuresOf trains clock n) as [[ds n0]|]; [|discriminate].
  destruct (List.head (Departures.outboundTrains Date_parse ds)); [|tauto].
  destruct (Departures.buildOptions _ _ _ _ _ _ _ _) as [[? ?]|]; [|discriminate].
  unfold Date_now.
  repeat match goal with
         | |- context [toISOString ?d] => destruct d; simpl
         end; discriminate.
Qed.
End DeparturesEmptied.

Section ServerEmptied.
Variable Date_parse : string -> option Z.
Variables e1 e2 e3 e4 : bool.
Local Abbreviation keep := (keptOption e1 e2 e3 e4).

Lemma optionFor_emptied st routeName arr b e now n os n1 :
  (forall o, madeAt Date_parse st routeName arr (listOf b) o -> keep o = negb e) ->
  Server.optionFor Date_parse st arr routeName b (fun _ => now) n = Return (os, n1) ->
  forall n0, exists n0',
    Server.optionFor Date_parse st arr routeName (emptied e b) (fun _ => now) n0
    = Return (List.filter keep os, n0').
Proof.
  intros Hkeep H.
  eapply (block_emptied (Server.optionFor Date_parse st arr routeName b) _ e);
    [apply optionFor_clock | intros ? ->; reflexivity | intros ->; reflexivity
    | exact Hkeep | exact H | ].
  now apply optionFor_made in H.
Qed.

Lemma server_buildOptions_emptied nt b1 b2 b3 b4 now n opts n1 :
  Server.buildOptions Date_parse nt b1 b2 b3 b4 (fun _ => now) n = Return (opts, n1) ->
  forall n0, exists n0',
    Server.buildOptions Date_parse nt (emptied e1 b1) (emptied e2 b2)
      (emptied e3 b3) (emptied e4 b4) (fun _ => now) n0
    = Return (List.filter keep opts, n0').
Proof.
  intros H n0. unfold Server.buildOptions in *.
  apply bind_Return in H as (o1 & m1 & H1 & H).
  apply bind_Return in H as (o2 & m2 & H2 & H).
  apply bind_Return in H as (o3 & m3 & H3 & H).
  apply bind_Return in H as (o4 & m4 & H4 & H).
  apply bind_Return in H as (o5 & m5 & H5 & H).
  run_inv H.
  destruct (optionFor_emptied mountWaverley "733" (Server.trainArrivals nt mountWaverley) b1 e1
              now n o1 m1
              ltac:(intros o Ho; now rewrite (madeAt_kept _ _ _ _ _ _ _ _ _ _ Ho))
              H1 n0) as [k1 K1].
  destruct (optionFor_emptied syndal "703" (Server.trainArrivals nt syndal) b2 e2
              now m1 o2 m2
              ltac:(intros o Ho; now rewrite (madeAt_kept _ _ _ _ _ _ _ _ _ _ Ho))
              H2 k1) as [k2 K2].
  destruct (optionFor_emptied syndal "737" (Server.trainArrivals nt syndal) b3 e3
              now m2 o3 m3
              ltac:(intros o Ho; now rewrite (madeAt_kept _ _ _ _ _ _ _ _ _ _ Ho))
              H3 k2) as [k3 K3].
  destruct (optionFor_emptied glenWaverley "742" (Server.trainArrivals nt glenWaverley) b4 e4
              now m3 o4 m4
              ltac:(intros o Ho; now rewrite (madeAt_kept _ _ _ _ _ _ _ _ _ _ Ho))
              H4 k3) as [k4 K4].
  destruct (optionFor_emptied glenWaverley "737" (Server.trainArrivals nt glenWaverley) b4 e4
              now m4 o5 m5
              ltac:(intros o Ho; now rewrite (madeAt_kept _ _ _ _ _ _ _ _ _ _ Ho))
              H5 k4) as [k5 K5].
  exists k5.
  rewrite (bind_eq _ _ _ _ _ _ K1), (bind_eq _ _ _ _ _ _ K2),
          (bind_eq _ _ _ _ _ _ K3), (bind_eq _ _ _ _ _ _ K4),
          (bind_eq _ _ _ _ _ _ K5).
  unfold ret. now rewrite !List.filter_app.
Qed.

Lemma handleAPIBody_emptied trains b1 b2 b3 b4 now n r n' :
  Server.handleAPIBody Date_parse trains b1 b2 b3 b4 (fun _ => now) n
  = Return (Recommend r, n') ->
  exists n'',
    Server.handleAPIBody Date_parse trains (emptied e1 b1) (emptied e2 b2)
      (emptied e3 b3) (emptied e4 b4) (fun _ => now) n
    = Return (Recommend (without e1 e2 e3 e4 r), n'').
Proof.
  intros H.
  apply handleAPIBody_Recommend in H
    as (ds & nt & opts & n1 & Eds & Ent & Hb & Harr & Eall & Erec & Ets & _).
  destruct (server_buildOptions_emptied _ _ _ _ _ _ _ _ _ Hb n) as [k Hb'].
  rewrite handleAPIBody_eq.
  rewrite (bind_eq _ _ _ _ _ _ (departuresOf_eq _ _ _ n Eds)), Ent.
  rewrite (bind_eq _ _ _ _ _ _ Hb').
  unfold bind, Date_now. rewrite !Harr. simpl. eexists. unfold ret.
  do 2 f_equal. unfold without. destruct r as [ts nxt rec all]; simpl in *.
  change byArrivalAtMonash with (byKey arrivalAtMonash).
  rewrite !Array_sort_filter, Ets, Eall. destruct nxt; reflexivity.
Qed.

Lemma handleAPIBody_no_train_any trains b1 b2 b3 b4 b1' b2' b3' b4' clock n ts n' :
  Server.handleAPIBody Date_parse trains b1 b2 b3 b4 clock n
  = Return (NoUpcomingTrains ts, n') ->
  Server.handleAPIBody Date_parse trains b1' b2' b3' b4' clock n
  = Return (NoUpcomingTrains ts, n').
Proof.
  rewrite !handleAPIBody_eq. unfold bind.
  destruct (departuresOf trains clock n) as [[ds n0]|]; [|discriminate].
  destruct (List.head (Server.outbound Date_parse ds)); [|tauto].
  destruct (Server.buildOptions _ _ _ _ _ _ _ _) as [[? ?]|]; [|discriminate].
  unfold Date_now.
  repeat match goal with
         | |- context [toISOString ?d] => destruct d; simpl
         end; discriminate.
Qed.
End ServerEmptied.

(** C3, as the code has it. With a clock that stands at [now], replacing
    any of the four bus payloads by payloads whose list of departures is
    present and empty turns a recommendation into the same recommendation
    without the options of the emptied payloads, every other option being
    the same, and leaves a no-upcoming-trains response as it is: nothing
    fails.  A payload without a list of departures is not tolerated:
    getBusDepartures and findBus throw a TypeError on it, and the handler of
    api/departures.js then answers with the failure of its catch block. *)
Theorem empty_payloads_only_omit_their_options (Date_parse : string -> option Z)
    (now : Z) (trains mw733 syn703 syn737 gw : Payload) (e1 e2 e3 e4 : bool) :
  let clock := fun _ : nat => now in
  (forall r,
     Departures.handler Date_parse clock trains mw733 syn703 syn737 gw = Recommend r ->
     Departures.handler Date_parse clock trains (emptied e1 mw733)
       (emptied e2 syn703) (emptied e3 syn737) (emptied e4 gw)
     = Recommend (without e1 e2 e3 e4 r)) /\
  (forall r,
     Server.handleAPI Date_parse clock trains mw733 syn703 syn737 gw = Recommend r ->
     Server.handleAPI Date_parse clock trains (emptied e1 mw733)
       (emptied e2 syn703) (emptied e3 syn737) (emptied e4 gw)
     = Recommend (without e1 e2 e3 e4 r)) /\
  (forall ts,
     Departures.handler Date_parse clock trains mw733 syn703 syn737 gw
     = NoUpcomingTrains ts ->
     Departures.handler Date_parse clock trains (emptied e1 mw733)
       (emptied e2 syn703) (emptied e3 syn737) (emptied e4 gw)
     = NoUpcomingTrains ts) /\
  (forall ts,
     Server.handleAPI Date_parse clock trains mw733 syn703 syn737 gw
     = NoUpcomingTrains ts ->
     Server.handleAPI Date_parse clock trains (emptied e1 mw733)
       (emptied e2 syn703) (emptied e3 syn737) (emptied e4 gw)
     = NoUpcomingTrains ts) /\
  (departures mw733 = None \/ departures syn703 = None \/
   departures syn737 = None \/ departures gw = None ->
   forall anyClock,
     Departures.handler Date_parse anyClock trains mw733 syn703 syn737 gw
     = Failed TypeError) /\
  (forall deps routes trainArr routeData anyClock n,
     departures deps = None ->
     Server.findBus Date_parse deps routes trainArr routeData anyClock n
     = Throw TypeError).
Proof.
  cbv zeta. split; [|split; [|split; [|split; [|split]]]].
  - intros r H. apply respond_Recommend in H as [n H].
    unfold Departures.handlerBody in H.
    apply bind_Return in H as (b1 & n1 & H1 & H).
    apply bind_Return in H as (b2 & n2 & H2 & H).
    apply bind_Return in H as (b3 & n3 & H3 & H).
    apply bind_Return in H as (b4 & n4 & H4 & H).
    apply (compute_emptied Date_parse e1 e2 e3 e4) in H as [n' H].
    unfold Departures.handler, respond, Departures.handlerBody.
    rewrite (bind_eq _ _ _ _ _ _ (getBusDepartures_emptied _ e1 _ _ _ _ _ H1)),
            (bind_eq _ _ _ _ _ _ (getBusDepartures_emptied _ e2 _ _ _ _ _ H2)),
            (bind_eq _ _ _ _ _ _ (getBusDepartures_emptied _ e3 _ _ _ _ _ H3)),
            (bind_eq _ _ _ _ _ _ (getBusDepartures_emptied _ e4 _ _ _ _ _ H4)).
    now rewrite H.
  - intros r H. apply handleAPI_Recommend in H as [n H].
    apply (handleAPIBody_emptied Date_parse e1 e2 e3 e4) in H as [n' H].
    exact (handleAPI_Return _ _ _ _ _ _ _ _ _ H).
  - intros ts H. apply respond_NoUpcomingTrains in H as [n H].
    unfold Departures.handlerBody in H.
    apply bind_Return in H as (b1 & n1 & H1 & H).
    apply bind_Return in H as (b2 & n2 & H2 & H).
    apply bind_Return in H as (b3 & n3 & H3 & H).
    apply bind_Return in H as (b4 & n4 & H4 & H).
    unfold Departures.handler, respond, Departures.handlerBody.
    rewrite (bind_eq _ _ _ _ _ _ (getBusDepartures_emptied _ e1 _ _ _ _ _ H1)),
            (bind_eq _ _ _ _ _ _ (getBusDepartures_emptied _ e2 _ _ _ _ _ H2)),
            (bind_eq _ _ _ _ _ _ (getBusDepartures_emptied _ e3 _ _ _ _ _ H3)),
            (bind_eq _ _ _ _ _ _ (getBusDepartures_emptied _ e4 _ _ _ _ _ H4)).
    now rewrite (compute_no_train_any Date_parse _ _ _ _ _ _ _ _ _ _ _ _ _ H).
  - intros ts H. apply handleAPI_NoUpcomingTrains in H as [n H].
    exact (handleAPI_Return _ _ _ _ _ _ _ _ _
             (handleAPIBody_no_train_any Date_parse _ _ _ _ _ _ _ _ _ _ _ _ _ H)).
  - intros H anyClock.
    unfold Departures.handler, respond, Departures.handlerBody,
      Departures.getBusDepartures, departuresOf, bind.
    destruct (departures mw733), (departures syn703), (departures syn737),
      (departures gw); simpl; try reflexivity.
    destruct H as [H|[H|[H|H]]]; discriminate.
  - intros deps routes trainArr routeData anyClock n H.
    unfold Server.findBus, departuresOf, bind. now rewrite H.
Qed.

Lemma empty_payloads_only_omit_their_options_witness :
  (exists r,
     Departures.handler IsoDate.iso_parse Samples.clock Samples.trains
       Samples.buses733 Samples.noBuses Samples.noBuses Samples.busesGlenWaverley
     = Recommend r /\
     List.map bus_route (allOptions r) = ["733"; "742"; "737"] /\
     Departures.handler IsoDate.iso_parse Samples.clock Samples.trains
       (emptied true Samples.buses733) Samples.noBuses Samples.noBuses
       Samples.busesGlenWaverley
     = Recommend (without true false false false r) /\
     List.map bus_route (allOptions (without true false false false r))
     = ["742"; "737"]) /\
  (exists r,
     Server.handleAPI IsoDate.iso_parse Samples.clock Samples.trains
       Samples.buses733 Samples.noBuses Samples.noBuses Samples.busesGlenWaverley
     = Recommend r /\
     Server.handleAPI IsoDate.iso_parse Samples.clock Samples.trains
       Samples.buses733 Samples.noBuses Samples.noBuses
       (emptied true Samples.busesGlenWaverley)
     = Recommend (without false false false true r) /\
     List.map bus_route (allOptions (without false false false true r)) = ["733"]) /\
  Departures.handler IsoDate.iso_parse Samples.clock Samples.trains
    Samples.buses733 Samples.noDepartures Samples.noBuses Samples.busesGlenWaverley
  = Failed TypeError.
Proof.
  split; [|split].
  - eexists. split; [vm_compute; reflexivity|]. split; [reflexivity|].
    split; [|reflexivity].
    apply (proj1 (empty_payloads_only_omit_their_options IsoDate.iso_parse
                    Samples.now Samples.trains Samples.buses733 Samples.noBuses
                    Samples.noBuses Samples.busesGlenWaverley true false false false)).
    vm_compute. reflexivity.
  - eexists. split; [vm_compute; reflexivity|]. split; [|reflexivity].
    apply (proj1 (proj2 (empty_payloads_only_omit_their_options IsoDate.iso_parse
                    Samples.now Samples.trains Samples.buses733 Samples.noBuses
                    Samples.noBuses Samples.busesGlenWaverley false false false true))).
    vm_compute. reflexivity.
  - apply (proj1 (proj2 (proj2 (proj2 (proj2
             (empty_payloads_only_omit_their_options IsoDate.iso_parse
                Samples.now Samples.trains Samples.buses733 Samples.noDepartures
                Samples.noBuses Samples.busesGlenWaverley false false false false)))))).
    right. left. reflexivity.
Defined.

(** A payload without a [departures] key ends either run in the catch
    block, although the other payloads hold three feasible itineraries; with
    the empty list in its place the same run recommends them. *)
Lemma absent_departures_fail_the_run :
  Departures.handler IsoDate.iso_parse Samples.clock Samples.trains
    Samples.buses733 Samples.noDepartures Samples.noBuses Samples.busesGlenWaverley
  = Failed TypeError /\
  Server.handleAPI IsoDate.iso_parse Samples.clock Samples.trains
    Samples.buses733 Samples.noDepartures Samples.noBuses Samples.busesGlenWaverley
  = Failed TypeError /\
  exists r,
    Departures.handler IsoDate.iso_parse Samples.clock Samples.trains
      Samples.buses733 Samples.noBuses Samples.noBuses Samples.busesGlenWaverley
    = Recommend r /\
    List.map bus_route (allOptions r) = ["733"; "742"; "737"].
Proof.
  split; [vm_compute; reflexivity|]. split; [vm_compute; reflexivity|].
  eexists. split; [vm_compute; reflexivity|reflexivity].
Qed.

(** ** C5: records without a usable time *)

Lemma filter_map_comm {A B : Type} (f : A -> B) (p : B -> bool) (l : list A) :
  List.filter p (List.map f l) = List.map f (List.filter (fun a => p (f a)) l).
Proof.
  induction l as [|x l IH]; simpl; [reflexivity|].
  destruct (p (f x)); simpl; now rewrite IH.
Qed.









Section UntimedTrain.
Variable Date_parse : string -> option Z.









End UntimedTrain.




(** * Further properties *)

(** ** Both files as one run on candidates *)

Lemma earliestFrom_map {A B : Type} (f : A -> B) (tm : B -> Date) minTime (l : list A) :
  earliestFrom tm minTime (List.map f l)
  = option_map f (earliestFrom (fun a => tm (f a)) minTime l).
Proof.
  unfold earliestFrom. rewrite filter_map_comm, Array_sort_map, head_map.
  reflexivity.
Qed.

Lemma earliestFrom_ext {B : Type} (tm tm' : B -> Date) minTime (l : list B) :
  (forall b, tm b = tm' b) ->
  earliestFrom tm minTime l = earliestFrom tm' minTime l.
Proof.
  intros H. unfold earliestFrom.
  rewrite (filter_ext (fun b => Date_ge (tm b) minTime)
                      (fun b => Date_ge (tm' b) minTime))
    by (intros b; now rewrite H).
  f_equal. apply Array_sort_ext. intros x y _ _. unfold byDate. now rewrite !H.
Qed.

Lemma sameRun_bind {A B : Type} (c c' : M A) (k k' : A -> M B) :
  sameRun c c' -> (forall a, sameRun (k a) (k' a)) -> sameRun (bind c k) (bind c' k').
Proof.
  intros Hc Hk clock n. unfold bind. rewrite (Hc clock n).
  destruct (c' clock n) as [[a n']|e]; [apply Hk|reflexivity].
Qed.

Lemma sameRun_refl {A : Type} (c : M A) : sameRun c c.
Proof. intros clock n. reflexivity. Qed.

Lemma sameRun_trans {A : Type} (c1 c2 c3 : M A) :
  sameRun c1 c2 -> sameRun c2 c3 -> sameRun c1 c3.
Proof. intros H1 H2 clock n. now rewrite H1. Qed.

Section OneRun.
Variable Date_parse : string -> option Z.

(** The block of api/departures.js on a list of entries made from [ds]. *)
Lemma pushOption_optionBlock st arr route routes
    (mk : RawDeparture -> Departures.BusEntry) (ds : list RawDeparture) :
  (forall d, Departures.dep (mk d) = d) ->
  Departures.pushOption st arr route (BUS_TRAVEL_TIMES route)
    (Departures.findNextBus Date_parse (List.map mk ds) arr routes MIN_TRANSFER_TIME)
  = optionBlock Date_parse st arr route ds.
Proof.
  intros Hmk. rewrite findNextBus_earliest, map_map, earliestFrom_map.
  unfold optionBlock.
  replace (earliestFrom
             (fun a => Departures.departureTime
                         (Departures.withDepartureTime Date_parse (mk a)))
             (addMinutes arr MIN_TRANSFER_TIME) ds)
    with (earliestFrom (resolvedDate Date_parse)
            (addMinutes arr MIN_TRANSFER_TIME) ds).
  - destruct (earliestFrom _ _ ds) as [d|]; [|reflexivity].
    cbn [option_map Departures.pushOption]. unfold Departures.makeOption, assemble.
    cbn [Departures.departureTime Departures.withDepartureTime Departures.entry].
    now rewrite Hmk.
  - apply earliestFrom_ext. intros d.
    cbn [Departures.departureTime Departures.withDepartureTime Departures.entry].
    now rewrite Hmk.
Qed.

Lemma stopOptions_optionBlock st arr route (b : Payload) :
  sameRun (Departures.stopOptions Date_parse st arr route b)
          (let* ds := departuresOf b in optionBlock Date_parse st arr route ds).
Proof.
  intros clock n. unfold Departures.stopOptions, Departures.busList, departuresOf.
  destruct (departures b) as [ds|]; [|reflexivity].
  cbv beta delta [bind ret] iota. now rewrite pushOption_optionBlock.
Qed.

Lemma glenWaverleyBlock_optionBlock arr (b : Payload) :
  sameRun (Departures.glenWaverleyBlock Date_parse arr b)
          (let* ds := departuresOf b in
           let* o1 := optionBlock Date_parse glenWaverley arr "742"
                        (List.filter
                           (fun d => String.eqb
                                       (orDefault (Server.routeNumberOf (routes b) d)
                                                  "unknown") "742") ds) in
           let* o2 := optionBlock Date_parse glenWaverley arr "737"
                        (List.filter
                           (fun d => String.eqb
                                       (orDefault (Server.routeNumberOf (routes b) d)
                                                  "unknown") "737") ds) in
           ret (o1 ++ o2)).
Proof.
  intros clock n. unfold Departures.glenWaverleyBlock, Departures.busList, departuresOf.
  destruct (departures b) as [ds|]; [|reflexivity].
  cbv beta delta [bind ret] iota. cbn [Departures.glenWaverleyOptions].
  rewrite !filter_map_comm.
  change (if ("742" =? "742")%string then BUS_TRAVEL_TIMES "742"
          else BUS_TRAVEL_TIMES "737") with (BUS_TRAVEL_TIMES "742").
  change (if ("737" =? "742")%string then BUS_TRAVEL_TIMES "742"
          else BUS_TRAVEL_TIMES "737") with (BUS_TRAVEL_TIMES "737").
  rewrite !pushOption_optionBlock by reflexivity.
  cbv beta delta [bind ret] iota. cbn [Departures.routeNumber].
  unfold Server.routeNumberOf.
  destruct (optionBlock _ _ _ "742" _ clock n) as [[o1 n1]|e]; [|reflexivity].
  destruct (optionBlock _ _ _ "737" _ clock n1) as [[o2 n2]|e]; [|reflexivity].
  now rewrite app_nil_r.
Qed.

Lemma optionFor_optionBlock st arr route (p : Payload) :
  sameRun (Server.optionFor Date_parse st arr route p)
          (let* ds := departuresOf p in
           optionBlock Date_parse st arr route
             (List.filter (Server.onRoute [route] (routes p)) ds)).
Proof.
  intros clock n. unfold Server.optionFor, Server.findBus, departuresOf.
  destruct (departures p) as [ds|]; [|reflexivity].
  cbv beta delta [bind ret] iota.
  rewrite findBusIn_earliest, earliestFrom_map.
  unfold optionBlock.
  change (fun a => Server.time (Server.withTime Date_parse (routes p) a))
    with (resolvedDate Date_parse).
  destruct (earliestFrom _ _ _) as [d|]; reflexivity.
Qed.
End OneRun.

Section OneRunHandlers.
Variable Date_parse : string -> option Z.

Lemma outboundTrains_next ds :
  List.head (Departures.outboundTrains Date_parse ds)
  = option_map (Departures.withArrivalTime Date_parse) (nextOutbound Date_parse ds).
Proof.
  unfold Departures.outboundTrains, nextOutbound.
  now rewrite Array_sort_map, head_map.
Qed.

Lemma outbound_next ds :
  List.head (Server.outbound Date_parse ds)
  = option_map (Server.withArrivalTime Date_parse) (nextOutbound Date_parse ds).
Proof.
  unfold Server.outbound, nextOutbound.
  now rewrite Array_sort_map, head_map.
Qed.

Lemma getBusDepartures_kept wanted p l clock n :
  departures p = Some l ->
  Departures.getBusDepartures wanted p clock n = Return (kept wanted p, n).
Proof.
  intros E. unfold Departures.getBusDepartures, departuresOf, kept, listOf.
  now rewrite E.
Qed.

Lemma buildOptions_optionsFrom nt p1 p2 p3 p4 :
  sameRun
    (Departures.buildOptions Date_parse nt (kept ["733"] p1) (kept ["703"] p2)
       (kept ["737"] p3) (kept ["742"; "737"] p4))
    (optionsFrom Date_parse
       (Departures.trainArrivals nt mountWaverley)
       (Departures.trainArrivals nt syndal)
       (Departures.trainArrivals nt glenWaverley)
       (candidatesD mountWaverley "733" p1) (candidatesD syndal "703" p2)
       (candidatesD syndal "737" p3) (candidatesD glenWaverley "742" p4)
       (candidatesD glenWaverley "737" p4)).
Proof.
  unfold Departures.buildOptions, optionsFrom.
  apply sameRun_bind; [apply (stopOptions_optionBlock Date_parse _ _ _ (kept _ p1))|intros o1].
  apply sameRun_bind; [apply (stopOptions_optionBlock Date_parse _ _ _ (kept _ p2))|intros o2].
  apply sameRun_bind; [apply (stopOptions_optionBlock Date_parse _ _ _ (kept _ p3))|intros o3].
  intros clock n.
  unfold bind at 1. rewrite (glenWaverleyBlock_optionBlock Date_parse _ (kept _ p4) clock n).
  cbv beta delta [bind ret departuresOf kept departures routes] iota.
  unfold candidatesD.
  destruct (optionBlock _ glenWaverley _ "742" _ clock n) as [[o4 n4]|e]; [|reflexivity].
  destruct (optionBlock _ glenWaverley _ "737" _ clock n4) as [[o5 n5]|e]; reflexivity.
Qed.

Lemma handler_respondWith clock trains p1 p2 p3 p4 ds :
  departures trains = Some ds ->
  departures p1 <> None -> departures p2 <> None ->
  departures p3 <> None -> departures p4 <> None ->
  Departures.handler Date_parse clock trains p1 p2 p3 p4
  = respond
      (respondWith Date_parse ds
         (candidatesD mountWaverley "733" p1) (candidatesD syndal "703" p2)
         (candidatesD syndal "737" p3) (candidatesD glenWaverley "742" p4)
         (candidatesD glenWaverley "737" p4)) clock.
Proof.
  intros Eds H1 H2 H3 H4.
  destruct (departures p1) as [l1|] eqn:E1; [|contradiction].
  destruct (departures p2) as [l2|] eqn:E2; [|contradiction].
  destruct (departures p3) as [l3|] eqn:E3; [|contradiction].
  destruct (departures p4) as [l4|] eqn:E4; [|contradiction].
  unfold Departures.handler, respond. f_equal.
  unfold Departures.handlerBody.
  rewrite (bind_eq _ _ _ _ _ _ (getBusDepartures_kept _ _ _ clock 0%nat E1)),
          (bind_eq _ _ _ _ _ _ (getBusDepartures_kept _ _ _ clock 0%nat E2)),
          (bind_eq _ _ _ _ _ _ (getBusDepartures_kept _ _ _ clock 0%nat E3)),
          (bind_eq _ _ _ _ _ _ (getBusDepartures_kept _ _ _ clock 0%nat E4)).
  unfold Departures.compute, respondWith.
  rewrite (bind_eq _ _ _ _ _ _ (departuresOf_eq _ _ clock 0%nat Eds)).
  rewrite outboundTrains_next.
  destruct (nextOutbound Date_parse ds) as [d|]; [|reflexivity].
  cbn [option_map]. unfold bind at 1 3.
  rewrite (buildOptions_optionsFrom _ p1 p2 p3 p4 clock 0%nat).
  reflexivity.
Qed.

Lemma optionsFrom_server nt p1 p2 p3 p4 :
  departures p1 <> None -> departures p2 <> None ->
  departures p3 <> None -> departures p4 <> None ->
  sameRun
    (Server.buildOptions Date_parse nt p1 p2 p3 p4)
    (optionsFrom Date_parse
       (Server.trainArrivals nt mountWaverley)
       (Server.trainArrivals nt syndal)
       (Server.trainArrivals nt glenWaverley)
       (candidatesS "733" p1) (candidatesS "703" p2) (candidatesS "737" p3)
       (candidatesS "742" p4) (candidatesS "737" p4)).
Proof.
  intros H1 H2 H3 H4.
  assert (Hblock : forall st arr route p, departures p <> None ->
    sameRun (Server.optionFor Date_parse st arr route p)
            (optionBlock Date_parse st arr route (candidatesS route p))).
  { intros st arr route p Hp clock n. rewrite optionFor_optionBlock.
    unfold candidatesS, listOf, departuresOf.
    destruct (departures p); [reflexivity|contradiction]. }
  unfold Server.buildOptions, optionsFrom.
  repeat (apply sameRun_bind; [now apply Hblock|intros ?]).
  apply sameRun_refl.
Qed.

(** server.mjs is the common run as well, with the catch block it has: what
    the run throws once the blocks have returned is thrown after
    [res.writeHead(200, ...)]. *)
Lemma handleAPI_respondWith clock trains p1 p2 p3 p4 ds :
  departures trains = Some ds ->
  departures p1 <> None -> departures p2 <> None ->
  departures p3 <> None -> departures p4 <> None ->
  Server.handleAPI Date_parse clock trains p1 p2 p3 p4
  = catchAfter
      (sentWith Date_parse ds
         (candidatesS "733" p1) (candidatesS "703" p2) (candidatesS "737" p3)
         (candidatesS "742" p4) (candidatesS "737" p4) clock)
      (respond
         (respondWith Date_parse ds
            (candidatesS "733" p1) (candidatesS "703" p2) (candidatesS "737" p3)
            (candidatesS "742" p4) (candidatesS "737" p4)) clock).
Proof.
  intros Eds H1 H2 H3 H4.
  unfold Server.handleAPI, Server.beforeWriteHead, respond, respondWith, sentWith.
  rewrite (bind_eq _ _ _ _ _ _ (departuresOf_eq _ _ clock 0%nat Eds)).
  rewrite outbound_next.
  destruct (nextOutbound Date_parse ds) as [d|]; [|reflexivity].
  cbn [option_map]. cbv zeta. unfold bind at 1 2.
  rewrite (optionsFrom_server _ p1 p2 p3 p4 H1 H2 H3 H4 clock 0%nat).
  change (Server.trainArrivals (Server.withArrivalTime Date_parse d) mountWaverley)
    with (resolvedDate Date_parse d).
  change (Server.trainArrivals (Server.withArrivalTime Date_parse d) syndal)
    with (addMinutes (resolvedDate Date_parse d) (TRAIN_TRAVEL_FROM_MT_WAVERLEY syndal)).
  change (Server.trainArrivals (Server.withArrivalTime Date_parse d) glenWaverley)
    with (addMinutes (resolvedDate Date_parse d)
            (TRAIN_TRAVEL_FROM_MT_WAVERLEY glenWaverley)).
  destruct (optionsFrom _ _ _ _ _ _ _ _ _ clock 0%nat) as [[opts n]|e]; [|reflexivity].
  unfold ret at 1. unfold Server.afterWriteHead. cbv zeta.
  change (Server.trainArrivals (Server.withArrivalTime Date_parse d) mountWaverley)
    with (resolvedDate Date_parse d).
  change (Server.trainArrivals (Server.withArrivalTime Date_parse d) syndal)
    with (addMinutes (resolvedDate Date_parse d) (TRAIN_TRAVEL_FROM_MT_WAVERLEY syndal)).
  change (Server.trainArrivals (Server.withArrivalTime Date_parse d) glenWaverley)
    with (addMinutes (resolvedDate Date_parse d)
            (TRAIN_TRAVEL_FROM_MT_WAVERLEY glenWaverley)).
  unfold bind, Date_now, toISOString, ret, throw.
  destruct (resolvedDate Date_parse d) as [t|]; [|reflexivity].
  destruct (addMinutes (Some t) (TRAIN_TRAVEL_FROM_MT_WAVERLEY syndal));
    [|reflexivity].
  destruct (addMinutes (Some t) (TRAIN_TRAVEL_FROM_MT_WAVERLEY glenWaverley));
    reflexivity.
Qed.
End OneRunHandlers.

(** ** The anatomy of the common run *)

Lemma assemble_Return st arr route busTime clock n o n' :
  assemble st arr route busTime clock n = Return (o, n') ->
  n' = S n /\
  exists ta bd,
    arr = Some ta /\ busTime = Some bd /\
    Z.abs (bd + BUS_TRAVEL_TIMES route * 60 * 1000) <= maxTime /\
    o = optionObject st ta route bd (BUS_TRAVEL_TIMES route)
          (bd + BUS_TRAVEL_TIMES route * 60 * 1000) (clock n).
Proof.
  unfold assemble. intros H. run_inv H. split; [reflexivity|].
  rewrite E0 in E1. apply TimeClip_Some in E1 as [-> Hr].
  exists a, a0. auto.
Qed.

Lemma optionBlock_Return Date_parse st arr route cands clock n os n' :
  optionBlock Date_parse st arr route cands clock n = Return (os, n') ->
  blockOutcome Date_parse st arr route cands (clock n) os /\
  n' = (n + length os)%nat.
Proof.
  unfold optionBlock, blockOutcome.
  destruct (earliestFrom _ _ cands) as [d|]; intros H.
  - apply bind_Return in H as (o & n1 & Ho & H). run_inv H.
    apply assemble_Return in Ho as (-> & ta & bd & Ea & Eb & _ & ->).
    split; [eauto|simpl; lia].
  - run_inv H. split; [reflexivity|simpl; lia].
Qed.

Lemma blockOutcome_short Date_parse st arr route cands now os :
  blockOutcome Date_parse st arr route cands now os -> (length os <= 1)%nat.
Proof.
  unfold blockOutcome. destruct (earliestFrom _ _ _).
  - intros (ta & bd & _ & _ & ->). simpl; lia.
  - intros ->. simpl; lia.
Qed.

(** An option of a block: its place, its candidate, its numbers. *)
Lemma blockOutcome_In Date_parse st arr route cands now os o :
  blockOutcome Date_parse st arr route cands now os -> In o os ->
  exists d ta bd,
    In d cands /\ arr = Some ta /\ resolvedDate Date_parse d = Some bd /\
    ta + MIN_TRANSFER_TIME * 60 * 1000 <= bd /\
    (forall d' t', In d' cands -> resolvedDate Date_parse d' = Some t' ->
       ta + MIN_TRANSFER_TIME * 60 * 1000 <= t' -> bd <= t') /\
    o = optionObject st ta route bd (BUS_TRAVEL_TIMES route)
          (bd + BUS_TRAVEL_TIMES route * 60 * 1000) now.
Proof.
  unfold blockOutcome.
  destruct (earliestFrom _ _ cands) as [d|] eqn:E; [|intros -> []].
  intros (ta & bd & Ea & Eb & ->) [<-|[]].
  apply earliestFrom_Some in E as (Hin & t & thr & Et & Ethr & Hle & Hmin).
  rewrite Ea in Ethr. apply addMinutes_Some in Ethr as (a' & [= <-] & -> & _).
  rewrite Eb in Et. injection Et as <-.
  exists d, ta, bd. repeat split; auto.
Qed.

Lemma optionsFrom_Return Date_parse a1 a2 a3 c1 c2 c3 c4 c5 clock n opts n' :
  optionsFrom Date_parse a1 a2 a3 c1 c2 c3 c4 c5 clock n = Return (opts, n') ->
  exists o1 o2 o3 o4 o5 n1 n2 n3 n4 n5,
    opts = o1 ++ o2 ++ o3 ++ o4 ++ o5 /\
    n' = (n + length opts)%nat /\
    blockOutcome Date_parse mountWaverley a1 "733" c1 (clock n1) o1 /\
    blockOutcome Date_parse syndal a2 "703" c2 (clock n2) o2 /\
    blockOutcome Date_parse syndal a2 "737" c3 (clock n3) o3 /\
    blockOutcome Date_parse glenWaverley a3 "742" c4 (clock n4) o4 /\
    blockOutcome Date_parse glenWaverley a3 "737" c5 (clock n5) o5 /\
    n1 = n /\ n2 = (n1 + length o1)%nat /\ n3 = (n2 + length o2)%nat /\
    n4 = (n3 + length o3)%nat /\ n5 = (n4 + length o4)%nat.
Proof.
  unfold optionsFrom. intros H.
  apply bind_Return in H as (o1 & m1 & H1 & H).
  apply bind_Return in H as (o2 & m2 & H2 & H).
  apply bind_Return in H as (o3 & m3 & H3 & H).
  apply bind_Return in H as (o4 & m4 & H4 & H).
  apply bind_Return in H as (o5 & m5 & H5 & H).
  run_inv H.
  apply optionBlock_Return in H1 as [B1 ->], H2 as [B2 ->], H3 as [B3 ->],
    H4 as [B4 ->], H5 as [B5 ->].
  exists o1, o2, o3, o4, o5, n, (n + length o1)%nat, (n + length o1 + length o2)%nat,
    (n + length o1 + length o2 + length o3)%nat,
    (n + length o1 + length o2 + length o3 + length o4)%nat.
  repeat split; try assumption.
  rewrite !length_app. lia.
Qed.

Lemma respondWith_Recommend Date_parse ds c1 c2 c3 c4 c5 clock r :
  respond (respondWith Date_parse ds c1 c2 c3 c4 c5) clock = Recommend r ->
  exists d t opts,
    nextOutbound Date_parse ds = Some d /\
    resolvedDate Date_parse d = Some t /\
    atMountWaverley (nextTrain r) = t /\
    addMinutes (Some t) (TRAIN_TRAVEL_FROM_MT_WAVERLEY syndal)
    = Some (atSyndal (nextTrain r)) /\
    addMinutes (Some t) (TRAIN_TRAVEL_FROM_MT_WAVERLEY glenWaverley)
    = Some (atGlenWaverley (nextTrain r)) /\
    optionsFrom Date_parse (Some t) (Some (atSyndal (nextTrain r)))
      (Some (atGlenWaverley (nextTrain r))) c1 c2 c3 c4 c5 clock 0%nat
    = Return (opts, length opts) /\
    allOptions r = Array_sort byArrivalAtMonash opts /\
    recommendation r = List.head (allOptions r) /\
    timestamp r = clock (length opts).
Proof.
  intros H. apply respond_Recommend in H as [n H]. unfold respondWith in H.
  destruct (nextOutbound Date_parse ds) as [d|];
    [|apply bind_Return in H as (? & ? & _ & H); discriminate H].
  apply bind_Return in H as (opts & n1 & Hopts & H). run_inv H.
  pose proof (optionsFrom_Return _ _ _ _ _ _ _ _ _ _ _ _ _ Hopts)
    as (_ & _ & _ & _ & _ & _ & _ & _ & _ & _ & _ & -> & _).
  exists d, a, opts. simpl. rewrite E, E0, E1 in *. repeat split; auto.
Qed.

(** ** A recommendation, block by block *)

Lemma strictEq_true x num : strictEq x num = true -> x = Some num.
Proof.
  destruct x as [s|]; simpl; [|discriminate].
  intros H. apply String.eqb_eq in H. now subst.
Qed.

Lemma wantedRoute_true p wanted d :
  Departures.wantedRoute p wanted d = true ->
  exists rt num,
    routeOf (routes p) (route_id d) = Some rt /\ In num wanted /\
    (route_number rt = Some num \/ route_short_name rt = Some num).
Proof.
  unfold Departures.wantedRoute.
  destruct (routeOf (routes p) (route_id d)) as [rt|]; [|discriminate].
  intros H. apply existsb_exists in H as (num & Hnum & H).
  exists rt, num. repeat split; auto.
  apply orb_true_iff in H as [H|H]; apply strictEq_true in H; auto.
Qed.

Lemma onRoute_true routes routeData d :
  Server.onRoute routes routeData d = true ->
  exists rt num,
    routeOf routeData (route_id d) = Some rt /\ In num routes /\
    route_number rt = Some num.
Proof.
  unfold Server.onRoute, Server.routeNumberOf. intros H.
  apply existsb_exists in H as (num & Hnum & H). apply strictEq_true in H.
  destruct (routeOf routeData (route_id d)) as [rt|]; [|discriminate]. eauto.
Qed.

Lemma orDefault_unknown x route :
  String.eqb (orDefault x "unknown") route = true ->
  route <> "unknown" -> x = Some route.
Proof.
  intros H Hne. apply String.eqb_eq in H. unfold orDefault in H.
  destruct x as [s|]; [|congruence].
  destruct (String.eqb s ""); congruence.
Qed.

Lemma strictEq_Some s num : strictEq (Some s) num = true <-> s = num.
Proof. simpl. apply String.eqb_eq. Qed.

(** The candidates of a block are the departures of its feed that run on
    its route. *)
Lemma candidates_served f st route p p1 p2 p3 p4 d :
  In (st, route, p) (blocksOf p1 p2 p3 p4) ->
  In d (candidates f st route p) <-> In d (listOf p) /\ served f st route p d.
Proof.
  intros Hb. unfold served. destruct f; simpl candidates.
  - assert (Hplain : st <> glenWaverley ->
              In d (List.filter (Departures.wantedRoute p [route]) (listOf p)) <->
              In d (listOf p) /\
              exists rt, routeOf (routes p) (route_id d) = Some rt /\
                (route_number rt = Some route \/
                 (ApiDepartures = ApiDepartures /\ st <> glenWaverley /\
                  route_short_name rt = Some route))).
    { intros Hst. rewrite filter_In. apply and_iff_compat_l.
      unfold Departures.wantedRoute.
      destruct (routeOf (routes p) (route_id d)) as [rt|]; simpl.
      - rewrite orb_false_r, orb_true_iff. split.
        + intros [H|H]; apply strictEq_true in H; exists rt; auto.
        + intros (rt' & [= <-] & [H|(_ & _ & H)]); rewrite H; simpl;
            rewrite String.eqb_refl; auto.
      - split; [discriminate|]. intros (rt & E & _). discriminate. }
    assert (Hgw : forall r, In r ["742"; "737"] ->
              In d (candidatesD glenWaverley r p) <->
              In d (listOf p) /\
              exists rt, routeOf (routes p) (route_id d) = Some rt /\
                (route_number rt = Some r \/
                 (ApiDepartures = ApiDepartures /\ glenWaverley <> glenWaverley /\
                  route_short_name rt = Some r))).
    { intros r Hr. unfold candidatesD. rewrite !filter_In.
      unfold Departures.wantedRoute, Server.routeNumberOf.
      destruct (routeOf (routes p) (route_id d)) as [rt|].
      - split.
        + intros [[Hin _] Hnum]. split; [exact Hin|]. exists rt. split; [reflexivity|].
          left. apply orDefault_unknown in Hnum; [exact Hnum|].
          destruct Hr as [<-|[<-|[]]]; discriminate.
        + intros (Hin & rt' & [= <-] & [H|(_ & Hne & _)]); [|now destruct Hne].
          rewrite H. split; [split; [exact Hin|]|].
          * destruct Hr as [<-|[<-|[]]]; simpl;
              destruct (strictEq (route_short_name rt) "742"); reflexivity.
          * destruct Hr as [<-|[<-|[]]]; reflexivity.
      - split.
        + intros [[_ H] _]. discriminate H.
        + intros (_ & rt & E & _). discriminate E. }
    simpl in Hb.
    destruct Hb as [E|[E|[E|[E|[E|[]]]]]]; injection E as <- <- <-;
      first [ apply Hplain; discriminate
            | apply Hgw; simpl; auto ].
  - unfold candidatesS. rewrite filter_In. apply and_iff_compat_l.
    unfold Server.onRoute, Server.routeNumberOf. simpl. rewrite orb_false_r.
    destruct (routeOf (routes p) (route_id d)) as [rt|].
    + split.
      * intros H. apply strictEq_true in H. eauto.
      * intros (rt' & [= <-] & [H|(H & _)]); [|discriminate H].
        rewrite H. simpl. apply String.eqb_refl.
    + split; [discriminate|]. intros (rt & E & _). discriminate E.
Qed.

Lemma catchAfter_Recommend sent x r :
  catchAfter sent x = Recommend r -> x = Recommend r.
Proof. destruct x as [| | |]; simpl; [easy|easy|now destruct sent|easy]. Qed.

Lemma catchAfter_NoUpcomingTrains sent x ts :
  catchAfter sent x = NoUpcomingTrains ts -> x = NoUpcomingTrains ts.
Proof. destruct x as [| | |]; simpl; [easy|easy|now destruct sent|easy]. Qed.

Section RunAnatomy.
Variable Date_parse : string -> option Z.

Lemma handler_present clock trains p1 p2 p3 p4 r :
  Departures.handler Date_parse clock trains p1 p2 p3 p4 = Recommend r ->
  (exists ds, departures trains = Some ds) /\
  departures p1 <> None /\ departures p2 <> None /\
  departures p3 <> None /\ departures p4 <> None.
Proof.
  intros H. split.
  - apply handler_Recommend in H as (b1 & b2 & b3 & b4 & n & H & _).
    apply compute_Recommend in H as (ds & _ & _ & _ & E & _). eauto.
  - unfold Departures.handler, respond, Departures.handlerBody,
      Departures.getBusDepartures, departuresOf, bind in H.
    destruct (departures p1), (departures p2), (departures p3), (departures p4);
      simpl in H; try discriminate H; repeat split; discriminate.
Qed.

Lemma optionFor_present st arr route p clock n os n' :
  Server.optionFor Date_parse st arr route p clock n = Return (os, n') ->
  departures p <> None.
Proof.
  unfold Server.optionFor. intros H.
  apply bind_Return in H as (found & n1 & Hf & _).
  apply findBus_Return in Hf as (_ & ds & E & _). congruence.
Qed.

Lemma handleAPI_present clock trains p1 p2 p3 p4 r :
  Server.handleAPI Date_parse clock trains p1 p2 p3 p4 = Recommend r ->
  (exists ds, departures trains = Some ds) /\
  departures p1 <> None /\ departures p2 <> None /\
  departures p3 <> None /\ departures p4 <> None.
Proof.
  intros H. apply handleAPI_Recommend in H as [n H].
  apply handleAPIBody_Recommend in H as (ds & nt & opts & n1 & E & _ & Hb & _).
  split; [eauto|].
  unfold Server.buildOptions in Hb.
  apply bind_Return in Hb as (o1 & m1 & H1 & Hb).
  apply bind_Return in Hb as (o2 & m2 & H2 & Hb).
  apply bind_Return in Hb as (o3 & m3 & H3 & Hb).
  apply bind_Return in Hb as (o4 & m4 & H4 & Hb).
  apply optionFor_present in H1, H2, H3, H4. auto.
Qed.

(** Either file, when it recommends, is the common run on its candidates. *)
Lemma run_respondWith f clock trains p1 p2 p3 p4 r :
  run f Date_parse clock trains p1 p2 p3 p4 = Recommend r ->
  exists ds,
    departures trains = Some ds /\
    respond
      (respondWith Date_parse ds
         (candidates f mountWaverley "733" p1) (candidates f syndal "703" p2)
         (candidates f syndal "737" p3) (candidates f glenWaverley "742" p4)
         (candidates f glenWaverley "737" p4)) clock
    = Recommend r.
Proof.
  destruct f; unfold run, candidates; intros H.
  - pose proof (handler_present _ _ _ _ _ _ _ H) as ([ds E] & H1 & H2 & H3 & H4).
    exists ds. split; [exact E|].
    now rewrite <- (handler_respondWith Date_parse clock trains p1 p2 p3 p4 ds E H1 H2 H3 H4).
  - pose proof (handleAPI_present _ _ _ _ _ _ _ H) as ([ds E] & H1 & H2 & H3 & H4).
    exists ds. split; [exact E|].
    rewrite (handleAPI_respondWith Date_parse clock trains p1 p2 p3 p4 ds E H1 H2 H3 H4)
      in H.
    now apply catchAfter_Recommend in H.
Qed.

(** The blocks behind a recommendation, and the clock reads of each. *)
Lemma run_blocks f clock trains p1 p2 p3 p4 r :
  run f Date_parse clock trains p1 p2 p3 p4 = Recommend r ->
  let arr s := Some (arrivalAt (nextTrain r) s) in
  exists o1 o2 o3 o4 o5 n1 n2 n3 n4 n5,
    allOptions r = Array_sort byArrivalAtMonash (o1 ++ o2 ++ o3 ++ o4 ++ o5) /\
    recommendation r = List.head (allOptions r) /\
    timestamp r = clock (length (allOptions r)) /\
    blockOutcome Date_parse mountWaverley (arr mountWaverley) "733"
      (candidates f mountWaverley "733" p1) (clock n1) o1 /\
    blockOutcome Date_parse syndal (arr syndal) "703"
      (candidates f syndal "703" p2) (clock n2) o2 /\
    blockOutcome Date_parse syndal (arr syndal) "737"
      (candidates f syndal "737" p3) (clock n3) o3 /\
    blockOutcome Date_parse glenWaverley (arr glenWaverley) "742"
      (candidates f glenWaverley "742" p4) (clock n4) o4 /\
    blockOutcome Date_parse glenWaverley (arr glenWaverley) "737"
      (candidates f glenWaverley "737" p4) (clock n5) o5 /\
    n1 = 0%nat /\ n2 = (n1 + length o1)%nat /\ n3 = (n2 + length o2)%nat /\
    n4 = (n3 + length o3)%nat /\ n5 = (n4 + length o4)%nat.
Proof.
  intros H. cbv zeta.
  apply run_respondWith in H as (ds & _ & H).
  apply respondWith_Recommend in H
    as (d & t & opts & _ & _ & Et & _ & _ & Hopts & Eall & Erec & Ets).
  apply optionsFrom_Return in Hopts
    as (o1 & o2 & o3 & o4 & o5 & n1 & n2 & n3 & n4 & n5 & -> & _ & B).
  subst t. exists o1, o2, o3, o4, o5, n1, n2, n3, n4, n5.
  split; [exact Eall|]. split; [exact Erec|]. split; [|exact B].
  rewrite Ets, Eall. f_equal.
  apply Permutation_length, Array_sort_perm.
Qed.

(** An option of a recommendation: its block, its candidate, its numbers. *)
Lemma run_option f clock trains p1 p2 p3 p4 r o :
  run f Date_parse clock trains p1 p2 p3 p4 = Recommend r ->
  In o (allOptions r) ->
  exists st route p d bd i,
    In (st, route, p) (blocksOf p1 p2 p3 p4) /\
    In d (candidates f st route p) /\
    resolvedDate Date_parse d = Some bd /\
    arrivalAt (nextTrain r) st + MIN_TRANSFER_TIME * 60 * 1000 <= bd /\
    (forall d' t', In d' (candidates f st route p) ->
       resolvedDate Date_parse d' = Some t' ->
       arrivalAt (nextTrain r) st + MIN_TRANSFER_TIME * 60 * 1000 <= t' -> bd <= t') /\
    (i < length (allOptions r))%nat /\
    o = optionObject st (arrivalAt (nextTrain r) st) route bd (BUS_TRAVEL_TIMES route)
          (bd + BUS_TRAVEL_TIMES route * 60 * 1000) (clock i).
Proof.
  intros H Ho.
  apply run_blocks in H
    as (o1 & o2 & o3 & o4 & o5 & n1 & n2 & n3 & n4 & n5 & Eall & _ & _ &
        B1 & B2 & B3 & B4 & B5 & N1 & N2 & N3 & N4 & N5).
  assert (Elen : length (allOptions r)
                 = (length o1 + length o2 + length o3 + length o4 + length o5)%nat).
  { rewrite Eall.
    rewrite <- (Permutation_length (Array_sort_perm byArrivalAtMonash _)).
    rewrite !length_app. lia. }
  rewrite Eall in Ho. apply Array_sort_In in Ho.
  assert (Hone : forall st route cands n os,
            blockOutcome Date_parse st (Some (arrivalAt (nextTrain r) st)) route cands
              (clock n) os ->
            In o os ->
            (0 < length os)%nat /\
            exists d bd,
              In d cands /\ resolvedDate Date_parse d = Some bd /\
              arrivalAt (nextTrain r) st + MIN_TRANSFER_TIME * 60 * 1000 <= bd /\
              (forall d' t', In d' cands -> resolvedDate Date_parse d' = Some t' ->
                 arrivalAt (nextTrain r) st + MIN_TRANSFER_TIME * 60 * 1000 <= t' ->
                 bd <= t') /\
              o = optionObject st (arrivalAt (nextTrain r) st) route bd
                    (BUS_TRAVEL_TIMES route)
                    (bd + BUS_TRAVEL_TIMES route * 60 * 1000) (clock n)).
  { intros st route cands n os B Hin.
    split; [destruct os; [destruct Hin|simpl; lia]|].
    destruct (blockOutcome_In _ _ _ _ _ _ _ _ B Hin)
      as (d & ta & bd & Hd & [= <-] & Eb & Hle & Hmin & ->).
    exists d, bd. auto. }
  rewrite !in_app_iff in Ho.
  destruct Ho as [Ho|[Ho|[Ho|[Ho|Ho]]]].
  - destruct (Hone _ _ _ _ _ B1 Ho) as (L & d & bd & F1 & F2 & F3 & F4 & F5).
    exists mountWaverley, "733", p1, d, bd, n1.
    repeat split; try assumption; [simpl; auto|lia].
  - destruct (Hone _ _ _ _ _ B2 Ho) as (L & d & bd & F1 & F2 & F3 & F4 & F5).
    exists syndal, "703", p2, d, bd, n2.
    repeat split; try assumption; [simpl; auto|lia].
  - destruct (Hone _ _ _ _ _ B3 Ho) as (L & d & bd & F1 & F2 & F3 & F4 & F5).
    exists syndal, "737", p3, d, bd, n3.
    repeat split; try assumption; [simpl; auto|lia].
  - destruct (Hone _ _ _ _ _ B4 Ho) as (L & d & bd & F1 & F2 & F3 & F4 & F5).
    exists glenWaverley, "742", p4, d, bd, n4.
    repeat split; try assumption; [simpl; auto|lia].
  - destruct (Hone _ _ _ _ _ B5 Ho) as (L & d & bd & F1 & F2 & F3 & F4 & F5).
    exists glenWaverley, "737", p4, d, bd, n5.
    repeat split; try assumption; [simpl; auto 6|lia].
Qed.
End RunAnatomy.

(** * Further properties of the responses *)

(** ** What an itinerary is made of *)

Lemma blocksOf_pair p1 p2 p3 p4 st route p p' :
  In (st, route, p) (blocksOf p1 p2 p3 p4) ->
  In (st, route, p') (blocksOf p1 p2 p3 p4) -> p = p'.
Proof.
  simpl. intros [E|[E|[E|[E|[E|[]]]]]] [E'|[E'|[E'|[E'|[E'|[]]]]]];
    injection E as <- <- <-; congruence.
Qed.

Lemma stationName_inj s s' : stationName s = stationName s' -> s = s'.
Proof. destruct s, s'; simpl; congruence. Qed.

(** X1. The bus of an itinerary runs on the route the itinerary names: it is a
    departure of the feed of its station/route pair, and the routes table of
    that feed gives its route the number of the pair; api/departures.js also
    accepts, away from Glen Waverley, a route whose short name is that
    number.  The departure time printed is the resolved time of that
    departure. *)
Theorem options_ride_their_route (f : File) (Date_parse : string -> option Z)
    (clock : nat -> Z) (trains mw733 syn703 syn737 gw : Payload)
    (r : RecommendationResult) (o : Itinerary) :
  run f Date_parse clock trains mw733 syn703 syn737 gw = Recommend r ->
  In o (allOptions r) ->
  exists st route p d,
    In (st, route, p) (blocksOf mw733 syn703 syn737 gw) /\
    station o = stationName st /\ bus_route o = route /\
    In d (listOf p) /\ served f st route p d /\
    resolvedDate Date_parse d = Some (bus_departure o).
Proof.
  intros H Ho.
  destruct (run_option _ _ _ _ _ _ _ _ _ _ H Ho)
    as (st & route & p & d & bd & i & Hb & Hd & Ebd & _ & _ & _ & ->).
  apply (candidates_served _ _ _ _ _ _ _ _ _ Hb) in Hd as (Hin & Hs).
  exists st, route, p, d. simpl. repeat split; assumption.
Qed.

Lemma options_ride_their_route_witness :
  exists r,
    run ServerMjs IsoDate.iso_parse Samples.clock Samples.trains
      Samples.buses733 Samples.noBuses Samples.noBuses Samples.busesGlenWaverley
    = Recommend r /\
    length (allOptions r) = 3%nat /\
    forall o, In o (allOptions r) ->
      exists st route p d,
        In (st, route, p)
          (blocksOf Samples.buses733 Samples.noBuses Samples.noBuses
             Samples.busesGlenWaverley) /\
        station o = stationName st /\ bus_route o = route /\
        In d (listOf p) /\ served ServerMjs st route p d /\
        resolvedDate IsoDate.iso_parse d = Some (bus_departure o).
Proof.
  eexists. split; [vm_compute; reflexivity|]. split; [reflexivity|].
  intros o Ho.
  eapply (options_ride_their_route ServerMjs IsoDate.iso_parse Samples.clock
           Samples.trains Samples.buses733 Samples.noBuses Samples.noBuses
           Samples.busesGlenWaverley _ o); [vm_compute; reflexivity|exact Ho].
Defined.

(** X2. The numbers of an itinerary: the travel time is the entry of
    BUS_TRAVEL_TIMES for its route, the arrival at Monash is the bus
    departure plus that many minutes, and so lies at least the transfer
    time plus the travel time after the arrival of the train. *)
Theorem itinerary_arithmetic (f : File) (Date_parse : string -> option Z)
    (clock : nat -> Z) (trains mw733 syn703 syn737 gw : Payload)
    (r : RecommendationResult) (o : Itinerary) :
  run f Date_parse clock trains mw733 syn703 syn737 gw = Recommend r ->
  In o (allOptions r) ->
  In (bus_route o, bus_travelTime o) [("733", 17); ("703", 13); ("737", 15); ("742", 12)] /\
  arrivalAtMonash o = bus_departure o + bus_travelTime o * 60 * 1000 /\
  trainArrival o + (MIN_TRANSFER_TIME + bus_travelTime o) * 60 * 1000
  <= arrivalAtMonash o.
Proof.
  intros H Ho.
  destruct (run_option _ _ _ _ _ _ _ _ _ _ H Ho)
    as (st & route & p & d & bd & i & Hb & _ & _ & Hle & _ & _ & ->).
  simpl. split; [|split; [reflexivity|lia]].
  destruct Hb as [E|[E|[E|[E|[E|[]]]]]]; injection E as <- <- <-;
    vm_compute; tauto.
Qed.

Lemma itinerary_arithmetic_witness :
  exists r,
    run ApiDepartures IsoDate.iso_parse Samples.clock Samples.trains
      Samples.buses733 Samples.noBuses Samples.noBuses Samples.busesGlenWaverley
    = Recommend r /\
    length (allOptions r) = 3%nat /\
    forall o, In o (allOptions r) ->
      In (bus_route o, bus_travelTime o)
        [("733", 17); ("703", 13); ("737", 15); ("742", 12)] /\
      arrivalAtMonash o = bus_departure o + bus_travelTime o * 60 * 1000 /\
      trainArrival o + (MIN_TRANSFER_TIME + bus_travelTime o) * 60 * 1000
      <= arrivalAtMonash o.
Proof.
  eexists. split; [vm_compute; reflexivity|]. split; [reflexivity|].
  intros o Ho.
  eapply (itinerary_arithmetic ApiDepartures IsoDate.iso_parse Samples.clock
           Samples.trains Samples.buses733 Samples.noBuses Samples.noBuses
           Samples.busesGlenWaverley _ o); [vm_compute; reflexivity|exact Ho].
Defined.

(** ** The clock *)

Lemma Math_round_div60000_mono x y :
  x <= y -> Math_round_div60000 x <= Math_round_div60000 y.
Proof. intros H. unfold Math_round_div60000. apply Z.div_le_mono; lia. Qed.

(** The arrival at Monash of an option is a time value: its ISO string was
    made. *)
Lemma optionBlock_range Date_parse st arr route cands clock n os n' :
  optionBlock Date_parse st arr route cands clock n = Return (os, n') ->
  forall o, In o os -> Z.abs (arrivalAtMonash o) <= maxTime.
Proof.
  unfold optionBlock. destruct (earliestFrom _ _ cands) as [d|]; intros H.
  - apply bind_Return in H as (o & n1 & Ho & H). run_inv H.
    apply assemble_Return in Ho as (_ & ta & bd & _ & _ & Hr & ->).
    intros o [<-|[]]. exact Hr.
  - run_inv H. intros o [].
Qed.

Lemma optionsFrom_range Date_parse a1 a2 a3 c1 c2 c3 c4 c5 clock n opts n' :
  optionsFrom Date_parse a1 a2 a3 c1 c2 c3 c4 c5 clock n = Return (opts, n') ->
  forall o, In o opts -> Z.abs (arrivalAtMonash o) <= maxTime.
Proof.
  unfold optionsFrom. intros H.
  apply bind_Return in H as (o1 & m1 & H1 & H).
  apply bind_Return in H as (o2 & m2 & H2 & H).
  apply bind_Return in H as (o3 & m3 & H3 & H).
  apply bind_Return in H as (o4 & m4 & H4 & H).
  apply bind_Return in H as (o5 & m5 & H5 & H).
  run_inv H. intros o Ho. rewrite !in_app_iff in Ho.
  destruct Ho as [Ho|[Ho|[Ho|[Ho|Ho]]]];
    eauto using optionBlock_range.
Qed.

Lemma run_arrival_range Date_parse f clock trains p1 p2 p3 p4 r o :
  run f Date_parse clock trains p1 p2 p3 p4 = Recommend r ->
  In o (allOptions r) -> Z.abs (arrivalAtMonash o) <= maxTime.
Proof.
  intros H Ho. apply run_respondWith in H as (ds & _ & H).
  apply respondWith_Recommend in H
    as (d & t & opts & _ & _ & _ & _ & _ & Hopts & Eall & _).
  rewrite Eall in Ho. apply Array_sort_In in Ho.
  exact (optionsFrom_range _ _ _ _ _ _ _ _ _ _ _ _ _ Hopts o Ho).
Qed.

Lemma blockOutcome_cases Date_parse st arr route cands now os :
  blockOutcome Date_parse st arr route cands now os ->
  os = [] \/ exists ta bd am, os = [optionObject st ta route bd (BUS_TRAVEL_TIMES route) am now].
Proof.
  unfold blockOutcome. destruct (earliestFrom _ _ _).
  - intros (ta & bd & _ & _ & ->). right. eauto.
  - intros ->. now left.
Qed.

(** The options in the order in which they were built, and the read of the
    clock of each. *)
Lemma run_built Date_parse f clock trains p1 p2 p3 p4 r :
  run f Date_parse clock trains p1 p2 p3 p4 = Recommend r ->
  exists built,
    allOptions r = Array_sort byArrivalAtMonash built /\
    StronglySorted (rankLt enumerationIndex) built /\
    timestamp r = clock (length built) /\
    (forall i o, nth_error built i = Some o ->
       totalMinutes o = Math_round_div60000 (arrivalAtMonash o - clock i)).
Proof.
  intros H.
  apply run_blocks in H
    as (o1 & o2 & o3 & o4 & o5 & n1 & n2 & n3 & n4 & n5 & Eall & _ & Ets &
        B1 & B2 & B3 & B4 & B5 & -> & -> & -> & -> & ->).
  exists (o1 ++ o2 ++ o3 ++ o4 ++ o5). split; [exact Eall|].
  assert (Elen : length (allOptions r) = length (o1 ++ o2 ++ o3 ++ o4 ++ o5)).
  { rewrite Eall. symmetry. apply Permutation_length, Array_sort_perm. }
  rewrite Ets, Elen. clear Eall Ets Elen.
  apply blockOutcome_cases in B1, B2, B3, B4, B5.
  destruct B1 as [->|(? & ? & ? & ->)], B2 as [->|(? & ? & ? & ->)],
    B3 as [->|(? & ? & ? & ->)], B4 as [->|(? & ? & ? & ->)],
    B5 as [->|(? & ? & ? & ->)];
    (split; [|split; [reflexivity|]]);
    match goal with
    | |- StronglySorted _ _ =>
        repeat (constructor; simpl); unfold rankLt; simpl; lia
    | |- forall _, _ =>
        intros i o Hi;
        repeat (destruct i as [|i]; simpl in Hi; [injection Hi as <-; reflexivity|]);
        try discriminate Hi; now destruct i
    end.
Qed.

(** X12. The clock is read once for each itinerary, in the order in which
    the itineraries are built, and once more for the timestamp: of the
    itineraries of a response in the order of their station/route pairs,
    the one in place [i] counts its minutes from the read [i], and the
    timestamp is the read that follows the last of them.  [allOptions] is
    that list, sorted.  The instants read are taken within 2^53 ms of every
    time value, where the doubles that the code subtracts and divides give
    the minutes of [Math_round_div60000].  With a clock that does not run
    backwards, the minutes printed for an itinerary lie between those
    counted from the timestamp of the response and those counted from the
    first read. *)
Theorem total_minutes_and_timestamp (f : File) (Date_parse : string -> option Z)
    (clock : nat -> Z) (trains mw733 syn703 syn737 gw : Payload)
    (r : RecommendationResult) :
  (forall i, (i <= length (allOptions r))%nat -> Z.abs (clock i) + maxTime <= 2 ^ 53) ->
  run f Date_parse clock trains mw733 syn703 syn737 gw = Recommend r ->
  exists built,
    allOptions r = Array_sort byArrivalAtMonash built /\
    StronglySorted (rankLt enumerationIndex) built /\
    timestamp r = clock (length built) /\
    (forall i o, nth_error built i = Some o ->
       totalMinutes o = Math_round_div60000 (arrivalAtMonash o - clock i) /\
       Z.abs (arrivalAtMonash o - clock i) <= 2 ^ 53) /\
    ((forall i j, (i <= j)%nat -> clock i <= clock j) ->
     forall o, In o (allOptions r) ->
       Math_round_div60000 (arrivalAtMonash o - timestamp r) <= totalMinutes o /\
       totalMinutes o <= Math_round_div60000 (arrivalAtMonash o - clock 0%nat)).
Proof.
  intros Hrange H.
  destruct (run_built _ _ _ _ _ _ _ _ _ H) as (built & Eall & Hs & Ets & Hread).
  assert (Elen : length (allOptions r) = length built).
  { rewrite Eall. symmetry. apply Permutation_length, Array_sort_perm. }
  exists built. split; [exact Eall|]. split; [exact Hs|]. split; [exact Ets|].
  split.
  - intros i o Hi. split; [now apply Hread|].
    assert (Hlt : (i < length built)%nat)
      by (apply nth_error_Some; rewrite Hi; discriminate).
    assert (Ho : In o (allOptions r))
      by (rewrite Eall; apply Array_sort_In; eapply nth_error_In; exact Hi).
    pose proof (run_arrival_range _ _ _ _ _ _ _ _ _ _ H Ho).
    pose proof (Hrange i ltac:(lia)). lia.
  - intros Hclock o Ho. rewrite Eall in Ho. apply Array_sort_In in Ho.
    apply In_nth_error in Ho as [i Hi].
    assert (Hlt : (i < length built)%nat)
      by (apply nth_error_Some; rewrite Hi; discriminate).
    rewrite (Hread i o Hi), Ets.
    pose proof (Hclock i (length built) ltac:(lia)).
    pose proof (Hclock 0%nat i ltac:(lia)).
    split; apply Math_round_div60000_mono; lia.
Qed.

Lemma total_minutes_and_timestamp_witness :
  exists r,
    run ServerMjs IsoDate.iso_parse Timetable.ticking
      Samples.trains
      Samples.buses733 Samples.noBuses Samples.noBuses Samples.busesGlenWaverley
    = Recommend r /\
    timestamp r = Samples.now + 3000 /\
    List.map totalMinutes (allOptions r) = [24; 27; 27] /\
    exists built,
      allOptions r = Array_sort byArrivalAtMonash built /\
      StronglySorted (rankLt enumerationIndex) built /\
      timestamp r = Timetable.ticking (length built) /\
      (forall i o, nth_error built i = Some o ->
         totalMinutes o
         = Math_round_div60000 (arrivalAtMonash o - Timetable.ticking i) /\
         Z.abs (arrivalAtMonash o - Timetable.ticking i) <= 2 ^ 53) /\
      ((forall i j, (i <= j)%nat -> Timetable.ticking i <= Timetable.ticking j) ->
       forall o, In o (allOptions r) ->
         Math_round_div60000 (arrivalAtMonash o - timestamp r) <= totalMinutes o /\
         totalMinutes o
         <= Math_round_div60000 (arrivalAtMonash o - Timetable.ticking 0)).
Proof.
  eexists. split; [vm_compute; reflexivity|]. split; [reflexivity|].
  split; [reflexivity|].
  apply (total_minutes_and_timestamp ServerMjs IsoDate.iso_parse
           Timetable.ticking
           Samples.trains Samples.buses733 Samples.noBuses Samples.noBuses
           Samples.busesGlenWaverley).
  - intros i Hi. simpl in Hi. unfold Timetable.ticking, Samples.now, maxTime. lia.
  - vm_compute. reflexivity.
Defined.

Lemma sorted_by_minutes (l : list Itinerary) (now : Z) :
  (forall o, In o l ->
     totalMinutes o = Math_round_div60000 (arrivalAtMonash o - now)) ->
  StronglySorted (keyLe arrivalAtMonash) l ->
  StronglySorted (keyLe totalMinutes) l.
Proof.
  intros Hmin Hs. induction Hs as [|a l Hl IH Ha]; constructor.
  - apply IH. intros o Ho. apply Hmin. now right.
  - rewrite List.Forall_forall in Ha |- *. intros b Hb.
    unfold keyLe. rewrite (Hmin a) by now left. rewrite (Hmin b) by now right.
    apply Math_round_div60000_mono. specialize (Ha b Hb). unfold keyLe in Ha. lia.
Qed.

(** X13. With a clock that stands still at [now], every itinerary prints the
    minutes from [now] to its arrival at Monash, rounded to the nearest
    minute; the list is then in the order of these minutes too, and the
    recommendation has the fewest.  [now] is taken within 2^53 ms of every
    time value: the difference of each arrival and [now] is then at most
    2^53 in absolute value, and the doubles that the code subtracts and
    divides give the minutes of [Math_round_div60000]. *)
Theorem standing_clock_minutes (f : File) (Date_parse : string -> option Z)
    (now : Z) (clock : nat -> Z) (trains mw733 syn703 syn737 gw : Payload)
    (r : RecommendationResult) :
  Z.abs now + maxTime <= 2 ^ 53 ->
  (forall n, clock n = now) ->
  run f Date_parse clock trains mw733 syn703 syn737 gw = Recommend r ->
  timestamp r = now /\
  (forall o, In o (allOptions r) ->
     Z.abs (arrivalAtMonash o - now) <= 2 ^ 53 /\
     totalMinutes o = Math_round_div60000 (arrivalAtMonash o - now) /\
     arrivalAtMonash o - now - 30000 < totalMinutes o * 60000
     <= arrivalAtMonash o - now + 30000) /\
  StronglySorted (keyLe totalMinutes) (allOptions r) /\
  (forall best o, recommendation r = Some best -> In o (allOptions r) ->
     totalMinutes best <= totalMinutes o).
Proof.
  intros Hrange Hclock H.
  pose proof (run_blocks _ _ _ _ _ _ _ _ _ H)
    as (o1 & o2 & o3 & o4 & o5 & _ & _ & _ & _ & _ & Eall & Erec & Ets & _).
  assert (Hmin : forall o, In o (allOptions r) ->
            totalMinutes o = Math_round_div60000 (arrivalAtMonash o - now)).
  { intros o Ho.
    destruct (run_option _ _ _ _ _ _ _ _ _ _ H Ho)
      as (st & route & p & d & bd & i & _ & _ & _ & _ & _ & _ & ->).
    simpl. now rewrite Hclock. }
  assert (Hsorted : StronglySorted (keyLe totalMinutes) (allOptions r)).
  { pose proof (Array_sort_sorted arrivalAtMonash (o1 ++ o2 ++ o3 ++ o4 ++ o5)) as Hs.
    change (Array_sort (byKey arrivalAtMonash) (o1 ++ o2 ++ o3 ++ o4 ++ o5))
      with (Array_sort byArrivalAtMonash (o1 ++ o2 ++ o3 ++ o4 ++ o5)) in Hs.
    rewrite <- Eall in Hs.
    exact (sorted_by_minutes _ _ Hmin Hs). }
  split; [now rewrite Ets|]. split; [|split; [exact Hsorted|]].
  - intros o Ho.
    split; [pose proof (run_arrival_range _ _ _ _ _ _ _ _ _ _ H Ho); lia|].
    split; [now apply Hmin|]. rewrite (Hmin o Ho).
    unfold Math_round_div60000.
    pose proof (Z.div_mod (arrivalAtMonash o - now + 30000) 60000 ltac:(lia)).
    pose proof (Z.mod_pos_bound (arrivalAtMonash o - now + 30000) 60000 ltac:(lia)).
    lia.
  - intros best o Hbest Ho. rewrite Erec in Hbest.
    destruct (allOptions r) as [|x l]; [discriminate|].
    injection Hbest as ->. destruct Ho as [->|Ho]; [lia|].
    apply StronglySorted_inv in Hsorted as [_ Hx].
    rewrite List.Forall_forall in Hx. exact (Hx o Ho).
Qed.

Lemma standing_clock_minutes_witness :
  exists r,
    run ApiDepartures IsoDate.iso_parse Samples.clock Samples.trains
      Samples.buses733 Samples.noBuses Samples.noBuses Samples.busesGlenWaverley
    = Recommend r /\
    option_map totalMinutes (recommendation r) = Some 24 /\
    timestamp r = Samples.now /\
    (forall o, In o (allOptions r) ->
       Z.abs (arrivalAtMonash o - Samples.now) <= 2 ^ 53 /\
       totalMinutes o = Math_round_div60000 (arrivalAtMonash o - Samples.now) /\
       arrivalAtMonash o - Samples.now - 30000 < totalMinutes o * 60000
       <= arrivalAtMonash o - Samples.now + 30000) /\
    StronglySorted (keyLe totalMinutes) (allOptions r) /\
    (forall best o, recommendation r = Some best -> In o (allOptions r) ->
       totalMinutes best <= totalMinutes o).
Proof.
  eexists. split; [vm_compute; reflexivity|]. split; [reflexivity|].
  apply (standing_clock_minutes ApiDepartures IsoDate.iso_parse Samples.now
           Samples.clock Samples.trains Samples.buses733 Samples.noBuses
           Samples.noBuses Samples.busesGlenWaverley);
    [unfold Samples.now, maxTime; lia|intros n; reflexivity|vm_compute; reflexivity].
Defined.
(** ** The itinerary of a station/route pair *)

Section Pairs.
Variable Date_parse : string -> option Z.

Lemma run_arrivals_range f clock trains p1 p2 p3 p4 r st :
  run f Date_parse clock trains p1 p2 p3 p4 = Recommend r ->
  Z.abs (arrivalAt (nextTrain r) st) <= maxTime.
Proof.
  intros H. apply run_respondWith in H as (ds & _ & H).
  apply respondWith_Recommend in H
    as (d & t & opts & _ & Et & E1 & E2 & E3 & _).
  apply resolvedDate_range in Et.
  apply addMinutes_Some in E2 as (? & _ & _ & E2).
  apply addMinutes_Some in E3 as (? & _ & _ & E3).
  destruct st; simpl; [now rewrite E1|assumption|assumption].
Qed.

Lemma blockOutcome_pair st arr route cands now os o :
  blockOutcome Date_parse st arr route cands now os -> In o os ->
  station o = stationName st /\ bus_route o = route.
Proof.
  intros B Ho.
  destruct (blockOutcome_In _ _ _ _ _ _ _ _ B Ho)
    as (d & ta & bd & _ & _ & _ & _ & _ & ->).
  now split.
Qed.

(** The options of a recommendation that name a pair are those of the block
    of the pair. *)
Lemma run_pair f clock trains p1 p2 p3 p4 r st route p :
  run f Date_parse clock trains p1 p2 p3 p4 = Recommend r ->
  In (st, route, p) (blocksOf p1 p2 p3 p4) ->
  exists os n,
    blockOutcome Date_parse st (Some (arrivalAt (nextTrain r) st)) route
      (candidates f st route p) (clock n) os /\
    (forall o, In o os -> In o (allOptions r)) /\
    (forall o, In o (allOptions r) ->
       station o = stationName st /\ bus_route o = route -> In o os).
Proof.
  intros H Hb.
  apply run_blocks in H
    as (o1 & o2 & o3 & o4 & o5 & n1 & n2 & n3 & n4 & n5 & Eall & _ & _ &
        B1 & B2 & B3 & B4 & B5 & _).
  assert (K : forall o, In o (allOptions r) <->
                In o o1 \/ In o o2 \/ In o o3 \/ In o o4 \/ In o o5).
  { intros o. rewrite Eall, Array_sort_In, !in_app_iff. reflexivity. }
  pose proof (fun o => blockOutcome_pair _ _ _ _ _ _ o B1) as P1.
  pose proof (fun o => blockOutcome_pair _ _ _ _ _ _ o B2) as P2.
  pose proof (fun o => blockOutcome_pair _ _ _ _ _ _ o B3) as P3.
  pose proof (fun o => blockOutcome_pair _ _ _ _ _ _ o B4) as P4.
  pose proof (fun o => blockOutcome_pair _ _ _ _ _ _ o B5) as P5.
  simpl in Hb.
  destruct Hb as [E|[E|[E|[E|[E|[]]]]]]; injection E as <- <- <-;
    [exists o1, n1|exists o2, n2|exists o3, n3|exists o4, n4|exists o5, n5];
    (split; [assumption|]);
    (split; [intros o Ho; apply K; tauto|]);
    intros o Ho [Es Er]; apply K in Ho;
    destruct Ho as [Ho|[Ho|[Ho|[Ho|Ho]]]]; try exact Ho;
    first [ apply P1 in Ho as [Es' Er'] | apply P2 in Ho as [Es' Er']
          | apply P3 in Ho as [Es' Er'] | apply P4 in Ho as [Es' Er']
          | apply P5 in Ho as [Es' Er'] ];
    simpl in *; congruence.
Qed.

Lemma blockOutcome_pairs st arr route cands now os :
  blockOutcome Date_parse st arr route cands now os ->
  sublist (List.map (fun o => (station o, bus_route o)) os) [(stationName st, route)].
Proof.
  unfold blockOutcome. destruct (earliestFrom _ _ _).
  - intros (ta & bd & _ & _ & ->). simpl. apply sublist_skip, sublist_nil.
  - intros ->. apply sublist_nil_l.
Qed.
End Pairs.

(** X5. No station/route pair has two itineraries in a response, so that a
    response lists at most five. *)
Theorem one_itinerary_per_pair (f : File) (Date_parse : string -> option Z)
    (clock : nat -> Z) (trains mw733 syn703 syn737 gw : Payload)
    (r : RecommendationResult) :
  run f Date_parse clock trains mw733 syn703 syn737 gw = Recommend r ->
  List.NoDup (List.map (fun o => (station o, bus_route o)) (allOptions r)) /\
  (length (allOptions r) <= 5)%nat.
Proof.
  intros H.
  apply run_blocks in H
    as (o1 & o2 & o3 & o4 & o5 & n1 & n2 & n3 & n4 & n5 & Eall & _ & _ &
        B1 & B2 & B3 & B4 & B5 & _).
  apply blockOutcome_pairs in B1, B2, B3, B4, B5.
  pose proof (sublist_app _ _ _ _ B1
               (sublist_app _ _ _ _ B2
                 (sublist_app _ _ _ _ B3 (sublist_app _ _ _ _ B4 B5)))) as S.
  rewrite <- !List.map_app in S.
  pose proof (Permutation_map (fun o => (station o, bus_route o))
                (Array_sort_perm byArrivalAtMonash (o1 ++ o2 ++ o3 ++ o4 ++ o5))) as Hp.
  rewrite <- Eall in Hp. split.
  - apply (Permutation_NoDup Hp), NoDup_ListNoDup. refine (sublist_NoDup _ _ _ S).
    apply NoDup_ListNoDup.
    simpl. repeat constructor; simpl; intuition discriminate.
  - rewrite <- (length_map (fun o => (station o, bus_route o))).
    rewrite <- (Permutation_length Hp). apply sublist_length in S. exact S.
Qed.

Lemma one_itinerary_per_pair_witness :
  exists r,
    run ApiDepartures IsoDate.iso_parse Samples.clock Samples.trains
      Samples.buses733 Timetable.buses703 Timetable.buses737 Samples.busesGlenWaverley
    = Recommend r /\
    length (allOptions r) = 5%nat /\
    List.NoDup (List.map (fun o => (station o, bus_route o)) (allOptions r)) /\
    (length (allOptions r) <= 5)%nat.
Proof.
  eexists. split; [vm_compute; reflexivity|]. split; [reflexivity|].
  apply (one_itinerary_per_pair ApiDepartures IsoDate.iso_parse Samples.clock
           Samples.trains Samples.buses733 Timetable.buses703 Timetable.buses737
           Samples.busesGlenWaverley).
  vm_compute. reflexivity.
Defined.

(** X3. A response has an itinerary for a station/route pair exactly when the
    feed of the pair has a departure on the route whose resolved time is a
    valid instant at or after the arrival of the train at the station plus
    the transfer time. *)
Theorem pair_served_iff_catchable_bus (f : File) (Date_parse : string -> option Z)
    (clock : nat -> Z) (trains mw733 syn703 syn737 gw : Payload)
    (r : RecommendationResult) (st : Station) (route : string) (p : Payload) :
  run f Date_parse clock trains mw733 syn703 syn737 gw = Recommend r ->
  In (st, route, p) (blocksOf mw733 syn703 syn737 gw) ->
  (exists o, In o (allOptions r) /\ station o = stationName st /\ bus_route o = route)
  <->
  (exists d bd,
     In d (listOf p) /\ served f st route p d /\
     resolvedDate Date_parse d = Some bd /\
     arrivalAt (nextTrain r) st + MIN_TRANSFER_TIME * 60 * 1000 <= bd).
Proof.
  intros H Hb.
  destruct (run_pair _ _ _ _ _ _ _ _ _ _ _ _ H Hb) as (os & n & B & Hall & Hos).
  split.
  - intros (o & Ho & Es & Er).
    specialize (Hos o Ho (conj Es Er)).
    destruct (blockOutcome_In _ _ _ _ _ _ _ _ B Hos)
      as (d & ta & bd & Hd & [= <-] & Ebd & Hle & _).
    apply (candidates_served _ _ _ _ _ _ _ _ _ Hb) in Hd as [Hin Hs].
    exists d, bd. auto.
  - intros (d & bd & Hin & Hs & Ebd & Hle).
    assert (Hd : In d (candidates f st route p))
      by (apply (candidates_served _ _ _ _ _ _ _ _ _ Hb); auto).
    pose proof (run_arrivals_range _ _ _ _ _ _ _ _ _ st H) as Ha.
    pose proof (resolvedDate_range _ _ _ Ebd) as Hbd.
    unfold blockOutcome in B.
    destruct (earliestFrom _ _ _) as [d0|] eqn:E.
    + destruct B as (ta & bd0 & _ & _ & ->).
      eexists. split; [apply Hall; now left|]. now split.
    + apply (earliestFrom_None _ _ _ E) in Hd.
      rewrite Ebd, addMinutes_in_range in Hd by (unfold MIN_TRANSFER_TIME in *; lia).
      simpl in Hd. apply Z.leb_gt in Hd. lia.
Qed.

Lemma pair_served_iff_catchable_bus_witness :
  exists r,
    run ServerMjs IsoDate.iso_parse Samples.clock Samples.trains
      Samples.buses733 Timetable.buses703 Timetable.buses737 Samples.busesGlenWaverley
    = Recommend r /\
    ((exists o, In o (allOptions r) /\
        station o = stationName syndal /\ bus_route o = "737")
     <->
     (exists d bd,
        In d (listOf Timetable.buses737) /\
        served ServerMjs syndal "737" Timetable.buses737 d /\
        resolvedDate IsoDate.iso_parse d = Some bd /\
        arrivalAt (nextTrain r) syndal + MIN_TRANSFER_TIME * 60 * 1000 <= bd)).
Proof.
  eexists. split; [vm_compute; reflexivity|].
  apply (pair_served_iff_catchable_bus ServerMjs IsoDate.iso_parse Samples.clock
           Samples.trains Samples.buses733 Timetable.buses703 Timetable.buses737
           Samples.busesGlenWaverley _ syndal "737" Timetable.buses737);
    [vm_compute; reflexivity|simpl; auto].
Defined.

(** X4. The itinerary of a station/route pair takes the earliest bus that can
    be caught: no departure of the feed of the pair on its route leaves
    after the transfer time and before the bus of the itinerary. *)
Theorem itinerary_takes_earliest_bus (f : File) (Date_parse : string -> option Z)
    (clock : nat -> Z) (trains mw733 syn703 syn737 gw : Payload)
    (r : RecommendationResult) (st : Station) (route : string) (p : Payload)
    (o : Itinerary) (d : RawDeparture) (bd : Z) :
  run f Date_parse clock trains mw733 syn703 syn737 gw = Recommend r ->
  In (st, route, p) (blocksOf mw733 syn703 syn737 gw) ->
  In o (allOptions r) -> station o = stationName st -> bus_route o = route ->
  In d (listOf p) -> served f st route p d ->
  resolvedDate Date_parse d = Some bd ->
  arrivalAt (nextTrain r) st + MIN_TRANSFER_TIME * 60 * 1000 <= bd ->
  bus_departure o <= bd.
Proof.
  intros H Hb Ho Es Er Hin Hs Ebd Hle.
  destruct (run_pair _ _ _ _ _ _ _ _ _ _ _ _ H Hb) as (os & n & B & _ & Hos).
  specialize (Hos o Ho (conj Es Er)).
  destruct (blockOutcome_In _ _ _ _ _ _ _ _ B Hos)
    as (d0 & ta & bd0 & _ & [= <-] & _ & _ & Hmin & ->).
  simpl. apply (Hmin d bd); [|assumption..].
  apply (candidates_served _ _ _ _ _ _ _ _ _ Hb). auto.
Qed.

Lemma itinerary_takes_earliest_bus_witness :
  exists r,
    run ServerMjs IsoDate.iso_parse Samples.clock Samples.trains
      Samples.buses733 Timetable.buses703 Timetable.buses737 Samples.busesGlenWaverley
    = Recommend r /\
    forall o, In o (allOptions r) ->
      station o = stationName syndal -> bus_route o = "703" ->
      bus_departure o <= Samples.t1000 + 20 * 60 * 1000.
Proof.
  eexists. split; [vm_compute; reflexivity|].
  intros o Ho Es Er.
  eapply (itinerary_takes_earliest_bus ServerMjs IsoDate.iso_parse Samples.clock
            Samples.trains Samples.buses733 Timetable.buses703 Timetable.buses737
            Samples.busesGlenWaverley _ syndal "703" Timetable.buses703 o
            (Samples.departure 200 None (JStr "2024-03-01T10:20:00Z") JNull)
            (Samples.t1000 + 20 * 60 * 1000));
    [ vm_compute; reflexivity | simpl; auto | exact Ho | exact Es | exact Er
    | simpl; auto
    | exists (Samples.numbered "703"); split; [reflexivity|left; reflexivity]
    | reflexivity
    | vm_compute; discriminate ].
Defined.

(** X6. A feed that comes without the table of its routes gives its
    station/route pairs no itinerary, and the run does not fail on that
    account. *)
Theorem feed_without_routes_serves_nothing (f : File)
    (Date_parse : string -> option Z)
    (clock : nat -> Z) (trains mw733 syn703 syn737 gw : Payload)
    (r : RecommendationResult) (st : Station) (route : string) (p : Payload)
    (o : Itinerary) :
  run f Date_parse clock trains mw733 syn703 syn737 gw = Recommend r ->
  In (st, route, p) (blocksOf mw733 syn703 syn737 gw) ->
  routes p = None ->
  In o (allOptions r) ->
  ~ (station o = stationName st /\ bus_route o = route).
Proof.
  intros H Hb Hr Ho Hpair.
  destruct (run_pair _ _ _ _ _ _ _ _ _ _ _ _ H Hb) as (os & n & B & _ & Hos).
  specialize (Hos o Ho Hpair).
  destruct (blockOutcome_In _ _ _ _ _ _ _ _ B Hos) as (d & _ & _ & Hd & _).
  apply (candidates_served _ _ _ _ _ _ _ _ _ Hb) in Hd as (_ & rt & Ert & _).
  rewrite Hr in Ert. discriminate Ert.
Qed.

Lemma feed_without_routes_serves_nothing_witness :
  exists r,
    run ApiDepartures IsoDate.iso_parse Samples.clock Samples.trains
      Timetable.unrouted733 Samples.noBuses Samples.noBuses Samples.busesGlenWaverley
    = Recommend r /\
    length (allOptions r) = 2%nat /\
    forall o, In o (allOptions r) ->
      ~ (station o = stationName mountWaverley /\ bus_route o = "733").
Proof.
  eexists. split; [vm_compute; reflexivity|]. split; [reflexivity|].
  intros o Ho.
  eapply (feed_without_routes_serves_nothing ApiDepartures IsoDate.iso_parse
            Samples.clock Samples.trains Timetable.unrouted733 Samples.noBuses
            Samples.noBuses Samples.busesGlenWaverley _ mountWaverley "733"
            Timetable.unrouted733 o);
    [vm_compute; reflexivity|simpl; auto|reflexivity|exact Ho].
Defined.

(** ** The two files *)

Lemma hasDepartures_true p : hasDepartures p = true -> departures p <> None.
Proof. unfold hasDepartures. destruct (departures p); [discriminate|discriminate]. Qed.

Lemma filter_filter_and {A : Type} (p q : A -> bool) (l : list A) :
  List.filter p (List.filter q l) = List.filter (fun x => q x && p x) l.
Proof.
  induction l as [|x l IH]; simpl; [reflexivity|].
  destruct (q x); simpl; [destruct (p x)|]; now rewrite IH.
Qed.

Lemma orDefault_strictEq x route :
  route <> "unknown" -> route <> "" ->
  String.eqb (orDefault x "unknown") route = strictEq x route.
Proof.
  intros Hu He. unfold orDefault, strictEq. destruct x as [s|].
  - destruct (String.eqb_spec s ""); [|reflexivity]. subst s.
    destruct (String.eqb_spec "unknown" route); [congruence|].
    destruct (String.eqb_spec "" route); [congruence|reflexivity].
  - destruct (String.eqb_spec "unknown" route); [congruence|reflexivity].
Qed.

(** At Glen Waverley the two files keep the same departures. *)
Lemma candidates_glenWaverley route p :
  In route ["742"; "737"] ->
  candidatesD glenWaverley route p = candidatesS route p.
Proof.
  intros Hr. unfold candidatesD, candidatesS. rewrite filter_filter_and.
  apply filter_ext. intros d.
  rewrite orDefault_strictEq
    by (destruct Hr as [<-|[<-|[]]]; discriminate).
  unfold Departures.wantedRoute, Server.onRoute, Server.routeNumberOf.
  destruct (routeOf (routes p) (route_id d)) as [rt|]; [|reflexivity].
  simpl. rewrite orb_false_r.
  destruct (strictEq (route_number rt) route) eqn:E; [|apply andb_false_r].
  rewrite andb_true_r. apply strictEq_true in E. rewrite E.
  destruct Hr as [<-|[<-|[]]]; simpl;
    [reflexivity|destruct (strictEq (route_short_name rt) "742"); reflexivity].
Qed.

(** Elsewhere they do when no route is matched by its short name alone. *)
Lemma candidates_numberedOnly st route p :
  st <> glenWaverley -> numberedOnly route p = true ->
  candidatesD st route p = candidatesS route p.
Proof.
  intros Hst Hn.
  assert (E : candidatesD st route p
              = List.filter (Departures.wantedRoute p [route]) (listOf p))
    by (destruct st; [reflexivity|reflexivity|contradiction]).
  rewrite E. unfold candidatesS. apply filter_ext_in. intros d Hd.
  unfold numberedOnly in Hn. rewrite forallb_forall in Hn. specialize (Hn d Hd).
  unfold Departures.wantedRoute, Server.onRoute, Server.routeNumberOf.
  destruct (routeOf (routes p) (route_id d)) as [rt|]; [|reflexivity].
  simpl. f_equal.
  destruct (strictEq (route_number rt) route); [reflexivity|].
  destruct (strictEq (route_short_name rt) route); [discriminate Hn|reflexivity].
Qed.

Section BothFiles.
Variable Date_parse : string -> option Z.

(** With the five lists of departures there, either file is the common run
    on its candidates. *)
Lemma run_is_respondWith f clock trains p1 p2 p3 p4 ds :
  departures trains = Some ds ->
  departures p1 <> None -> departures p2 <> None ->
  departures p3 <> None -> departures p4 <> None ->
  run f Date_parse clock trains p1 p2 p3 p4
  = answer f
      (sentWith Date_parse ds
         (candidates f mountWaverley "733" p1) (candidates f syndal "703" p2)
         (candidates f syndal "737" p3) (candidates f glenWaverley "742" p4)
         (candidates f glenWaverley "737" p4) clock)
      (respond
         (respondWith Date_parse ds
            (candidates f mountWaverley "733" p1) (candidates f syndal "703" p2)
            (candidates f syndal "737" p3) (candidates f glenWaverley "742" p4)
            (candidates f glenWaverley "737" p4)) clock).
Proof.
  destruct f; [apply handler_respondWith|apply handleAPI_respondWith].
Qed.

(** What the common run throws once the blocks have returned is the
    RangeError of an arrival of the train that is no valid Date. *)
Lemma sentWith_Failed ds c1 c2 c3 c4 c5 clock e :
  sentWith Date_parse ds c1 c2 c3 c4 c5 clock = true ->
  respond (respondWith Date_parse ds c1 c2 c3 c4 c5) clock = Failed e ->
  e = RangeError /\
  exists d, nextOutbound Date_parse ds = Some d /\
    inTime (TRAIN_TRAVEL_FROM_MT_WAVERLEY glenWaverley) (resolvedDate Date_parse d)
    = false.
Proof.
  unfold sentWith, respond, respondWith.
  destruct (nextOutbound Date_parse ds) as [d|]; [|discriminate 2].
  cbv zeta. unfold bind at 1.
  destruct (optionsFrom _ _ _ _ _ _ _ _ _ clock 0%nat) as [[opts n]|];
    [intros _|discriminate 1].
  unfold bind, Date_now, toISOString, ret, throw.
  destruct (resolvedDate Date_parse d) as [t|] eqn:Et;
    [|intros [= <-]; split; [reflexivity|]; exists d; now rewrite Et].
  pose proof (resolvedDate_range _ _ _ Et) as Hr.
  destruct (Z.leb_spec (t + TRAIN_TRAVEL_FROM_MT_WAVERLEY glenWaverley * 60 * 1000)
              maxTime) as [Hle|Hgt].
  - rewrite !addMinutes_in_range by (simpl in *; lia). discriminate 1.
  - intros H. split.
    + destruct (addMinutes (Some t) (TRAIN_TRAVEL_FROM_MT_WAVERLEY syndal));
        [|now injection H as <-].
      destruct (addMinutes (Some t) (TRAIN_TRAVEL_FROM_MT_WAVERLEY glenWaverley));
        [discriminate H|now injection H as <-].
    + exists d. rewrite Et. split; [reflexivity|]. simpl. now apply Z.leb_gt.
Qed.

Lemma nextOutbound_In ds d :
  nextOutbound Date_parse ds = Some d -> In d ds /\ isOutbound d = true.
Proof.
  unfold nextOutbound. intros E.
  now apply head_In, Array_sort_In, filter_In in E.
Qed.

(** With trains in time, the catch block of server.mjs runs before the
    headers are sent, if at all. *)
Lemma catchAfter_timed ds c1 c2 c3 c4 c5 clock :
  (forall d, In d ds -> isOutbound d = true ->
     inTime (TRAIN_TRAVEL_FROM_MT_WAVERLEY glenWaverley) (resolvedDate Date_parse d) = true) ->
  catchAfter (sentWith Date_parse ds c1 c2 c3 c4 c5 clock)
    (respond (respondWith Date_parse ds c1 c2 c3 c4 c5) clock)
  = respond (respondWith Date_parse ds c1 c2 c3 c4 c5) clock.
Proof.
  intros Ht.
  destruct (respond (respondWith Date_parse ds c1 c2 c3 c4 c5) clock) as [| |e|]
    eqn:E; try reflexivity.
  destruct (sentWith Date_parse ds c1 c2 c3 c4 c5 clock) eqn:Es; [|reflexivity].
  destruct (sentWith_Failed _ _ _ _ _ _ _ _ Es E) as (_ & d & Ed & Hd).
  apply nextOutbound_In in Ed as [Hin Ho]. now rewrite (Ht d Hin Ho) in Hd.
Qed.

Lemma timedTrains_inTime trains ds :
  departures trains = Some ds -> timedTrains Date_parse trains = true ->
  forall d, In d ds -> isOutbound d = true ->
    inTime (TRAIN_TRAVEL_FROM_MT_WAVERLEY glenWaverley) (resolvedDate Date_parse d) = true.
Proof.
  unfold timedTrains, listOf. intros -> Tt d Hd Ho.
  rewrite forallb_forall in Tt. specialize (Tt d Hd). now rewrite Ho in Tt.
Qed.

(** Without the list of the trains, either file fails. *)
Lemma run_without_trains f clock trains p1 p2 p3 p4 :
  departures trains = None ->
  departures p1 <> None -> departures p2 <> None ->
  departures p3 <> None -> departures p4 <> None ->
  run f Date_parse clock trains p1 p2 p3 p4 = Failed TypeError.
Proof.
  intros Et H1 H2 H3 H4. destruct f; simpl.
  - destruct (departures p1) as [l1|] eqn:E1; [|contradiction].
    destruct (departures p2) as [l2|] eqn:E2; [|contradiction].
    destruct (departures p3) as [l3|] eqn:E3; [|contradiction].
    destruct (departures p4) as [l4|] eqn:E4; [|contradiction].
    unfold Departures.handler, respond, Departures.handlerBody.
    rewrite (bind_eq _ _ _ _ _ _ (getBusDepartures_kept _ _ _ clock 0%nat E1)),
            (bind_eq _ _ _ _ _ _ (getBusDepartures_kept _ _ _ clock 0%nat E2)),
            (bind_eq _ _ _ _ _ _ (getBusDepartures_kept _ _ _ clock 0%nat E3)),
            (bind_eq _ _ _ _ _ _ (getBusDepartures_kept _ _ _ clock 0%nat E4)).
    unfold Departures.compute, bind, departuresOf. now rewrite Et.
  - unfold Server.handleAPI, Server.beforeWriteHead, bind, departuresOf.
    now rewrite Et.
Qed.
End BothFiles.

(** X7. Let the four bus feeds have their lists of departures and, in the
    feeds of Mount Waverley and Syndal, let no departure be on the wanted
    route by the short name of its route alone: api/departures.js keeps
    such a departure there and server.mjs does not, while at Glen Waverley
    both compare the number only.  Then the two files give the same
    response when every train towards Glen Waverley has a valid time from
    which the six minutes to Glen Waverley can be counted.  Without that
    they differ in one case at most: where api/departures.js answers with
    the 500 of its catch block for a RangeError, server.mjs may have sent
    the headers of its 200 and completes no response.  (The wording of the
    [error] strings, which differs between the files, is not part of
    [Response].) *)
Theorem files_agree (Date_parse : string -> option Z) (clock : nat -> Z)
    (trains mw733 syn703 syn737 gw : Payload) :
  hasDepartures mw733 = true -> hasDepartures syn703 = true ->
  hasDepartures syn737 = true -> hasDepartures gw = true ->
  numberedOnly "733" mw733 = true ->
  numberedOnly "703" syn703 = true ->
  numberedOnly "737" syn737 = true ->
  (timedTrains Date_parse trains = true ->
   Departures.handler Date_parse clock trains mw733 syn703 syn737 gw
   = Server.handleAPI Date_parse clock trains mw733 syn703 syn737 gw) /\
  (Departures.handler Date_parse clock trains mw733 syn703 syn737 gw
   = Server.handleAPI Date_parse clock trains mw733 syn703 syn737 gw \/
   Departures.handler Date_parse clock trains mw733 syn703 syn737 gw
   = Failed RangeError /\
   Server.handleAPI Date_parse clock trains mw733 syn703 syn737 gw
   = HeadersSent RangeError).
Proof.
  intros H1 H2 H3 H4 N1 N2 N3.
  apply hasDepartures_true in H1, H2, H3, H4.
  destruct (departures trains) as [ds|] eqn:Et.
  - rewrite (handler_respondWith Date_parse clock trains _ _ _ _ ds Et H1 H2 H3 H4),
            (handleAPI_respondWith Date_parse clock trains _ _ _ _ ds Et H1 H2 H3 H4).
    rewrite (candidates_numberedOnly mountWaverley "733" mw733) by (discriminate || exact N1).
    rewrite (candidates_numberedOnly syndal "703" syn703) by (discriminate || exact N2).
    rewrite (candidates_numberedOnly syndal "737" syn737) by (discriminate || exact N3).
    rewrite !candidates_glenWaverley by (simpl; auto).
    split.
    + intros Tt. symmetry. apply catchAfter_timed.
      exact (timedTrains_inTime Date_parse trains ds Et Tt).
    + destruct (respond _ clock) as [| |e|] eqn:E; try (left; reflexivity).
      destruct (sentWith _ _ _ _ _ _ _ clock) eqn:Es; [|left; reflexivity].
      destruct (sentWith_Failed _ _ _ _ _ _ _ _ _ Es E) as [-> _].
      right. split; reflexivity.
  - rewrite (run_without_trains Date_parse ApiDepartures clock trains _ _ _ _ Et H1 H2 H3 H4
             : Departures.handler _ _ _ _ _ _ _ = _).
    rewrite (run_without_trains Date_parse ServerMjs clock trains _ _ _ _ Et H1 H2 H3 H4
             : Server.handleAPI _ _ _ _ _ _ _ = _).
    split; [reflexivity|left; reflexivity].
Qed.

Lemma files_agree_witness :
  Departures.handler IsoDate.iso_parse Timetable.ticking Samples.trains
    Samples.buses733 Timetable.buses703 Samples.noBuses Samples.busesGlenWaverley
  = Server.handleAPI IsoDate.iso_parse Timetable.ticking Samples.trains
      Samples.buses733 Timetable.buses703 Samples.noBuses Samples.busesGlenWaverley.
Proof.
  apply (files_agree IsoDate.iso_parse Timetable.ticking Samples.trains
           Samples.buses733 Timetable.buses703 Samples.noBuses
           Samples.busesGlenWaverley); reflexivity.
Defined.
(** ** The order of the records of a feed *)

Lemma filter_Permutation' {A : Type} (p : A -> bool) (l l' : list A) :
  Permutation l l' -> Permutation (List.filter p l) (List.filter p l').
Proof.
  induction 1 as [|x l l' _ IH|x y l|l l' l'' _ IH1 _ IH2]; simpl.
  - constructor.
  - destruct (p x); [now constructor|exact IH].
  - destruct (p x), (p y); try reflexivity. apply perm_swap.
  - now transitivity (List.filter p l').
Qed.

Section Order.
Context {B : Type} (tm : B -> Date).

(** The time of the earliest element from a threshold on is that of any
    arrangement of the list. *)
Lemma earliestFrom_Permutation minTime l l' :
  Permutation l l' ->
  option_map tm (earliestFrom tm minTime l) = option_map tm (earliestFrom tm minTime l').
Proof.
  intros Hp.
  assert (Hside : forall l l' b, Permutation l l' ->
            earliestFrom tm minTime l = Some b ->
            exists b', earliestFrom tm minTime l' = Some b' /\
              forall t t', tm b = Some t -> tm b' = Some t' -> t' <= t).
  { clear l l' Hp. intros l l' b Hp E.
    apply earliestFrom_Some in E as (Hin & t & thr & Et & Ethr & Hle & _).
    destruct (earliestFrom tm minTime l') as [b'|] eqn:E'.
    - exists b'. split; [reflexivity|]. intros t0 t' Et0 Et'.
      rewrite Et in Et0. injection Et0 as <-.
      apply earliestFrom_Some in E' as (_ & t1 & thr1 & Et1 & Ethr1 & _ & Hmin).
      rewrite Et' in Et1. injection Et1 as <-.
      rewrite Ethr in Ethr1. injection Ethr1 as <-.
      apply (Hmin b t); [exact (Permutation_in _ Hp Hin)|exact Et|exact Hle].
    - pose proof (earliestFrom_None _ _ _ E' b (Permutation_in _ Hp Hin)) as Hno.
      rewrite Et, Ethr in Hno. simpl in Hno. apply Z.leb_gt in Hno. lia. }
  destruct (earliestFrom tm minTime l) as [b|] eqn:E.
  - destruct (Hside l l' b Hp E) as (b' & E' & H1). rewrite E'.
    destruct (Hside l' l b' (Permutation_sym Hp) E') as (b'' & E'' & H2).
    rewrite E in E''. injection E'' as <-.
    pose proof (earliestFrom_Some _ _ _ _ E) as (_ & t & _ & Et & _).
    pose proof (earliestFrom_Some _ _ _ _ E') as (_ & t' & _ & Et' & _).
    simpl. rewrite Et, Et'. do 2 f_equal.
    specialize (H1 t t' Et Et'). specialize (H2 t' t Et' Et). lia.
  - destruct (earliestFrom tm minTime l') as [b'|] eqn:E'; [|reflexivity].
    destruct (Hside l' l b' (Permutation_sym Hp) E') as (b'' & E'' & _).
    rewrite E in E''. discriminate E''.
Qed.

(** So is the time of the head of a list sorted by valid times. *)
Lemma head_sort_Permutation l l' :
  Permutation l l' ->
  (forall b, In b l -> isValid (tm b) = true) ->
  option_map tm (List.head (Array_sort (byDate tm) l))
  = option_map tm (List.head (Array_sort (byDate tm) l')).
Proof.
  intros Hp Hv.
  assert (Hv' : forall b, In b l' -> isValid (tm b) = true).
  { intros b Hb. apply Hv. exact (Permutation_in _ (Permutation_sym Hp) Hb). }
  destruct (List.head (Array_sort (byDate tm) l)) as [x|] eqn:E;
    destruct (List.head (Array_sort (byDate tm) l')) as [x'|] eqn:E'.
  - apply (head_sort_byDate_least tm l x Hv) in E as (Hin & t & Et & Hmin).
    apply (head_sort_byDate_least tm l' x' Hv') in E' as (Hin' & t' & Et' & Hmin').
    simpl. rewrite Et, Et'. do 2 f_equal.
    pose proof (Hmin x' t' (Permutation_in _ (Permutation_sym Hp) Hin') Et').
    pose proof (Hmin' x t (Permutation_in _ Hp Hin) Et).
    lia.
  - apply head_Array_sort_none in E'. subst l'.
    apply Permutation_sym, Permutation_nil in Hp. subst l. discriminate E.
  - apply head_Array_sort_none in E. subst l.
    apply Permutation_nil in Hp. subst l'. discriminate E'.
  - reflexivity.
Qed.
End Order.

Section OrderOfFeeds.
Variable Date_parse : string -> option Z.

Lemma optionBlock_time st arr route cands :
  optionBlock Date_parse st arr route cands
  = match option_map (resolvedDate Date_parse)
            (earliestFrom (resolvedDate Date_parse)
               (addMinutes arr MIN_TRANSFER_TIME) cands) with
    | Some busTime => let* o := assemble st arr route busTime in ret [o]
    | None => ret []
    end.
Proof. unfold optionBlock. now destruct (earliestFrom _ _ _). Qed.

Lemma optionBlock_Permutation st arr route cands cands' :
  Permutation cands cands' ->
  optionBlock Date_parse st arr route cands
  = optionBlock Date_parse st arr route cands'.
Proof.
  intros Hp. rewrite !optionBlock_time.
  now rewrite (earliestFrom_Permutation _ _ _ _ Hp).
Qed.

Lemma respondWith_time ds c1 c2 c3 c4 c5 :
  respondWith Date_parse ds c1 c2 c3 c4 c5
  = match option_map (resolvedDate Date_parse) (nextOutbound Date_parse ds) with
    | None => let* now := Date_now in ret (NoUpcomingTrains now)
    | Some t =>
        let a2 := addMinutes t (TRAIN_TRAVEL_FROM_MT_WAVERLEY syndal) in
        let a3 := addMinutes t (TRAIN_TRAVEL_FROM_MT_WAVERLEY glenWaverley) in
        let* options := optionsFrom Date_parse t a2 a3 c1 c2 c3 c4 c5 in
        let sorted := Array_sort byArrivalAtMonash options in
        let* now := Date_now in
        let* x1 := toISOString t in
        let* x2 := toISOString a2 in
        let* x3 := toISOString a3 in
        ret (Recommend {| timestamp := now;
                          nextTrain := {| atMountWaverley := x1;
                                          atSyndal := x2;
                                          atGlenWaverley := x3 |};
                          recommendation := List.head sorted;
                          allOptions := sorted |})
    end.
Proof. unfold respondWith. now destruct (nextOutbound Date_parse ds). Qed.

(** The common run looks at the outbound trains and at the candidates of
    each block as collections: their order does not matter. *)
Lemma respondWith_Permutation ds ds' c1 c2 c3 c4 c5 c1' c2' c3' c4' c5' :
  Permutation (List.filter isOutbound ds) (List.filter isOutbound ds') ->
  (forall d, In d ds -> isOutbound d = true ->
     isValid (resolvedDate Date_parse d) = true) ->
  Permutation c1 c1' -> Permutation c2 c2' -> Permutation c3 c3' ->
  Permutation c4 c4' -> Permutation c5 c5' ->
  respondWith Date_parse ds c1 c2 c3 c4 c5
  = respondWith Date_parse ds' c1' c2' c3' c4' c5'.
Proof.
  intros Hp Hv P1 P2 P3 P4 P5. rewrite !respondWith_time.
  unfold nextOutbound.
  rewrite (head_sort_Permutation (resolvedDate Date_parse) _ _ Hp)
    by (intros b Hb; apply filter_In in Hb as [Hb Ho]; now apply Hv).
  destruct (option_map _ _) as [t|]; [|reflexivity].
  cbv zeta. unfold optionsFrom.
  now rewrite (optionBlock_Permutation _ _ _ _ _ P1),
              (optionBlock_Permutation _ _ _ _ _ P2),
              (optionBlock_Permutation _ _ _ _ _ P3),
              (optionBlock_Permutation _ _ _ _ _ P4),
              (optionBlock_Permutation _ _ _ _ _ P5).
Qed.

Lemma sentWith_Permutation ds ds' c1 c2 c3 c4 c5 c1' c2' c3' c4' c5' clock :
  Permutation (List.filter isOutbound ds) (List.filter isOutbound ds') ->
  (forall d, In d ds -> isOutbound d = true ->
     isValid (resolvedDate Date_parse d) = true) ->
  Permutation c1 c1' -> Permutation c2 c2' -> Permutation c3 c3' ->
  Permutation c4 c4' -> Permutation c5 c5' ->
  sentWith Date_parse ds c1 c2 c3 c4 c5 clock
  = sentWith Date_parse ds' c1' c2' c3' c4' c5' clock.
Proof.
  intros Hp Hv P1 P2 P3 P4 P5.
  assert (E : forall l k1 k2 k3 k4 k5,
            sentWith Date_parse l k1 k2 k3 k4 k5 clock
            = match option_map (resolvedDate Date_parse) (nextOutbound Date_parse l) with
              | None => true
              | Some t =>
                  match optionsFrom Date_parse t
                          (addMinutes t (TRAIN_TRAVEL_FROM_MT_WAVERLEY syndal))
                          (addMinutes t (TRAIN_TRAVEL_FROM_MT_WAVERLEY glenWaverley))
                          k1 k2 k3 k4 k5 clock 0%nat with
                  | Return _ => true
                  | Throw _ => false
                  end
              end).
  { intros l k1 k2 k3 k4 k5. unfold sentWith.
    now destruct (nextOutbound Date_parse l). }
  rewrite !E. unfold nextOutbound.
  rewrite (head_sort_Permutation (resolvedDate Date_parse) _ _ Hp)
    by (intros b Hb; apply filter_In in Hb as [Hb Ho]; now apply Hv).
  destruct (option_map _ _) as [t|]; [|reflexivity].
  unfold optionsFrom.
  now rewrite (optionBlock_Permutation _ _ _ _ _ P1),
              (optionBlock_Permutation _ _ _ _ _ P2),
              (optionBlock_Permutation _ _ _ _ _ P3),
              (optionBlock_Permutation _ _ _ _ _ P4),
              (optionBlock_Permutation _ _ _ _ _ P5).
Qed.

Lemma candidates_reordered f st route p p' :
  reordered p p' ->
  Permutation (candidates f st route p) (candidates f st route p').
Proof.
  intros (Er & _ & _ & Hp).
  destruct f; simpl; [unfold candidatesD; destruct st|unfold candidatesS];
    unfold Departures.wantedRoute; rewrite Er;
    repeat apply filter_Permutation'; exact Hp.
Qed.
End OrderOfFeeds.

(** X8. The order of the records of the feeds does not matter: a response is
    that for the same records in any other order, as long as the trains in
    the direction of Glen Waverley have valid times (with an Invalid Date
    among them the comparator of the sort is not an order). *)
Theorem feed_order_is_irrelevant (f : File) (Date_parse : string -> option Z)
    (clock : nat -> Z)
    (trains mw733 syn703 syn737 gw trains' mw733' syn703' syn737' gw' : Payload) :
  reordered trains trains' ->
  reordered mw733 mw733' -> reordered syn703 syn703' ->
  reordered syn737 syn737' -> reordered gw gw' ->
  timedOutbound Date_parse trains = true ->
  run f Date_parse clock trains' mw733' syn703' syn737' gw'
  = run f Date_parse clock trains mw733 syn703 syn737 gw.
Proof.
  intros Rt R1 R2 R3 R4 Hv.
  pose proof Rt as (_ & Ht & Ht' & Hpt).
  pose proof R1 as (_ & H1 & H1' & _). pose proof R2 as (_ & H2 & H2' & _).
  pose proof R3 as (_ & H3 & H3' & _). pose proof R4 as (_ & H4 & H4' & _).
  apply hasDepartures_true in H1, H2, H3, H4, H1', H2', H3', H4'.
  unfold listOf, hasDepartures in Hpt, Ht, Ht', Hv |- *.
  unfold timedOutbound, listOf in Hv.
  destruct (departures trains) as [ds|] eqn:Et; [|discriminate Ht].
  destruct (departures trains') as [ds'|] eqn:Et'; [|discriminate Ht'].
  rewrite (run_is_respondWith Date_parse f clock trains _ _ _ _ ds Et H1 H2 H3 H4),
          (run_is_respondWith Date_parse f clock trains' _ _ _ _ ds' Et' H1' H2' H3' H4').
  assert (Hvalid : forall d, In d ds -> isOutbound d = true ->
                     isValid (resolvedDate Date_parse d) = true).
  { intros d Hd Ho. rewrite forallb_forall in Hv. specialize (Hv d Hd).
    now rewrite Ho in Hv. }
  assert (Hout : Permutation (List.filter isOutbound ds) (List.filter isOutbound ds'))
    by now apply filter_Permutation'.
  pose proof (candidates_reordered f mountWaverley "733" _ _ R1) as P1.
  pose proof (candidates_reordered f syndal "703" _ _ R2) as P2.
  pose proof (candidates_reordered f syndal "737" _ _ R3) as P3.
  pose proof (candidates_reordered f glenWaverley "742" _ _ R4) as P4.
  pose proof (candidates_reordered f glenWaverley "737" _ _ R4) as P5.
  rewrite (sentWith_Permutation Date_parse ds ds' _ _ _ _ _ _ _ _ _ _ clock
             Hout Hvalid P1 P2 P3 P4 P5),
          (respondWith_Permutation Date_parse ds ds' _ _ _ _ _ _ _ _ _ _
             Hout Hvalid P1 P2 P3 P4 P5).
  reflexivity.
Qed.

Lemma feed_order_is_irrelevant_witness :
  run ApiDepartures IsoDate.iso_parse Samples.clock
    (Timetable.reversed Samples.trains) (Timetable.reversed Samples.buses733)
    (Timetable.reversed Timetable.buses703) (Timetable.reversed Timetable.buses737)
    (Timetable.reversed Samples.busesGlenWaverley)
  = run ApiDepartures IsoDate.iso_parse Samples.clock Samples.trains
      Samples.buses733 Timetable.buses703 Timetable.buses737 Samples.busesGlenWaverley.
Proof.
  apply (feed_order_is_irrelevant ApiDepartures IsoDate.iso_parse Samples.clock
           Samples.trains Samples.buses733 Timetable.buses703 Timetable.buses737
           Samples.busesGlenWaverley);
    try reflexivity;
    (split; [reflexivity|]; split; [reflexivity|]; split; [reflexivity|];
     apply Permutation_rev).
Defined.

(** ** When a run fails, and when it finds no train *)

Lemma BUS_TRAVEL_TIMES_bounds route : 0 <= BUS_TRAVEL_TIMES route <= 17.
Proof.
  unfold BUS_TRAVEL_TIMES.
  repeat match goal with |- context [String.eqb ?a ?b] => destruct (String.eqb a b) end;
    lia.
Qed.

Lemma candidates_In f st route p d :
  In d (candidates f st route p) -> In d (listOf p).
Proof.
  destruct f; simpl; [unfold candidatesD; destruct st|unfold candidatesS];
    rewrite ?filter_In; tauto.
Qed.

Section Totality.
Variable Date_parse : string -> option Z.

Lemma assemble_total st ta route bd clock n :
  Z.abs (bd + BUS_TRAVEL_TIMES route * 60 * 1000) <= maxTime ->
  assemble st (Some ta) route (Some bd) clock n
  = Return (optionObject st ta route bd (BUS_TRAVEL_TIMES route)
              (bd + BUS_TRAVEL_TIMES route * 60 * 1000) (clock n), S n).
Proof.
  intros H. unfold assemble. rewrite (addMinutes_in_range _ _ H). reflexivity.
Qed.

Lemma optionBlock_total st ta route cands clock n :
  (forall d bd, In d cands -> resolvedDate Date_parse d = Some bd ->
     bd + 17 * 60 * 1000 <= maxTime) ->
  exists os,
    optionBlock Date_parse st (Some ta) route cands clock n
    = Return (os, (n + length os)%nat).
Proof.
  intros Hc. unfold optionBlock.
  destruct (earliestFrom _ _ cands) as [d|] eqn:E.
  - apply earliestFrom_Some in E as (Hin & bd & thr & Ebd & _).
    pose proof (Hc d bd Hin Ebd) as Hle.
    pose proof (resolvedDate_range _ _ _ Ebd) as Hr.
    pose proof (BUS_TRAVEL_TIMES_bounds route) as Hb.
    rewrite Ebd. unfold bind. rewrite assemble_total by lia.
    eexists [_]. unfold ret. simpl. do 2 f_equal. lia.
  - exists []. unfold ret. simpl. do 2 f_equal. lia.
Qed.

Lemma optionsFrom_total t1 t2 t3 c1 c2 c3 c4 c5 clock n :
  (forall d bd, In d (c1 ++ c2 ++ c3 ++ c4 ++ c5) ->
     resolvedDate Date_parse d = Some bd -> bd + 17 * 60 * 1000 <= maxTime) ->
  exists opts n',
    optionsFrom Date_parse (Some t1) (Some t2) (Some t3) c1 c2 c3 c4 c5 clock n
    = Return (opts, n').
Proof.
  intros Hc. unfold optionsFrom.
  assert (H1 := fun m => optionBlock_total mountWaverley t1 "733" c1 clock m
                   (fun d bd Hd => Hc d bd ltac:(rewrite !in_app_iff; tauto))).
  assert (H2 := fun m => optionBlock_total syndal t2 "703" c2 clock m
                   (fun d bd Hd => Hc d bd ltac:(rewrite !in_app_iff; tauto))).
  assert (H3 := fun m => optionBlock_total syndal t2 "737" c3 clock m
                   (fun d bd Hd => Hc d bd ltac:(rewrite !in_app_iff; tauto))).
  assert (H4 := fun m => optionBlock_total glenWaverley t3 "742" c4 clock m
                   (fun d bd Hd => Hc d bd ltac:(rewrite !in_app_iff; tauto))).
  assert (H5 := fun m => optionBlock_total glenWaverley t3 "737" c5 clock m
                   (fun d bd Hd => Hc d bd ltac:(rewrite !in_app_iff; tauto))).
  destruct (H1 n) as [o1 E1]. rewrite (bind_eq _ _ _ _ _ _ E1).
  destruct (H2 (n + length o1)%nat) as [o2 E2]. rewrite (bind_eq _ _ _ _ _ _ E2).
  destruct (H3 (n + length o1 + length o2)%nat) as [o3 E3].
  rewrite (bind_eq _ _ _ _ _ _ E3).
  destruct (H4 (n + length o1 + length o2 + length o3)%nat) as [o4 E4].
  rewrite (bind_eq _ _ _ _ _ _ E4).
  destruct (H5 (n + length o1 + length o2 + length o3 + length o4)%nat) as [o5 E5].
  rewrite (bind_eq _ _ _ _ _ _ E5).
  eexists _, _. reflexivity.
Qed.

(** With trains and buses in time, the common run returns. *)
Lemma respondWith_total ds c1 c2 c3 c4 c5 clock :
  (forall d, In d ds -> isOutbound d = true ->
     inTime (TRAIN_TRAVEL_FROM_MT_WAVERLEY glenWaverley) (resolvedDate Date_parse d) = true) ->
  (forall d bd, In d (c1 ++ c2 ++ c3 ++ c4 ++ c5) ->
     resolvedDate Date_parse d = Some bd -> bd + 17 * 60 * 1000 <= maxTime) ->
  (exists now,
     respond (respondWith Date_parse ds c1 c2 c3 c4 c5) clock = NoUpcomingTrains now) \/
  (exists r,
     respond (respondWith Date_parse ds c1 c2 c3 c4 c5) clock = Recommend r).
Proof.
  intros Ht Hc. unfold respond, respondWith, nextOutbound.
  destruct (List.head _) as [d|] eqn:E; [right|left; eexists; reflexivity].
  apply head_In, Array_sort_In, filter_In in E as [Hin Ho].
  specialize (Ht d Hin Ho). unfold inTime in Ht.
  destruct (resolvedDate Date_parse d) as [t|] eqn:Et; [|discriminate Ht].
  apply Z.leb_le in Ht. pose proof (resolvedDate_range _ _ _ Et) as Hr.
  cbv zeta.
  rewrite !addMinutes_in_range by (simpl in *; lia).
  destruct (optionsFrom_total t
              (t + TRAIN_TRAVEL_FROM_MT_WAVERLEY syndal * 60 * 1000)
              (t + TRAIN_TRAVEL_FROM_MT_WAVERLEY glenWaverley * 60 * 1000)
              c1 c2 c3 c4 c5 clock 0%nat Hc) as (opts & n' & Eo).
  rewrite (bind_eq _ _ _ _ _ _ Eo). eexists. reflexivity.
Qed.
End Totality.

(** X10. The run answers 200, not the 500 of the catch block, when the
    five feeds have their lists of departures, every train towards Glen
    Waverley has a valid time from which the six minutes to Glen Waverley
    can be counted, and the valid times of the buses leave room for the
    longest ride: the failures left are those of the requests themselves. *)
Theorem timed_feeds_never_fail (f : File) (Date_parse : string -> option Z)
    (clock : nat -> Z) (trains mw733 syn703 syn737 gw : Payload) :
  hasDepartures trains = true ->
  hasDepartures mw733 = true -> hasDepartures syn703 = true ->
  hasDepartures syn737 = true -> hasDepartures gw = true ->
  timedTrains Date_parse trains = true ->
  timedBuses Date_parse mw733 = true -> timedBuses Date_parse syn703 = true ->
  timedBuses Date_parse syn737 = true -> timedBuses Date_parse gw = true ->
  (exists now,
     run f Date_parse clock trains mw733 syn703 syn737 gw = NoUpcomingTrains now) \/
  (exists r,
     run f Date_parse clock trains mw733 syn703 syn737 gw = Recommend r).
Proof.
  intros Ht H1 H2 H3 H4 Tt T1 T2 T3 T4.
  apply hasDepartures_true in H1, H2, H3, H4.
  unfold hasDepartures in Ht. unfold timedTrains, listOf in Tt.
  destruct (departures trains) as [ds|] eqn:Et; [|discriminate Ht].
  assert (Hin : forall d, In d ds -> isOutbound d = true ->
            inTime (TRAIN_TRAVEL_FROM_MT_WAVERLEY glenWaverley)
              (resolvedDate Date_parse d) = true).
  { intros d Hd Ho. rewrite forallb_forall in Tt. specialize (Tt d Hd).
    now rewrite Ho in Tt. }
  rewrite (run_is_respondWith Date_parse f clock trains _ _ _ _ ds Et H1 H2 H3 H4).
  assert (Ea : forall sent c1 c2 c3 c4 c5,
            sent = sentWith Date_parse ds c1 c2 c3 c4 c5 clock ->
            answer f sent (respond (respondWith Date_parse ds c1 c2 c3 c4 c5) clock)
            = respond (respondWith Date_parse ds c1 c2 c3 c4 c5) clock).
  { intros sent c1 c2 c3 c4 c5 ->. destruct f; [reflexivity|].
    now apply catchAfter_timed. }
  rewrite (Ea _ _ _ _ _ _ eq_refl).
  apply respondWith_total.
  - exact Hin.
  - assert (Hbus : forall st route p d bd, timedBuses Date_parse p = true ->
              In d (candidates f st route p) ->
              resolvedDate Date_parse d = Some bd -> bd + 17 * 60 * 1000 <= maxTime).
    { intros st route p d bd T Hd Ebd. apply candidates_In in Hd.
      unfold timedBuses in T. rewrite forallb_forall in T. specialize (T d Hd).
      rewrite Ebd in T. simpl in T. now apply Z.leb_le in T. }
    intros d bd Hd. rewrite !in_app_iff in Hd.
    destruct Hd as [Hd|[Hd|[Hd|[Hd|Hd]]]]; eauto.
Qed.

Lemma timed_feeds_never_fail_witness :
  (exists now,
     run ServerMjs IsoDate.iso_parse Timetable.ticking Samples.trains
       Samples.buses733 Timetable.buses703 Timetable.buses737 Samples.busesGlenWaverley
     = NoUpcomingTrains now) \/
  (exists r,
     run ServerMjs IsoDate.iso_parse Timetable.ticking Samples.trains
       Samples.buses733 Timetable.buses703 Timetable.buses737 Samples.busesGlenWaverley
     = Recommend r).
Proof.
  apply (timed_feeds_never_fail ServerMjs IsoDate.iso_parse Timetable.ticking
           Samples.trains Samples.buses733 Timetable.buses703 Timetable.buses737
           Samples.busesGlenWaverley); reflexivity.
Defined.

(** X11. The response that no train is coming is given exactly when the feed of
    the trains has a list of departures with none in the direction of Glen
    Waverley; its timestamp is the first read of the clock.  In
    api/departures.js the four bus feeds have been filtered by then, so
    that their lists of departures must be there too; server.mjs does not
    look at them. *)
Theorem no_train_response_iff (f : File) (Date_parse : string -> option Z)
    (clock : nat -> Z) (trains mw733 syn703 syn737 gw : Payload) (now : Z) :
  run f Date_parse clock trains mw733 syn703 syn737 gw = NoUpcomingTrains now
  <->
  hasDepartures trains = true /\
  List.filter isOutbound (listOf trains) = [] /\
  now = clock 0%nat /\
  (f = ApiDepartures ->
   hasDepartures mw733 = true /\ hasDepartures syn703 = true /\
   hasDepartures syn737 = true /\ hasDepartures gw = true).
Proof.
  assert (Hcore : forall ds c1 c2 c3 c4 c5,
            respond (respondWith Date_parse ds c1 c2 c3 c4 c5) clock
            = NoUpcomingTrains now
            <-> List.filter isOutbound ds = [] /\ now = clock 0%nat).
  { intros ds c1 c2 c3 c4 c5. unfold respond, respondWith, nextOutbound.
    destruct (List.head _) as [d|] eqn:E.
    - split.
      + cbv zeta. unfold bind at 1.
        destruct (optionsFrom _ _ _ _ _ _ _ _ _ _ _) as [[opts n]|]; [|discriminate].
        unfold bind, Date_now.
        destruct (toISOString (resolvedDate Date_parse d) clock (S n)) as [[? ?]|];
          [|discriminate].
        destruct (toISOString _ clock _) as [[? ?]|]; [|discriminate].
        destruct (toISOString _ clock _) as [[? ?]|]; discriminate.
      + intros [Hnil _]. rewrite Hnil in E. discriminate E.
    - apply head_Array_sort_none in E. rewrite E. simpl.
      split; [intros [= ->]; auto|intros [_ ->]; reflexivity]. }
  unfold hasDepartures, listOf.
  destruct f; simpl run.
  - destruct (departures mw733) as [l1|] eqn:E1;
    destruct (departures syn703) as [l2|] eqn:E2;
    destruct (departures syn737) as [l3|] eqn:E3;
    destruct (departures gw) as [l4|] eqn:E4;
    try (split;
         [ unfold Departures.handler, respond, Departures.handlerBody,
             Departures.getBusDepartures, departuresOf, bind;
           rewrite ?E1, ?E2, ?E3, ?E4; simpl; discriminate
         | intros (_ & _ & _ & H); specialize (H eq_refl);
           destruct H as (? & ? & ? & ?); discriminate ]).
    destruct (departures trains) as [ds|] eqn:Et.
    + rewrite (handler_respondWith Date_parse clock trains _ _ _ _ ds Et)
        by (rewrite ?E1, ?E2, ?E3, ?E4; discriminate).
      rewrite Hcore. intuition.
    + rewrite (run_without_trains Date_parse ApiDepartures clock trains _ _ _ _ Et
                 ltac:(rewrite E1; discriminate) ltac:(rewrite E2; discriminate)
                 ltac:(rewrite E3; discriminate) ltac:(rewrite E4; discriminate)
               : Departures.handler _ _ _ _ _ _ _ = _).
      split; [discriminate|]. intros [H _]. discriminate H.
  - destruct (departures trains) as [ds|] eqn:Et.
    + assert (E : Server.handleAPI Date_parse clock trains mw733 syn703 syn737 gw
                  = NoUpcomingTrains now
                  <-> List.filter isOutbound ds = [] /\ now = clock 0%nat).
      { split.
        - intros H. apply handleAPI_NoUpcomingTrains in H as [n H].
          apply handleAPIBody_NoUpcomingTrains in H as (ds0 & E0 & Hnil & ->).
          rewrite Et in E0. injection E0 as <-. now split.
        - intros [Hnil ->]. destruct trains as [dt rs]. simpl in Et. subst dt.
          apply (handleAPI_Return _ _ _ _ _ _ _ _ 1%nat).
          apply handleAPIBody_no_train. intros d Hd.
          destruct (isOutbound d) eqn:Ho; [|reflexivity].
          assert (Hf : In d (List.filter isOutbound ds)) by (apply filter_In; now split).
          rewrite Hnil in Hf. destruct Hf. }
      rewrite E. split; [intros [? ?]; repeat split; auto; discriminate|tauto].
    + unfold Server.handleAPI, Server.beforeWriteHead, bind, departuresOf.
      rewrite Et. split; [discriminate|]. intros [H _]. discriminate H.
Qed.

(** ** A later train *)

Section LaterTrain.
Variable Date_parse : string -> option Z.

Lemma run_arrivals f clock trains p1 p2 p3 p4 r st :
  run f Date_parse clock trains p1 p2 p3 p4 = Recommend r ->
  arrivalAt (nextTrain r) st
  = atMountWaverley (nextTrain r) + TRAIN_TRAVEL_FROM_MT_WAVERLEY st * 60 * 1000.
Proof.
  intros H. apply run_respondWith in H as (ds & _ & H).
  apply respondWith_Recommend in H
    as (d & t & opts & _ & _ & E1 & E2 & E3 & _).
  apply addMinutes_Some in E2 as (? & [= <-] & E2 & _).
  apply addMinutes_Some in E3 as (? & [= <-] & E3 & _).
  destruct st; simpl in *; lia.
Qed.

(** A candidate that can be caught gives its pair an itinerary, with a bus
    that leaves no later. *)
Lemma run_pair_served f clock trains p1 p2 p3 p4 r st route p d bd :
  run f Date_parse clock trains p1 p2 p3 p4 = Recommend r ->
  In (st, route, p) (blocksOf p1 p2 p3 p4) ->
  In d (candidates f st route p) ->
  resolvedDate Date_parse d = Some bd ->
  arrivalAt (nextTrain r) st + MIN_TRANSFER_TIME * 60 * 1000 <= bd ->
  exists o,
    In o (allOptions r) /\ station o = stationName st /\ bus_route o = route /\
    bus_departure o <= bd /\
    arrivalAtMonash o = bus_departure o + BUS_TRAVEL_TIMES route * 60 * 1000.
Proof.
  intros H Hb Hd Ebd Hle.
  destruct (run_pair _ _ _ _ _ _ _ _ _ _ _ _ H Hb) as (os & n & B & Hall & _).
  pose proof (run_arrivals_range _ _ _ _ _ _ _ _ _ st H) as Ha.
  pose proof (resolvedDate_range _ _ _ Ebd) as Hbd.
  destruct os as [|o os].
  - unfold blockOutcome in B.
    destruct (earliestFrom _ _ _) as [d0|] eqn:E.
    + destruct B as (? & ? & _ & _ & B). discriminate B.
    + pose proof (earliestFrom_None _ _ _ E d Hd) as Hno.
      rewrite Ebd, addMinutes_in_range in Hno by (unfold MIN_TRANSFER_TIME in *; lia).
      simpl in Hno. apply Z.leb_gt in Hno. lia.
  - destruct (blockOutcome_In _ _ _ _ _ _ _ o B ltac:(now left))
      as (d0 & ta & bd0 & _ & [= <-] & _ & _ & Hmin & ->).
    eexists. split; [apply Hall; now left|]. simpl. repeat split.
    now apply (Hmin d bd).
Qed.

Lemma recommendation_least f clock trains p1 p2 p3 p4 r o :
  run f Date_parse clock trains p1 p2 p3 p4 = Recommend r ->
  In o (allOptions r) ->
  exists best, recommendation r = Some best /\
    arrivalAtMonash best <= arrivalAtMonash o.
Proof.
  intros H Ho.
  apply run_blocks in H
    as (o1 & o2 & o3 & o4 & o5 & _ & _ & _ & _ & _ & Eall & Erec & _).
  rewrite Erec, Eall in *.
  destruct (List.head _) as [best|] eqn:E.
  - exists best. split; [reflexivity|].
    apply (head_Array_sort_least arrivalAtMonash) in E as [_ Hleast].
    apply Hleast. now apply Array_sort_In in Ho.
  - apply head_Array_sort_none in E. apply Array_sort_In in Ho.
    rewrite E in Ho. destruct Ho.
Qed.
End LaterTrain.

(** X9. A later train never brings an earlier arrival: of two recommendations
    from the same bus feeds, the one for the train that is not later
    reaches Monash no later, and has a recommendation whenever the other
    has one. *)
Theorem later_train_no_earlier_arrival (f : File) (Date_parse : string -> option Z)
    (clock clock' : nat -> Z) (trains trains' mw733 syn703 syn737 gw : Payload)
    (r r' : RecommendationResult) (best' : Itinerary) :
  run f Date_parse clock trains mw733 syn703 syn737 gw = Recommend r ->
  run f Date_parse clock' trains' mw733 syn703 syn737 gw = Recommend r' ->
  atMountWaverley (nextTrain r) <= atMountWaverley (nextTrain r') ->
  recommendation r' = Some best' ->
  exists best,
    recommendation r = Some best /\
    arrivalAtMonash best <= arrivalAtMonash best'.
Proof.
  intros H H' Hle Hbest'.
  pose proof (run_blocks _ _ _ _ _ _ _ _ _ H')
    as (_ & _ & _ & _ & _ & _ & _ & _ & _ & _ & _ & Erec' & _).
  rewrite Erec' in Hbest'. apply head_In in Hbest'.
  destruct (run_option _ _ _ _ _ _ _ _ _ _ H' Hbest')
    as (st & route & p & d & bd & i & Hb & Hd & Ebd & Hfeas & _ & _ & ->).
  rewrite (run_arrivals _ _ _ _ _ _ _ _ _ st H') in Hfeas.
  assert (Hfeas0 : arrivalAt (nextTrain r) st + MIN_TRANSFER_TIME * 60 * 1000 <= bd)
    by (rewrite (run_arrivals _ _ _ _ _ _ _ _ _ st H); lia).
  destruct (run_pair_served _ _ _ _ _ _ _ _ _ _ _ _ _ _ H Hb Hd Ebd Hfeas0)
    as (o & Ho & _ & _ & Hdep & Harr).
  destruct (recommendation_least _ _ _ _ _ _ _ _ _ _ H Ho) as (best & Hbest & Hmin).
  exists best. split; [exact Hbest|]. simpl. lia.
Qed.

Lemma later_train_no_earlier_arrival_witness :
  exists r r' best',
    run ApiDepartures IsoDate.iso_parse Samples.clock Samples.trains
      Samples.buses733 Timetable.buses703 Timetable.buses737 Samples.busesGlenWaverley
    = Recommend r /\
    run ApiDepartures IsoDate.iso_parse Samples.clock Timetable.laterTrain
      Samples.buses733 Timetable.buses703 Timetable.buses737 Samples.busesGlenWaverley
    = Recommend r' /\
    recommendation r' = Some best' /\
    arrivalAtMonash best' = Samples.t1000 + 27 * 60 * 1000 /\
    exists best,
      recommendation r = Some best /\
      arrivalAtMonash best <= arrivalAtMonash best'.
Proof.
  eexists _, _, _.
  split; [vm_compute; reflexivity|]. split; [vm_compute; reflexivity|].
  split; [reflexivity|]. split; [reflexivity|].
  eapply (later_train_no_earlier_arrival ApiDepartures IsoDate.iso_parse
            Samples.clock Samples.clock Samples.trains Timetable.laterTrain
            Samples.buses733 Timetable.buses703 Timetable.buses737
            Samples.busesGlenWaverley);
    [vm_compute; reflexivity|vm_compute; reflexivity|vm_compute; discriminate
    |reflexivity].
Defined.

(** ** The recommendation among all the buses *)

(** X14. The recommendation is the earliest arrival at Monash that the
    next train allows: whatever departure of a feed, on the route of one of
    its station/route pairs, can be caught at the station, riding it does
    not reach Monash before the recommended itinerary does. *)
Theorem recommendation_is_earliest_arrival (f : File)
    (Date_parse : string -> option Z)
    (clock : nat -> Z) (trains mw733 syn703 syn737 gw : Payload)
    (r : RecommendationResult) (st : Station) (route : string) (p : Payload)
    (d : RawDeparture) (bd : Z) :
  run f Date_parse clock trains mw733 syn703 syn737 gw = Recommend r ->
  In (st, route, p) (blocksOf mw733 syn703 syn737 gw) ->
  In d (listOf p) -> served f st route p d ->
  resolvedDate Date_parse d = Some bd ->
  arrivalAt (nextTrain r) st + MIN_TRANSFER_TIME * 60 * 1000 <= bd ->
  exists best,
    recommendation r = Some best /\
    arrivalAtMonash best <= bd + BUS_TRAVEL_TIMES route * 60 * 1000.
Proof.
  intros H Hb Hin Hs Ebd Hle.
  assert (Hd : In d (candidates f st route p))
    by (apply (candidates_served _ _ _ _ _ _ _ _ _ Hb); auto).
  destruct (run_pair_served _ _ _ _ _ _ _ _ _ _ _ _ _ _ H Hb Hd Ebd Hle)
    as (o & Ho & _ & _ & Hdep & Harr).
  destruct (recommendation_least _ _ _ _ _ _ _ _ _ _ H Ho) as (best & Hbest & Hmin).
  exists best. split; [exact Hbest|lia].
Qed.

Lemma recommendation_is_earliest_arrival_witness :
  exists r,
    run ServerMjs IsoDate.iso_parse Samples.clock Samples.trains
      Samples.buses733 Timetable.buses703 Timetable.buses737 Samples.busesGlenWaverley
    = Recommend r /\
    exists best,
      recommendation r = Some best /\
      arrivalAtMonash best
      <= Samples.t1000 + 12 * 60 * 1000 + BUS_TRAVEL_TIMES "742" * 60 * 1000.
Proof.
  eexists. split; [vm_compute; reflexivity|].
  eapply (recommendation_is_earliest_arrival ServerMjs IsoDate.iso_parse
            Samples.clock Samples.trains Samples.buses733 Timetable.buses703
            Timetable.buses737 Samples.busesGlenWaverley _ glenWaverley "742"
            Samples.busesGlenWaverley
            (Samples.departure 6 None (JStr "2024-03-01T10:12:00Z") JNull)
            (Samples.t1000 + 12 * 60 * 1000));
    [ vm_compute; reflexivity | simpl; auto | simpl; auto
    | exists (Samples.numbered "742"); split; [reflexivity|left; reflexivity]
    | reflexivity
    | vm_compute; discriminate ].
Defined.

(** X15. A response recommends nothing exactly when no departure of any
    feed, on the route of one of its station/route pairs, can be caught
    from the next train. *)
Theorem no_recommendation_iff_no_catchable_bus (f : File)
    (Date_parse : string -> option Z)
    (clock : nat -> Z) (trains mw733 syn703 syn737 gw : Payload)
    (r : RecommendationResult) :
  run f Date_parse clock trains mw733 syn703 syn737 gw = Recommend r ->
  recommendation r = None
  <->
  (forall st route p d bd,
     In (st, route, p) (blocksOf mw733 syn703 syn737 gw) ->
     In d (listOf p) -> served f st route p d ->
     resolvedDate Date_parse d = Some bd ->
     bd < arrivalAt (nextTrain r) st + MIN_TRANSFER_TIME * 60 * 1000).
Proof.
  intros H. split.
  - intros Hnone st route p d bd Hb Hin Hs Ebd.
    destruct (Z.lt_ge_cases bd
                (arrivalAt (nextTrain r) st + MIN_TRANSFER_TIME * 60 * 1000))
      as [Hlt|Hle]; [exact Hlt|exfalso].
    assert (Hd : In d (candidates f st route p))
      by (apply (candidates_served _ _ _ _ _ _ _ _ _ Hb); auto).
    destruct (run_pair_served _ _ _ _ _ _ _ _ _ _ _ _ _ _ H Hb Hd Ebd Hle)
      as (o & Ho & _).
    destruct (recommendation_least _ _ _ _ _ _ _ _ _ _ H Ho) as (best & Hbest & _).
    congruence.
  - intros Hall.
    destruct (recommendation r) as [best|] eqn:Hbest; [exfalso|reflexivity].
    pose proof (run_blocks _ _ _ _ _ _ _ _ _ H)
      as (_ & _ & _ & _ & _ & _ & _ & _ & _ & _ & _ & Erec & _).
    rewrite Erec in Hbest. apply head_In in Hbest.
    destruct (run_option _ _ _ _ _ _ _ _ _ _ H Hbest)
      as (st & route & p & d & bd & i & Hb & Hd & Ebd & Hle & _).
    apply (candidates_served _ _ _ _ _ _ _ _ _ Hb) in Hd as [Hin Hs].
    specialize (Hall st route p d bd Hb Hin Hs Ebd). lia.
Qed.

Lemma no_recommendation_iff_no_catchable_bus_witness :
  exists r,
    run ApiDepartures IsoDate.iso_parse Samples.clock Samples.trains
      Samples.noBuses Samples.noBuses Samples.noBuses Samples.noBuses
    = Recommend r /\
    (recommendation r = None
     <->
     (forall st route p d bd,
        In (st, route, p)
          (blocksOf Samples.noBuses Samples.noBuses Samples.noBuses Samples.noBuses) ->
        In d (listOf p) -> served ApiDepartures st route p d ->
        resolvedDate IsoDate.iso_parse d = Some bd ->
        bd < arrivalAt (nextTrain r) st + MIN_TRANSFER_TIME * 60 * 1000)).
Proof.
  eexists. split; [vm_compute; reflexivity|].
  apply (no_recommendation_iff_no_catchable_bus ApiDepartures IsoDate.iso_parse
           Samples.clock Samples.trains Samples.noBuses Samples.noBuses
           Samples.noBuses Samples.noBuses).
  vm_compute. reflexivity.
Defined.

(** * The environment file of server.mjs *)

Module EnvFileFacts.
Import EnvFile.

Lemma split_not_nil sep s : split sep s <> [].
Proof.
  destruct s as [|c s]; simpl; [discriminate|].
  destruct (c =? sep)%N; [discriminate|]. destruct (split sep s); discriminate.
Qed.

Lemma split_without sep s : ~ In sep s -> split sep s = [s].
Proof.
  induction s as [|c s IH]; simpl; intros H; [reflexivity|].
  destruct (N.eqb_spec c sep) as [->|_]; [tauto|].
  rewrite IH by tauto. reflexivity.
Qed.

Lemma split_app sep a b :
  ~ In sep a -> split sep (a ++ sep :: b) = a :: split sep b.
Proof.
  induction a as [|c a IH]; simpl; intros H.
  - now rewrite N.eqb_refl.
  - destruct (N.eqb_spec c sep) as [->|_]; [tauto|].
    rewrite IH by tauto. reflexivity.
Qed.

(** No piece holds the separator. *)
Lemma split_pieces sep s piece : In piece (split sep s) -> ~ In sep piece.
Proof.
  revert piece. induction s as [|c s IH]; simpl; intros piece H.
  - destruct H as [<-|[]]. tauto.
  - destruct (N.eqb_spec c sep) as [->|Hne].
    + destruct H as [<-|H]; [tauto|now apply IH].
    + destruct (split sep s) as [|w ws]; [destruct H as [<-|[]]; simpl; tauto|].
      destruct H as [<-|H].
      * simpl. intros [E|E]; [congruence|]. revert E. apply IH. now left.
      * apply IH. now right.
Qed.

(** The pieces are parts of the string. *)
Lemma split_part sep s piece c : In piece (split sep s) -> In c piece -> In c s.
Proof.
  revert piece. induction s as [|x s IH]; simpl; intros piece H Hc.
  - destruct H as [<-|[]]. destruct Hc.
  - destruct (x =? sep)%N.
    + destruct H as [<-|H]; [destruct Hc|]. right. eapply IH; eassumption.
    + destruct (split sep s) as [|w ws].
      * destruct H as [<-|[]]. destruct Hc as [->|[]]. now left.
      * destruct H as [<-|H].
        -- destruct Hc as [->|Hc]; [now left|]. right. apply (IH w); [now left|exact Hc].
        -- right. apply (IH piece); [now right|exact Hc].
Qed.

Lemma split_join lines :
  lines <> [] -> Forall (fun line => ~ In LF line) lines ->
  split LF (join lines) = lines.
Proof.
  induction lines as [|line rest IH]; [congruence|]. intros _ H.
  apply Forall_cons_iff in H as [Hline Hrest].
  destruct rest as [|line' rest].
  - simpl. now apply split_without.
  - change (join (line :: line' :: rest)) with (line ++ LF :: join (line' :: rest)).
    rewrite split_app by exact Hline. f_equal. apply IH; [discriminate|exact Hrest].
Qed.

Lemma trimStart_blank a s : blank a = true -> trimStart (a ++ s) = trimStart s.
Proof.
  induction a as [|c a IH]; simpl; [reflexivity|]. intros H.
  apply andb_true_iff in H as [Hc Ha]. apply andb_true_iff in Hc as [Hc _].
  rewrite Hc. now apply IH.
Qed.

Lemma blank_rev a : blank (List.rev a) = blank a.
Proof.
  unfold blank. induction a as [|c a IH]; simpl; [reflexivity|].
  rewrite forallb_app, IH. simpl. rewrite andb_true_r. apply andb_comm.
Qed.

Lemma tidy_head s :
  tidy s = true ->
  exists c s', s = c :: s' /\ isWhiteSpace c = false /\
    exists c' s'', List.rev s = c' :: s'' /\ isWhiteSpace c' = false.
Proof.
  destruct s as [|c s']; [discriminate|]. unfold tidy. intros H.
  apply andb_true_iff in H as [H _]. apply andb_true_iff in H as [H1 H2].
  apply negb_true_iff in H1, H2.
  exists c, s'. split; [reflexivity|]. split; [exact H1|].
  destruct (exists_last (l := c :: s') ltac:(discriminate)) as (front & z & E).
  rewrite E in H2 |- *. rewrite last_last in H2. rewrite rev_unit. eauto.
Qed.

(** Blanks around a tidy text are what [trim] removes. *)
Lemma trim_padded a s b :
  blank a = true -> tidy s = true -> blank b = true -> trim (a ++ s ++ b) = s.
Proof.
  intros Ha Hs Hb. unfold trim. rewrite (trimStart_blank _ _ Ha).
  destruct (tidy_head _ Hs) as (c & s' & -> & Hc & c' & s'' & Er & Hc').
  simpl trimStart at 2. rewrite Hc.
  change (c :: s' ++ b) with ((c :: s') ++ b).
  rewrite rev_app_distr, trimStart_blank by now rewrite blank_rev.
  rewrite Er. simpl. rewrite Hc'. rewrite <- Er. apply rev_involutive.
Qed.

Lemma tidy_plain s :
  tidy s = true -> s <> [] /\ ~ In EQUALS s /\ ~ In LF s.
Proof.
  destruct s as [|c s']; [discriminate|]. unfold tidy. intros H.
  apply andb_true_iff in H as [_ H]. rewrite forallb_forall in H.
  split; [discriminate|]. split; intros Hin; specialize (H _ Hin);
    apply andb_true_iff in H as [H1 H2];
    [rewrite N.eqb_refl in H1|rewrite N.eqb_refl in H2]; discriminate.
Qed.

Lemma blank_plain s : blank s = true -> ~ In EQUALS s /\ ~ In LF s.
Proof.
  unfold blank. rewrite forallb_forall. intros H.
  split; intros Hin; specialize (H _ Hin); apply andb_true_iff in H as [H1 H2];
    [discriminate H1|rewrite N.eqb_refl in H2; discriminate H2].
Qed.

Lemma wellFormed_one_line l : wellFormed l = true -> ~ In LF (text l).
Proof.
  destruct l as [lead name gap gap' value trail more|t]; simpl.
  - rewrite !andb_true_iff.
    intros ((((((Hl & Hn) & Hg) & Hg') & Hv) & Ht) & Hm).
    apply blank_plain in Hl as [_ Hl], Hg as [_ Hg], Hg' as [_ Hg'], Ht as [_ Ht].
    apply tidy_plain in Hn as (_ & _ & Hn), Hv as (_ & _ & Hv).
    assert (Hmore : ~ In LF match more with Some rest => EQUALS :: rest | None => [] end).
    { destruct more as [rest|]; [|tauto]. rewrite forallb_forall in Hm.
      intros [E|Hin]; [discriminate E|]. specialize (Hm _ Hin).
      rewrite N.eqb_refl in Hm. discriminate Hm. }
    rewrite !in_app_iff. simpl. rewrite !in_app_iff.
    intros [?|[?|[?|[E|[?|[?|[?|?]]]]]]]; try tauto. discriminate E.
  - rewrite forallb_forall. intros H Hin. specialize (H _ Hin).
    apply andb_true_iff in H as [_ H]. rewrite N.eqb_refl in H. discriminate H.
Qed.

(** What a well-formed line assigns. *)
Lemma assignment_text l : wellFormed l = true -> assignment (text l) = meaning l.
Proof.
  destruct l as [lead name gap gap' value trail more|t]; simpl.
  - rewrite !andb_true_iff.
    intros ((((((Hl & Hn) & Hg) & Hg') & Hv) & Ht) & _).
    pose proof (trim_padded _ _ _ Hl Hn Hg) as Ename.
    pose proof (trim_padded _ _ _ Hg' Hv Ht) as Evalue.
    apply blank_plain in Hl as [Hl _], Hg as [Hg _], Hg' as [Hg' _], Ht as [Ht _].
    apply tidy_plain in Hn as (Hn0 & Hn & _), Hv as (Hv0 & Hv & _).
    unfold assignment.
    replace (lead ++ name ++ gap ++ EQUALS :: gap' ++ value ++ trail ++
             match more with Some rest => EQUALS :: rest | None => [] end)
      with ((lead ++ name ++ gap) ++ EQUALS :: (gap' ++ value ++ trail) ++
            match more with Some rest => EQUALS :: rest | None => [] end)
      by (rewrite <- !app_assoc; reflexivity).
    rewrite split_app by (rewrite !in_app_iff; tauto).
    assert (E : exists pieces,
              split EQUALS ((gap' ++ value ++ trail) ++
                 match more with Some rest => EQUALS :: rest | None => [] end)
              = (gap' ++ value ++ trail) :: pieces).
    { destruct more as [rest|].
      - rewrite split_app by (rewrite !in_app_iff; tauto). eauto.
      - rewrite app_nil_r, split_without by (rewrite !in_app_iff; tauto). eauto. }
    destruct E as [pieces ->].
    destruct (lead ++ name ++ gap) as [|k ks] eqn:Ek.
    { apply app_eq_nil in Ek as [_ Ek]. apply app_eq_nil in Ek as [Ek _]. contradiction. }
    destruct (gap' ++ value ++ trail) as [|v vs] eqn:Ev.
    { apply app_eq_nil in Ev as [_ Ev]. apply app_eq_nil in Ev as [Ev _]. contradiction. }
    now rewrite Ename, Evalue.
  - intros H. unfold assignment. rewrite split_without; [now destruct t|].
    rewrite forallb_forall in H. intros Hin. specialize (H _ Hin).
    apply andb_true_iff in H as [H _]. rewrite N.eqb_refl in H. discriminate H.
Qed.

Lemma In_trimStart c s : In c (trimStart s) -> In c s.
Proof.
  induction s as [|x s IH]; simpl; [tauto|].
  destruct (isWhiteSpace x); [auto|]. simpl. tauto.
Qed.

Lemma In_trim c s : In c (trim s) -> In c s.
Proof.
  unfold trim. intros H. apply in_rev, In_trimStart in H.
  now apply in_rev, In_trimStart in H.
Qed.

Lemma trimStart_head s :
  match trimStart s with c :: _ => isWhiteSpace c = false | [] => True end.
Proof.
  induction s as [|x s IH]; simpl; [exact I|].
  destruct (isWhiteSpace x) eqn:E; [exact IH|exact E].
Qed.

Lemma trimStart_fixed s :
  match s with c :: _ => isWhiteSpace c = false | [] => True end -> trimStart s = s.
Proof. destruct s as [|c s]; simpl; [reflexivity|]. now intros ->. Qed.

(** What is left of a list cut at the front ends as the list does. *)
Lemma trimStart_suffix s : exists front, s = front ++ trimStart s.
Proof.
  induction s as [|x s [front IH]]; simpl; [now exists []|].
  destruct (isWhiteSpace x); [exists (x :: front); simpl; now f_equal|now exists []].
Qed.

Lemma trim_ends s :
  match trim s with c :: _ => isWhiteSpace c = false | [] => True end /\
  match List.rev (trim s) with c :: _ => isWhiteSpace c = false | [] => True end.
Proof.
  unfold trim. rewrite rev_involutive. split; [|apply trimStart_head].
  pose proof (trimStart_head s) as Hhead.
  destruct (trimStart_suffix (List.rev (trimStart s))) as [front E].
  apply (f_equal (@List.rev N)) in E. rewrite rev_involutive, rev_app_distr in E.
  destruct (List.rev (trimStart (List.rev (trimStart s)))) as [|c t]; [exact I|].
  rewrite E in Hhead. exact Hhead.
Qed.

Lemma trim_fixed s :
  match s with c :: _ => isWhiteSpace c = false | [] => True end ->
  match List.rev s with c :: _ => isWhiteSpace c = false | [] => True end ->
  trim s = s.
Proof.
  intros H1 H2. unfold trim.
  now rewrite (trimStart_fixed s H1), (trimStart_fixed _ H2), rev_involutive.
Qed.
End EnvFileFacts.

(** X16. A file of well-formed lines assigns the names and the values of
    its entries, in their order: blanks around a name or a value, a
    carriage return before the line feed among them, are dropped, what
    follows a second ["="] on a line is not read, and a line without ["="]
    assigns nothing. *)
Theorem env_file_entries (lines : list EnvFile.Line) :
  forallb EnvFile.wellFormed lines = true ->
  EnvFile.loadEnv (Some (EnvFile.join (List.map EnvFile.text lines)))
  = EnvFile.meanings lines.
Proof.
  intros H. simpl. unfold EnvFile.assignments, EnvFile.meanings.
  rewrite forallb_forall in H.
  destruct lines as [|l ls]; [reflexivity|].
  rewrite EnvFileFacts.split_join.
  - generalize (l :: ls) H. clear. intros lines H.
    induction lines as [|x lines IH]; simpl; [reflexivity|].
    rewrite EnvFileFacts.assignment_text by (apply H; now left).
    f_equal. apply IH. intros y Hy. apply H. now right.
  - discriminate.
  - apply List.Forall_forall. intros t Ht. apply in_map_iff in Ht as (x & <- & Hx).
    apply EnvFileFacts.wellFormed_one_line. now apply H.
Qed.

Lemma env_file_entries_witness :
  EnvFile.loadEnv (Some (EnvFile.join (List.map EnvFile.text EnvFile.sample)))
  = [ (EnvFile.codeUnits "PTV_DEVID", EnvFile.codeUnits "3001234");
      (EnvFile.codeUnits "PTV_KEY",
       EnvFile.codeUnits "9c1a2f6e-1b7d-4a52-8f3e-5d2c7b9e0a41") ].
Proof.
  apply (env_file_entries EnvFile.sample). reflexivity.
Defined.

(** X17. Whatever the file holds, no name and no value that is assigned
    has a ["="] or a line feed in it, or white space at either end: a value
    with a ["="] cannot be given by the file. *)
Theorem env_assignments_are_trimmed (file : option (list N)) (key value : list N) :
  In (key, value) (EnvFile.loadEnv file) ->
  ~ In EnvFile.EQUALS key /\ ~ In EnvFile.EQUALS value /\
  ~ In EnvFile.LF key /\ ~ In EnvFile.LF value /\
  EnvFile.trim key = key /\ EnvFile.trim value = value.
Proof.
  destruct file as [envContent|]; [|intros []]. simpl.
  unfold EnvFile.assignments. rewrite in_flat_map.
  intros (line & Hline & H).
  destruct (EnvFile.assignment line) as [a|] eqn:E; [|destruct H].
  destruct H as [->|[]]. unfold EnvFile.assignment in E.
  pose proof (EnvFileFacts.split_pieces EnvFile.EQUALS line) as Hsep.
  pose proof (EnvFileFacts.split_part EnvFile.EQUALS line) as Hpart.
  pose proof (EnvFileFacts.split_pieces EnvFile.LF envContent line Hline) as Hlf.
  destruct (EnvFile.split EnvFile.EQUALS line) as [|k [|v rest]];
    [discriminate E|destruct k; discriminate E|].
  destruct k as [|k0 k]; [discriminate E|]. destruct v as [|v0 v]; [discriminate E|].
  injection E as <- <-.
  assert (Hk := Hsep (k0 :: k) ltac:(now left)).
  assert (Hv := Hsep (v0 :: v) ltac:(right; now left)).
  assert (Hk' : ~ In EnvFile.LF (k0 :: k))
    by (intros Hin; apply Hlf; apply (Hpart (k0 :: k)); [now left|exact Hin]).
  assert (Hv' : ~ In EnvFile.LF (v0 :: v))
    by (intros Hin; apply Hlf; apply (Hpart (v0 :: v)); [right; now left|exact Hin]).
  repeat split;
    try (intros Hin; apply EnvFileFacts.In_trim in Hin; contradiction);
    apply EnvFileFacts.trim_fixed; apply EnvFileFacts.trim_ends.
Qed.

Lemma env_assignments_are_trimmed_witness :
  In (EnvFile.codeUnits "PTV_KEY", EnvFile.codeUnits "abc")
    (EnvFile.loadEnv (Some (EnvFile.codeUnits " PTV_KEY =abc=def"))) /\
  ~ In EnvFile.EQUALS (EnvFile.codeUnits "PTV_KEY") /\
  ~ In EnvFile.EQUALS (EnvFile.codeUnits "abc") /\
  ~ In EnvFile.LF (EnvFile.codeUnits "PTV_KEY") /\
  ~ In EnvFile.LF (EnvFile.codeUnits "abc") /\
  EnvFile.trim (EnvFile.codeUnits "PTV_KEY") = EnvFile.codeUnits "PTV_KEY" /\
  EnvFile.trim (EnvFile.codeUnits "abc") = EnvFile.codeUnits "abc".
Proof.
  split; [vm_compute; auto|].
  apply (env_assignments_are_trimmed (Some (EnvFile.codeUnits " PTV_KEY =abc=def"))).
  vm_compute. auto.
Defined.

